(** * Translation of pod specifications into ACI container-group requests

    A shallow embedding of [pkg/provider/aci.go] (the virtual-kubelet provider
    for Azure Container Instances): the translation of a [v1.Pod] into the
    container-group request submitted by [CreatePod], the Windows
    service-account volume filter, and the node filter of [GetPods].

    Conventions of the embedding.
    - Go [string] is [string]; Go maps are [gmap]s; a nil map or a nil slice
      that the code tests against [nil] is an [option] ([None] is nil).
    - [int64] and [int32] values are [Z]; [int64] division is [Z.quot]
      (truncation toward zero); the [int32] conversion wraps.
    - [float64] values are represented by rationals ([Q]).  The code only
      forms [float64(k) / c] for an [int64] [k] and a constant [c] in
      {10, 100, 1000}, and compares the quotient with the constants 0.01 and
      0.10.  The rational [k / c] stands for the double nearest to it; the
      comparisons come out the same on the rationals as on the doubles,
      because the quotient is below the constant exactly when [k < 1].
    - Pointers that are only dereferenced are replaced by the value they point
      to; pointers that are compared ([GetPods]) are addresses into a store.
    - Library functions and functions of this package that live in other
      files are taken as parameters ([GoLib], [Collaborators]). *)

From Stdlib Require Import ZArith QArith Qminmax Qround Ascii String List Lia.
From stdpp Require Import base option list strings gmap.

Local Open Scope Z_scope.

(** ** Errors *)

(** A Go [error] value.  [InvalidInput] is [errdefs.InvalidInput(msg)];
    [Errorf] is a plain [fmt.Errorf] / [errors.New] value; [Upstream] is an
    error handed back by a collaborator (resource manager, JSON decoder,
    backend client), whose dynamic type the provider never inspects. *)
Inductive error : Type :=
  | InvalidInput (msg : string)
  | Errorf (msg : string)
  | Upstream (msg : string).

(** A Go [(T, error)] pair in which exactly one side is meaningful. *)
Inductive result (A : Type) : Type :=
  | Ok (a : A)
  | Err (e : error).
Arguments Ok {A} a.
Arguments Err {A} e.

#[global] Instance result_ret : MRet result := fun A a => Ok a.
#[global] Instance result_bind : MBind result := fun A B f r =>
  match r with
  | Ok a => f a
  | Err e => Err e
  end.
#[global] Instance result_fmap : FMap result := fun A B f r =>
  match r with
  | Ok a => Ok (f a)
  | Err e => Err e
  end.

Definition is_Err {A} (r : result A) : Prop :=
  match r with Ok _ => False | Err _ => True end.

Definition isInvalidInput (e : error) : Prop :=
  match e with InvalidInput _ => True | _ => False end.

(** ** The Kubernetes side: [k8s.io/api/core/v1] *)

Module resource.
  (** [resource.Quantity], seen through the two readings the provider takes
      of it: [q.MilliValue()] and [q.Value()], both [int64]. *)
Record Quantity : Type := mkQuantity { MilliValue : Z; Value : Z }.
  (** The zero quantity that [ResourceList.Cpu()] and [.Memory()] return for
      an absent entry. *)
Definition zero : Quantity := mkQuantity 0 0.
End resource.

Module intstr.
  (** [intstr.IntOrString]: the [Type] tag selects the field in use. *)
Inductive IntOrString : Type :=
    | Int (IntVal : Z)
    | String (StrVal : string).
End intstr.

Module v1.
Definition ResourceCPU : string := "cpu".
Definition ResourceMemory : string := "memory".
Definition SecretTypeDockercfg : string := "kubernetes.io/dockercfg".
Definition SecretTypeDockerConfigJson : string := "kubernetes.io/dockerconfigjson".
Definition DockerConfigKey : string := ".dockercfg".
Definition DockerConfigJsonKey : string := ".dockerconfigjson".

Module ContainerPort.
Record t : Type := mk { Name : string; ContainerPort : Z; Protocol : string }.
End ContainerPort.

Module EnvVarSource.
    (** Each reference is kept only as the name it points to. *)
Record t : Type := mk {
      FieldRef : option string;
      ResourceFieldRef : option string;
      ConfigMapKeyRef : option string;
      SecretKeyRef : option string }.
End EnvVarSource.

Module EnvVar.
Record t : Type := mk {
      Name : string;
      Value : string;
      ValueFrom : option EnvVarSource.t }.
End EnvVar.

Module VolumeMount.
Record t : Type := mk { Name : string; MountPath : string; ReadOnly : bool }.
End VolumeMount.

Module HTTPGetAction.
Record t : Type := mk { Path : string; Port : intstr.IntOrString; Scheme : string }.
End HTTPGetAction.

Module Probe.
    (** [Exec] and [HTTPGet] are the two pointers of the embedded [Handler];
        an [ExecAction] is its command. *)
Record t : Type := mk {
      Exec : option (list string);
      HTTPGet : option HTTPGetAction.t;
      InitialDelaySeconds : Z;
      TimeoutSeconds : Z;
      PeriodSeconds : Z;
      SuccessThreshold : Z;
      FailureThreshold : Z }.
End Probe.

Module ResourceRequirements.
    (** [ResourceList] is [map[ResourceName]resource.Quantity]; [None] is the
        nil map. *)
Record t : Type := mk {
      Limits : option (gmap string resource.Quantity);
      Requests : option (gmap string resource.Quantity) }.
End ResourceRequirements.

Module Container.
    (** [Ports] is compared with [nil] by [getInitContainers], so the nil
        slice is kept apart from the empty one. *)
Record t : Type := mk {
      Name : string;
      Image : string;
      Command : list string;
      Args : list string;
      Ports : option (list ContainerPort.t);
      Env : list EnvVar.t;
      Resources : ResourceRequirements.t;
      VolumeMounts : list VolumeMount.t;
      LivenessProbe : option Probe.t;
      ReadinessProbe : option Probe.t }.
End Container.

Module PodSpec.
Record t : Type := mk {
      NodeName : string;
      RestartPolicy : string;
      InitContainers : list Container.t;
      Containers : list Container.t;
      ImagePullSecrets : list string }.
End PodSpec.

Module Pod.
Record t : Type := mk {
      Name : string;
      Namespace : string;
      ClusterName : string;
      UID : string;
      CreationTimestamp : string;
      Annotations : gmap string string;
      Spec : PodSpec.t }.
End Pod.

Module Secret.
Record t : Type := mk { Type_ : string; Data : gmap string string }.
End Secret.
End v1.

(** [x != nil] for a pointer, a slice or a map. *)
Definition notNil {A} (x : option A) : bool :=
  match x with Some _ => true | None => false end.

(** Elements of a possibly-nil slice; [len] and [range] see nil as empty. *)
Definition elems {A} (s : option (list A)) : list A := default [] s.

(** Indexing a possibly-nil [ResourceList]: [q, ok := rl[name]]. *)
Definition rl_lookup (rl : option (gmap string resource.Quantity)) (name : string)
  : option resource.Quantity :=
  rl ≫= (fun m => m !! name).

(** [ResourceList.Cpu()] and [ResourceList.Memory()]. *)
Definition Cpu (rl : option (gmap string resource.Quantity)) : resource.Quantity :=
  default resource.zero (rl_lookup rl v1.ResourceCPU).
Definition Memory (rl : option (gmap string resource.Quantity)) : resource.Quantity :=
  default resource.zero (rl_lookup rl v1.ResourceMemory).

(** ** Machine arithmetic *)

(** [int32(x)] for an [int64] [x]: keep the low 32 bits, read as signed. *)
Definition int32 (x : Z) : Z := (x + 2 ^ 31) mod 2 ^ 32 - 2 ^ 31.

(** [x < y] on the rationals that stand for [float64] values. *)
Definition Qltb (x y : Q) : bool := negb (Qle_bool y x).

(** [float64(k)] for an integer [k]. *)
Definition float64 (k : Z) : Q := inject_Z k.

(** ** Resource quantization ([getContainers], the request and limit block) *)

(** The local [cpuRequest]: 1.00 unless a CPU request is present, else the
    milli-value divided by 10 as [int64], then by 100.00 as [float64], and
    raised to 0.01. *)
Definition cpuRequest (r : v1.ResourceRequirements.t) : Q :=
  match rl_lookup (v1.ResourceRequirements.Requests r) v1.ResourceCPU with
  | Some _ =>
      let q := (float64 (resource.MilliValue (Cpu (v1.ResourceRequirements.Requests r)) ÷ 10) / 100)%Q in
      if Qltb q (1 # 100) then (1 # 100)%Q else q
  | None => 1%Q
  end.

(** The local [memoryRequest]: 1.50 unless a memory request is present, else
    the byte value divided by 100000000 as [int64], then by 10.00 as
    [float64], and raised to 0.10. *)
Definition memoryRequest (r : v1.ResourceRequirements.t) : Q :=
  match rl_lookup (v1.ResourceRequirements.Requests r) v1.ResourceMemory with
  | Some _ =>
      let q := (float64 (resource.Value (Memory (v1.ResourceRequirements.Requests r)) ÷ 100000000) / 10)%Q in
      if Qltb q (1 # 10) then (1 # 10)%Q else q
  | None => (15 # 10)%Q
  end.

(** The local [cpuLimit], computed only inside [if Limits != nil]. *)
Definition cpuLimit (r : v1.ResourceRequirements.t) : Q :=
  match rl_lookup (v1.ResourceRequirements.Limits r) v1.ResourceCPU with
  | Some _ => (float64 (resource.MilliValue (Cpu (v1.ResourceRequirements.Limits r))) / 1000)%Q
  | None => cpuRequest r
  end.

(** The local [memoryLimit], computed only inside [if Limits != nil]. *)
Definition memoryLimit (r : v1.ResourceRequirements.t) : Q :=
  match rl_lookup (v1.ResourceRequirements.Limits r) v1.ResourceMemory with
  | Some _ => (float64 (resource.Value (Memory (v1.ResourceRequirements.Limits r)) ÷ 100000000) / 10)%Q
  | None => memoryRequest r
  end.

(** ** The backend side: the [azaci] SDK types and the request wrapper *)

Module azaci.
Definition ContainerGroupNetworkProtocolTCP : string := "TCP".
Definition ContainerGroupIPAddressTypePublic : string := "Public".

Module ContainerPort.
Record t : Type := mk { Protocol : string; Port : Z }.
End ContainerPort.

Module VolumeMount.
Record t : Type := mk { Name : string; MountPath : string; ReadOnly : bool }.
End VolumeMount.

Module EnvironmentVariable.
    (** [Value] and [SecureValue] are [*string]: [None] is the nil pointer. *)
Record t : Type := mk {
      Name : string;
      Value : option string;
      SecureValue : option string }.
End EnvironmentVariable.

Module GpuResource.
Record t : Type := mk { Count : Z; Sku : string }.
End GpuResource.

Module ResourceRequests.
Record t : Type := mk { MemoryInGB : Q; CPU : Q; Gpu : option GpuResource.t }.
End ResourceRequests.

Module ResourceLimits.
Record t : Type := mk { MemoryInGB : Q; CPU : Q; Gpu : option GpuResource.t }.
End ResourceLimits.

Module ResourceRequirements.
Record t : Type := mk {
      Requests : ResourceRequests.t;
      Limits : option ResourceLimits.t }.
End ResourceRequirements.

Module ContainerHTTPGet.
Record t : Type := mk { Path : string; Port : Z; Scheme : string }.
End ContainerHTTPGet.

Module ContainerProbe.
Record t : Type := mk {
      Exec : option (list string);
      HTTPGet : option ContainerHTTPGet.t;
      InitialDelaySeconds : Z;
      PeriodSeconds : Z;
      FailureThreshold : Z;
      SuccessThreshold : Z;
      TimeoutSeconds : Z }.
End ContainerProbe.

Module Container.
Record t : Type := mk {
      Name : string;
      Image : string;
      Command : list string;
      Ports : list ContainerPort.t;
      EnvironmentVariables : list EnvironmentVariable.t;
      Resources : ResourceRequirements.t;
      VolumeMounts : list VolumeMount.t;
      LivenessProbe : option ContainerProbe.t;
      ReadinessProbe : option ContainerProbe.t }.
End Container.

Module InitContainerDefinition.
Record t : Type := mk {
      Name : string;
      Image : string;
      Command : list string;
      EnvironmentVariables : list EnvironmentVariable.t;
      VolumeMounts : list VolumeMount.t }.
End InitContainerDefinition.

Module Volume.
    (** Only the name is read in this file; the volume source (Azure file
        share, empty dir, secret, git repo) is an opaque payload. *)
Record t : Type := mk { Name : string; Source : string }.
End Volume.

Module ImageRegistryCredential.
Record t : Type := mk { Server : string; Username : string; Password : string }.
End ImageRegistryCredential.

Module Port.
Record t : Type := mk { Protocol : string; Port : Z }.
End Port.

Module IPAddress.
Record t : Type := mk {
      Ports : list Port.t;
      Type_ : string;
      DNSNameLabel : option string }.
End IPAddress.

Module ContainerGroup.
    (** A listed container group as [GetPods] reads it.  [Tags] is
        [map[string]*string]: a tag is an address into the store of strings
        ([None] is the nil pointer). *)
Record t : Type := mk {
      Name : string;
      ID : string;
      Tags : gmap string (option positive) }.
End ContainerGroup.
End azaci.

Module client2.
Module ContainerGroupWrapper.
    (** The request built by [CreatePod]: the wrapper with its properties
        flattened.  [Diagnostics], [SubnetIds] and [DNSConfig] belong to the
        diagnostics and virtual-network code and are not represented. *)
Record t : Type := mk {
      Location : string;
      Tags : gmap string string;
      RestartPolicy : string;
      OsType : string;
      InitContainers : list azaci.InitContainerDefinition.t;
      Containers : list azaci.Container.t;
      Volumes : list azaci.Volume.t;
      ImageRegistryCredentials : list azaci.ImageRegistryCredential.t;
      IPAddress : option azaci.IPAddress.t }.
End ContainerGroupWrapper.
End client2.

(** ** The provider and its collaborators *)

(** [manager.ResourceManager], of which only [GetSecret(name, namespace)] is
    called here; it may fail, or return a nil secret. *)
Record ResourceManager : Type := {
  GetSecret : string -> string -> result (option v1.Secret.t) }.

(** [client2.AzClientsInterface], as the responses the backend gives to the
    two calls modelled here (compare [MockACIProvider]). *)
Record AzClientsInterface : Type := {
  CreateContainerGroup :
    string -> string -> string -> client2.ContainerGroupWrapper.t -> option error;
  GetContainerGroupListResult :
    string -> result (option (list azaci.ContainerGroup.t)) }.

(** The fields of [ACIProvider] read by the modelled methods.  The provider
    is used through a pointer; [nodeNameAddr] is [&p.nodeName], the address at
    which its [nodeName] field is stored. *)
Record ACIProvider : Type := {
  azClientsAPIs : AzClientsInterface;
  resourceManager : ResourceManager;
  resourceGroup : string;
  region : string;
  nodeName : string;
  nodeNameAddr : positive;
  operatingSystem : string;
  gpuSKUs : list string;
  subnetName : string }.

Definition serviceAccountSecretMountPath : string :=
  "/var/run/secrets/kubernetes.io/serviceaccount".
Definition virtualKubeletDNSNameLabel : string := "virtualkubelet.io/dnsnamelabel".
Definition gpuResourceName : string := "nvidia.com/gpu".
Definition gpuTypeAnnotation : string := "virtual-kubelet.io/gpu-type".

(** [PodIdentifier], the key under which the tracker follows a pod. *)
Record PodIdentifier : Type := { namespace : string; name : string }.

(** The calls made on [azClientsAPIs], in the order in which they are made. *)
Inductive BackendCall : Type :=
  | CallCreateContainerGroup (resourceGroup podNS podName : string)
      (cg : client2.ContainerGroupWrapper.t)
  | CallGetContainerGroupListResult (resourceGroup : string).

(** A computation that may call the backend: it extends the log of calls and
    ends with a value or an error. *)
Definition Backend (A : Type) : Type := list BackendCall -> list BackendCall * result A.

#[global] Instance backend_ret : MRet Backend := fun A a log => (log, Ok a).
#[global] Instance backend_bind : MBind Backend := fun A B f m log =>
  match m log with
  | (log', Ok a) => f a log'
  | (log', Err e) => (log', Err e)
  end.

(** A step that does not reach the backend. *)
Definition pure {A} (r : result A) : Backend A := fun log => (log, r).

(** Run a computation from the empty log. *)
Definition run {A} (m : Backend A) : list BackendCall * result A := m [].

(** [AuthConfig] and [DockerConfigEntry], as far as the credentials code
    reads them. *)
Record AuthConfig : Type := {
  AuthUsername : string; AuthPassword : string; Auth : string }.
Record DockerConfigEntry : Type := {
  EntryUsername : string; EntryPassword : string }.

(** Functions of the Go standard library.  A decoded JSON object is the list
    of its entries in the order in which [range] visits the map. *)
Class GoLib : Type := {
  EqualFold : string -> string -> bool;
  base64Decode : string -> result string;
  unmarshalAuthConfigs : string -> result (list (string * AuthConfig));
  unmarshalDockerConfigJSON : string -> result (list (string * DockerConfigEntry)) }.

(** Functions of this package that are defined in other files.
    [amendVnetResources] receives the wrapper by value and may change the
    properties it points to; it is given here as the wrapper it leaves
    behind.  [containerGroupToPod] reads the tags of the group through the
    store of strings. *)
Class Collaborators : Type := {
  getProtocol : string -> string;
  getVolumes : ACIProvider -> v1.Pod.t -> result (list azaci.Volume.t);
  amendVnetResources :
    ACIProvider -> client2.ContainerGroupWrapper.t -> v1.Pod.t ->
    client2.ContainerGroupWrapper.t;
  containerGroupToPod : gmap positive string -> azaci.ContainerGroup.t -> result v1.Pod.t }.

(** ** Loops *)

(** The loop shape shared by the translation functions:
    [for _, x := range xs { y, err := body(x); if err != nil { return nil, err };
    out = append(out, y) }; return out, nil]. *)
Fixpoint rangeAppend {A B} (body : A -> result B) (xs : list A) (out : list B)
  : result (list B) :=
  match xs with
  | [] => Ok out
  | x :: xs' =>
      match body x with
      | Err e => Err e
      | Ok y => rangeAppend body xs' (out ++ [y])
      end
  end.

(** [fmt]'s rendering of a slice of strings under [%v] and [%s]. *)
Definition fmtSlice (l : list string) : string :=
  "[" ++ String.concat " " l ++ "]".

(** The text of an error, as [%v] prints it. *)
Definition errorString (e : error) : string :=
  match e with
  | InvalidInput msg => msg
  | Errorf msg => msg
  | Upstream msg => msg
  end.

(** [strings.Split(s, ":")]: the pieces of [s] between colons. *)
Fixpoint splitColonFrom (s : string) (piece : string) : list string :=
  match s with
  | EmptyString => [piece]
  | String c s' =>
      if Ascii.eqb c ":"%char
      then piece :: splitColonFrom s' ""
      else splitColonFrom s' (piece ++ String c "")
  end.
Definition splitColon (s : string) : list string := splitColonFrom s "".

Section Translation.
Context `{lib : GoLib} `{collab : Collaborators}.

(** *** Containers and init containers *)

Definition argsWithoutCommand : string :=
  "ACI does not support providing args without specifying the command. Please supply both command and args to the pod spec.".

(** verify if Container is properly declared for the use on ACI *)
Definition verifyContainer (container : v1.Container.t) : option error :=
  if (length (v1.Container.Command container) =? 0)%nat
     && (0 <? length (v1.Container.Args container))%nat
  then Some (InvalidInput argsWithoutCommand)
  else None.

Definition getCommand (container : v1.Container.t) : list string :=
  v1.Container.Command container ++ v1.Container.Args container.

Definition getVolumeMounts (container : v1.Container.t) : list azaci.VolumeMount.t :=
  (fun m => azaci.VolumeMount.mk (v1.VolumeMount.Name m) (v1.VolumeMount.MountPath m)
              (v1.VolumeMount.ReadOnly m))
    <$> v1.Container.VolumeMounts container.

(** If the variable is a secret, use SecureValue. *)
Definition getACIEnvVar (e : v1.EnvVar.t) : azaci.EnvironmentVariable.t :=
  match v1.EnvVar.ValueFrom e ≫= v1.EnvVarSource.SecretKeyRef with
  | Some _ => azaci.EnvironmentVariable.mk (v1.EnvVar.Name e) None (Some (v1.EnvVar.Value e))
  | None => azaci.EnvironmentVariable.mk (v1.EnvVar.Name e) (Some (v1.EnvVar.Value e)) None
  end.

(** The loop over [container.Env]: a variable is appended only when its value
    is not the empty string. *)
Fixpoint environmentVariables (env : list v1.EnvVar.t)
    (out : list azaci.EnvironmentVariable.t) : list azaci.EnvironmentVariable.t :=
  match env with
  | [] => out
  | e :: env' =>
      if String.eqb (v1.EnvVar.Value e) ""
      then environmentVariables env' out
      else environmentVariables env' (out ++ [getACIEnvVar e])
  end.

Definition getEnvironmentVariables (container : v1.Container.t)
  : list azaci.EnvironmentVariable.t :=
  environmentVariables (v1.Container.Env container) [].

(** The body of the loop of [getInitContainers]. *)
Definition newInitContainer (initContainer : v1.Container.t)
  : result azaci.InitContainerDefinition.t :=
  match verifyContainer initContainer with
  | Some err => Err err
  | None =>
  if notNil (v1.Container.Ports initContainer) then
    Err (InvalidInput "azure container instances initContainers do not support ports")
  else if notNil (v1.ResourceRequirements.Requests (v1.Container.Resources initContainer)) then
    Err (InvalidInput "azure container instances initContainers do not support resources requests")
  else if notNil (v1.ResourceRequirements.Limits (v1.Container.Resources initContainer)) then
    Err (InvalidInput "azure container instances initContainers do not support resources limits")
  else if notNil (v1.Container.LivenessProbe initContainer) then
    Err (InvalidInput "azure container instances initContainers do not support livenessProbe")
  else if notNil (v1.Container.ReadinessProbe initContainer) then
    Err (InvalidInput "azure container instances initContainers do not support readinessProbe")
  else
    Ok (azaci.InitContainerDefinition.mk
          (v1.Container.Name initContainer)
          (v1.Container.Image initContainer)
          (getCommand initContainer)
          (getEnvironmentVariables initContainer)
          (getVolumeMounts initContainer))
  end.

(** get InitContainers defined in Pod as []aci.InitContainerDefinition *)
Definition getInitContainers (pod : v1.Pod.t)
  : result (list azaci.InitContainerDefinition.t) :=
  rangeAppend newInitContainer (v1.PodSpec.InitContainers (v1.Pod.Spec pod)) [].


(** *** GPU SKU selection *)

(** The loop of [getGPUSKU] over the supported SKUs: return the first one
    that [strings.EqualFold] accepts against the desired SKU. *)
Fixpoint supportedSKUFor (desiredSKU : string) (skus : list string) : option string :=
  match skus with
  | [] => None
  | supportedSKU :: skus' =>
      if EqualFold desiredSKU supportedSKU
      then Some supportedSKU
      else supportedSKUFor desiredSKU skus'
  end.

Definition getGPUSKU (p : ACIProvider) (pod : v1.Pod.t) : result string :=
  match gpuSKUs p with
  | [] =>
      Err (Errorf ("the pod requires GPU resource, but ACI doesn't provide GPU enabled container group in region "
                   ++ region p))
  | first :: _ =>
      match v1.Pod.Annotations pod !! gpuTypeAnnotation with
      | Some desiredSKU =>
          match supportedSKUFor desiredSKU (gpuSKUs p) with
          | Some supportedSKU => Ok supportedSKU
          | None =>
              Err (Errorf ("the pod requires GPU SKU " ++ desiredSKU
                           ++ ", but ACI only supports SKUs " ++ region p
                           ++ " in region " ++ fmtSlice (gpuSKUs p)))
          end
      | None => Ok first
      end
  end.

(** *** Probes *)

(** The loop of [getProbe] that resolves a named port: [portValue] stays 0
    unless a declared port carries the name, and the first such port wins. *)
Fixpoint namedPort (portName : string) (ports : list v1.ContainerPort.t) : Z :=
  match ports with
  | [] => 0
  | p :: ports' =>
      if String.eqb portName (v1.ContainerPort.Name p)
      then v1.ContainerPort.ContainerPort p
      else namedPort portName ports'
  end.

(** The quotation marks around exec and httpGet in the two messages are
    written as apostrophes. *)
Definition getProbe (probe : v1.Probe.t) (ports : list v1.ContainerPort.t)
  : result azaci.ContainerProbe.t :=
  if notNil (v1.Probe.Exec probe) && notNil (v1.Probe.HTTPGet probe) then
    Err (Errorf "probe may not specify more than one of 'exec' and 'httpGet'")
  else if negb (notNil (v1.Probe.Exec probe)) && negb (notNil (v1.Probe.HTTPGet probe)) then
    Err (Errorf "probe must specify one of 'exec' and 'httpGet'")
  else
    httpGET ←
      match v1.Probe.HTTPGet probe with
      | None => Ok None
      | Some h =>
          portValue ←
            match v1.HTTPGetAction.Port h with
            | intstr.Int n => Ok (int32 n)
            | intstr.String portName =>
                let portValue := namedPort portName ports in
                if (portValue =? 0)%Z
                then Err (Errorf ("unable to find named port: " ++ portName))
                else Ok portValue
            end;
          Ok (Some (azaci.ContainerHTTPGet.mk (v1.HTTPGetAction.Path h) portValue
                      (v1.HTTPGetAction.Scheme h)))
      end;
    Ok (azaci.ContainerProbe.mk
          (v1.Probe.Exec probe)
          httpGET
          (v1.Probe.InitialDelaySeconds probe)
          (v1.Probe.PeriodSeconds probe)
          (v1.Probe.FailureThreshold probe)
          (v1.Probe.SuccessThreshold probe)
          (v1.Probe.TimeoutSeconds probe)).

(** A probe field of a container: translated when present. *)
Definition getProbeOpt (probe : option v1.Probe.t) (ports : list v1.ContainerPort.t)
  : result (option azaci.ContainerProbe.t) :=
  match probe with
  | None => Ok None
  | Some pr => Some <$> getProbe pr ports
  end.

(** *** Containers *)

(** The [if gpu, ok := Limits[gpuResourceName]; ok] block: the GPU resource
    shared by the requests and the limits of the container. *)
Definition gpuResource (p : ACIProvider) (pod : v1.Pod.t) (r : v1.ResourceRequirements.t)
  : result (option azaci.GpuResource.t) :=
  match rl_lookup (v1.ResourceRequirements.Limits r) gpuResourceName with
  | Some gpu =>
      sku ← getGPUSKU p pod;
      if (resource.Value gpu =? 0)%Z
      then Err (Errorf "GPU must be a integer number")
      else Ok (Some (azaci.GpuResource.mk (int32 (resource.Value gpu)) sku))
  | None => Ok None
  end.

(** The resources of a translated container: requests always, limits (and a
    GPU on both sides) only under [if Resources.Limits != nil]. *)
Definition aciResources (p : ACIProvider) (pod : v1.Pod.t) (r : v1.ResourceRequirements.t)
  : result azaci.ResourceRequirements.t :=
  if notNil (v1.ResourceRequirements.Limits r) then
    gpu ← gpuResource p pod r;
    Ok (azaci.ResourceRequirements.mk
          (azaci.ResourceRequests.mk (memoryRequest r) (cpuRequest r) gpu)
          (Some (azaci.ResourceLimits.mk (memoryLimit r) (cpuLimit r) gpu)))
  else
    Ok (azaci.ResourceRequirements.mk
          (azaci.ResourceRequests.mk (memoryRequest r) (cpuRequest r) None)
          None).

Definition getContainerPorts (c : v1.Container.t) : list azaci.ContainerPort.t :=
  (fun port => azaci.ContainerPort.mk (getProtocol (v1.ContainerPort.Protocol port))
                 (v1.ContainerPort.ContainerPort port))
    <$> elems (v1.Container.Ports c).

(** The body of the loop of [getContainers]: the translation of one
    container, in the order of the source. *)
Definition aciContainer (p : ACIProvider) (pod : v1.Pod.t) (c : v1.Container.t)
  : result azaci.Container.t :=
  if (length (v1.Container.Command c) =? 0)%nat && (0 <? length (v1.Container.Args c))%nat
  then Err (InvalidInput argsWithoutCommand)
  else
    let cmd := v1.Container.Command c ++ v1.Container.Args c in
    let ports := getContainerPorts c in
    let volMount := getVolumeMounts c in
    let env := environmentVariables (v1.Container.Env c) [] in
    resources ← aciResources p pod (v1.Container.Resources c);
    liveness ← getProbeOpt (v1.Container.LivenessProbe c) (elems (v1.Container.Ports c));
    readiness ← getProbeOpt (v1.Container.ReadinessProbe c) (elems (v1.Container.Ports c));
    Ok (azaci.Container.mk (v1.Container.Name c) (v1.Container.Image c) cmd ports env
          resources volMount liveness readiness).

Definition getContainers (p : ACIProvider) (pod : v1.Pod.t)
  : result (list azaci.Container.t) :=
  rangeAppend (aciContainer p pod) (v1.PodSpec.Containers (v1.Pod.Spec pod)) [].

(** *** Image pull secrets *)

Definition makeRegistryCredential (server : string) (authConfig : AuthConfig)
  : result azaci.ImageRegistryCredential.t :=
  if String.eqb (AuthUsername authConfig) "" then
    if String.eqb (Auth authConfig) "" then
      Err (Errorf ("no username present in auth config for server: " ++ server))
    else
      match base64Decode (Auth authConfig) with
      | Err err =>
          Err (Errorf ("error decoding the auth for server: " ++ server ++ " Error: "
                       ++ errorString err))
      | Ok decoded =>
          match splitColon decoded with
          | [username; password] =>
              Ok (azaci.ImageRegistryCredential.mk server username password)
          | _ => Err (Errorf ("malformed auth for server: " ++ server))
          end
      end
  else
    Ok (azaci.ImageRegistryCredential.mk server (AuthUsername authConfig)
          (AuthPassword authConfig)).

Definition makeRegistryCredentialFromDockerConfig (server : string)
    (configEntry : DockerConfigEntry) : result azaci.ImageRegistryCredential.t :=
  if String.eqb (EntryUsername configEntry) "" then
    Err (Errorf ("no username present in auth config for server: " ++ server))
  else
    Ok (azaci.ImageRegistryCredential.mk server (EntryUsername configEntry)
          (EntryPassword configEntry)).

Definition readDockerCfgSecret (secret : v1.Secret.t)
    (ips : list azaci.ImageRegistryCredential.t)
  : result (list azaci.ImageRegistryCredential.t) :=
  match v1.Secret.Data secret !! v1.DockerConfigKey with
  | None => Err (Errorf "no dockercfg present in secret")
  | Some repoData =>
      authConfigs ← unmarshalAuthConfigs repoData;
      rangeAppend (fun entry => makeRegistryCredential entry.1 entry.2) authConfigs ips
  end.

Definition readDockerConfigJSONSecret (secret : v1.Secret.t)
    (ips : list azaci.ImageRegistryCredential.t)
  : result (list azaci.ImageRegistryCredential.t) :=
  match v1.Secret.Data secret !! v1.DockerConfigJsonKey with
  | None => Err (Errorf "no dockerconfigjson present in secret")
  | Some repoData =>
      auths ← unmarshalDockerConfigJSON repoData;
      if (length auths =? 0)%nat then
        Err (Errorf "malformed dockerconfigjson in secret")
      else
        rangeAppend (fun entry => makeRegistryCredentialFromDockerConfig entry.1 entry.2)
          auths ips
  end.

(** The loop of [getImagePullSecrets].  On an error the Go function may also
    hand back the credentials gathered so far; its caller discards them. *)
Fixpoint imagePullSecrets (p : ACIProvider) (namespace : string) (refs : list string)
    (ips : list azaci.ImageRegistryCredential.t)
  : result (list azaci.ImageRegistryCredential.t) :=
  match refs with
  | [] => Ok ips
  | ref :: refs' =>
      secret ← GetSecret (resourceManager p) ref namespace;
      match secret with
      | None => Err (Errorf "error getting image pull secret")
      | Some secret =>
          ips' ←
            (if String.eqb (v1.Secret.Type_ secret) v1.SecretTypeDockercfg then
               readDockerCfgSecret secret ips
             else if String.eqb (v1.Secret.Type_ secret) v1.SecretTypeDockerConfigJson then
               readDockerConfigJSONSecret secret ips
             else
               Err (Errorf "image pull secret type is not one of kubernetes.io/dockercfg or kubernetes.io/dockerconfigjson"));
          imagePullSecrets p namespace refs' ips'
      end
  end.

Definition getImagePullSecrets (p : ACIProvider) (pod : v1.Pod.t)
  : result (list azaci.ImageRegistryCredential.t) :=
  imagePullSecrets p (v1.Pod.Namespace pod)
    (v1.PodSpec.ImagePullSecrets (v1.Pod.Spec pod)) [].

(** *** The Windows service-account volume filter *)

(** The inner loop of [filterWindowsServiceAccountSecretVolume]: a mount is
    kept unless its path folds to the service-account path, in which case the
    name of its volume is recorded. *)
Fixpoint filterVolumeMounts (mounts : list azaci.VolumeMount.t)
    (volumeMounts : list azaci.VolumeMount.t) (names : gset string)
  : list azaci.VolumeMount.t * gset string :=
  match mounts with
  | [] => (volumeMounts, names)
  | volumeMount :: mounts' =>
      if negb (EqualFold serviceAccountSecretMountPath (azaci.VolumeMount.MountPath volumeMount))
      then filterVolumeMounts mounts' (volumeMounts ++ [volumeMount]) names
      else filterVolumeMounts mounts' volumeMounts
             ({[ azaci.VolumeMount.Name volumeMount ]} ∪ names)
  end.

Definition withVolumeMounts (c : azaci.Container.t) (mounts : list azaci.VolumeMount.t)
  : azaci.Container.t :=
  azaci.Container.mk (azaci.Container.Name c) (azaci.Container.Image c)
    (azaci.Container.Command c) (azaci.Container.Ports c)
    (azaci.Container.EnvironmentVariables c) (azaci.Container.Resources c)
    mounts (azaci.Container.LivenessProbe c) (azaci.Container.ReadinessProbe c).

(** The outer loop: every container gets its filtered mounts, and the set of
    recorded volume names is carried from one container to the next. *)
Fixpoint filterContainers (containers : list azaci.Container.t) (names : gset string)
  : list azaci.Container.t * gset string :=
  match containers with
  | [] => ([], names)
  | container :: containers' =>
      let '(volumeMounts, names1) :=
        filterVolumeMounts (azaci.Container.VolumeMounts container) [] names in
      let '(rest, names2) := filterContainers containers' names1 in
      (withVolumeMounts container volumeMounts :: rest, names2)
  end.

(** The last loop: a volume is kept unless its name was recorded. *)
Fixpoint filterVolumes (vols : list azaci.Volume.t) (names : gset string)
    (volumes : list azaci.Volume.t) : list azaci.Volume.t :=
  match vols with
  | [] => volumes
  | volume :: vols' =>
      if bool_decide (azaci.Volume.Name volume ∈ names)
      then filterVolumes vols' names volumes
      else filterVolumes vols' names (volumes ++ [volume])
  end.

Definition withContainersVolumes (cgw : client2.ContainerGroupWrapper.t)
    (containers : list azaci.Container.t) (volumes : list azaci.Volume.t)
  : client2.ContainerGroupWrapper.t :=
  client2.ContainerGroupWrapper.mk
    (client2.ContainerGroupWrapper.Location cgw)
    (client2.ContainerGroupWrapper.Tags cgw)
    (client2.ContainerGroupWrapper.RestartPolicy cgw)
    (client2.ContainerGroupWrapper.OsType cgw)
    (client2.ContainerGroupWrapper.InitContainers cgw)
    containers volumes
    (client2.ContainerGroupWrapper.ImageRegistryCredentials cgw)
    (client2.ContainerGroupWrapper.IPAddress cgw).

(** Filters service account secret volume for Windows.  The Go function
    updates the wrapper in place; here the updated wrapper is returned. *)
Definition filterWindowsServiceAccountSecretVolume (osType : string)
    (cgw : client2.ContainerGroupWrapper.t) : client2.ContainerGroupWrapper.t :=
  if EqualFold osType "Windows" then
    let '(containers, serviceAccountSecretVolumeName) :=
      filterContainers (client2.ContainerGroupWrapper.Containers cgw) ∅ in
    if (size serviceAccountSecretVolumeName =? 0)%nat then
      withContainersVolumes cgw containers (client2.ContainerGroupWrapper.Volumes cgw)
    else
      withContainersVolumes cgw containers
        (filterVolumes (client2.ContainerGroupWrapper.Volumes cgw)
           serviceAccountSecretVolumeName [])
  else cgw.

(** *** CreatePod *)

(** The public-IP port list: one TCP port per declared container port, over
    the containers in order. *)
Definition groupPorts (containers : list azaci.Container.t) : list azaci.Port.t :=
  c ← containers;
  (fun port => azaci.Port.mk azaci.ContainerGroupNetworkProtocolTCP
                 (azaci.ContainerPort.Port port))
    <$> azaci.Container.Ports c.

Definition withIPAddress (cg : client2.ContainerGroupWrapper.t)
    (ip : option azaci.IPAddress.t) : client2.ContainerGroupWrapper.t :=
  client2.ContainerGroupWrapper.mk
    (client2.ContainerGroupWrapper.Location cg)
    (client2.ContainerGroupWrapper.Tags cg)
    (client2.ContainerGroupWrapper.RestartPolicy cg)
    (client2.ContainerGroupWrapper.OsType cg)
    (client2.ContainerGroupWrapper.InitContainers cg)
    (client2.ContainerGroupWrapper.Containers cg)
    (client2.ContainerGroupWrapper.Volumes cg)
    (client2.ContainerGroupWrapper.ImageRegistryCredentials cg)
    ip.

Definition withTags (cg : client2.ContainerGroupWrapper.t) (tags : gmap string string)
  : client2.ContainerGroupWrapper.t :=
  client2.ContainerGroupWrapper.mk
    (client2.ContainerGroupWrapper.Location cg)
    tags
    (client2.ContainerGroupWrapper.RestartPolicy cg)
    (client2.ContainerGroupWrapper.OsType cg)
    (client2.ContainerGroupWrapper.InitContainers cg)
    (client2.ContainerGroupWrapper.Containers cg)
    (client2.ContainerGroupWrapper.Volumes cg)
    (client2.ContainerGroupWrapper.ImageRegistryCredentials cg)
    (client2.ContainerGroupWrapper.IPAddress cg).

(** [create ipaddress if containerPort is used]: the block of [CreatePod]
    that attaches the public IP address. *)
Definition attachIPAddress (p : ACIProvider) (pod : v1.Pod.t)
    (cg : client2.ContainerGroupWrapper.t) : client2.ContainerGroupWrapper.t :=
  let ports := groupPorts (client2.ContainerGroupWrapper.Containers cg) in
  if (0 <? length ports)%nat && String.eqb (subnetName p) "" then
    let dnsNameLabel := default "" (v1.Pod.Annotations pod !! virtualKubeletDNSNameLabel) in
    withIPAddress cg
      (Some (azaci.IPAddress.mk ports azaci.ContainerGroupIPAddressTypePublic
               (if String.eqb dnsNameLabel "" then None else Some dnsNameLabel)))
  else cg.

Definition podTags (pod : v1.Pod.t) : gmap string string :=
  <["PodName" := v1.Pod.Name pod]>
  (<["ClusterName" := v1.Pod.ClusterName pod]>
  (<["NodeName" := v1.PodSpec.NodeName (v1.Pod.Spec pod)]>
  (<["Namespace" := v1.Pod.Namespace pod]>
  (<["UID" := v1.Pod.UID pod]>
  (<["CreationTimestamp" := v1.Pod.CreationTimestamp pod]> ∅))))).

(** The request of [CreatePod] up to the point where it is submitted: the
    four translations in the order of the source, the Windows filter, the IP
    address, the tags and the virtual-network amendment. *)
Definition containerGroupRequest (p : ACIProvider) (pod : v1.Pod.t)
  : result client2.ContainerGroupWrapper.t :=
  containers ← getContainers p pod;
  creds ← getImagePullSecrets p pod;
  volumes ← getVolumes p pod;
  initContainers ← getInitContainers pod;
  let cg :=
    client2.ContainerGroupWrapper.mk (region p) ∅
      (v1.PodSpec.RestartPolicy (v1.Pod.Spec pod)) (operatingSystem p)
      initContainers containers volumes creds None in
  let cg := filterWindowsServiceAccountSecretVolume (operatingSystem p) cg in
  let cg := attachIPAddress p pod cg in
  let cg := withTags cg (podTags pod) in
  Ok (amendVnetResources p cg pod).

(** [p.azClientsAPIs.CreateContainerGroup(...)]: the call is logged and the
    backend's answer becomes the result. *)
Definition callCreateContainerGroup (p : ACIProvider) (podNS podName : string)
    (cg : client2.ContainerGroupWrapper.t) : Backend unit :=
  fun log =>
    (log ++ [CallCreateContainerGroup (resourceGroup p) podNS podName cg],
     match CreateContainerGroup (azClientsAPIs p) (resourceGroup p) podNS podName cg with
     | Some err => Err err
     | None => Ok tt
     end).

(** CreatePod accepts a Pod definition and creates an ACI deployment. *)
Definition CreatePod (p : ACIProvider) (pod : v1.Pod.t) : Backend unit :=
  cg ← pure (containerGroupRequest p pod);
  callCreateContainerGroup p (v1.Pod.Namespace pod) (v1.Pod.Name pod) cg.

(** *** GetPods and ListActivePods *)

Definition callGetContainerGroupListResult (p : ACIProvider)
  : Backend (option (list azaci.ContainerGroup.t)) :=
  fun log =>
    (log ++ [CallGetContainerGroupListResult (resourceGroup p)],
     GetContainerGroupListResult (azClientsAPIs p) (resourceGroup p)).

(** [cg.Tags["NodeName"]]: the pointer stored under the key, nil when the key
    is absent. *)
Definition nodeNameTag (cg : azaci.ContainerGroup.t) : option positive :=
  default None (azaci.ContainerGroup.Tags cg !! "NodeName").

(** The loop of [GetPods] over the listed groups.  The outcome of
    [validation.ValidateContainerGroup] is dropped by the source (the [err]
    tested after it is the nil error of the list call), so it does not
    appear.  The node test compares the tag pointer with [&p.nodeName]. *)
Fixpoint podsOfGroups (store : gmap positive string) (p : ACIProvider)
    (cgs : list azaci.ContainerGroup.t) (pods : list v1.Pod.t) : list v1.Pod.t :=
  match cgs with
  | [] => pods
  | cg :: cgs' =>
      if bool_decide (nodeNameTag cg ≠ Some (nodeNameAddr p))
      then podsOfGroups store p cgs' pods
      else
        match containerGroupToPod store cg with
        | Err _ => podsOfGroups store p cgs' pods
        | Ok pod => podsOfGroups store p cgs' (pods ++ [pod])
        end
  end.

(** GetPods returns a list of all pods known to be running within ACI.
    [None] is the nil slice returned when the backend lists nothing. *)
Definition GetPods (store : gmap positive string) (p : ACIProvider)
  : Backend (option (list v1.Pod.t)) :=
  cgs ← callGetContainerGroupListResult p;
  match cgs with
  | None => mret None
  | Some cgs => mret (Some (podsOfGroups store p cgs []))
  end.

Definition ListActivePods (store : gmap positive string) (p : ACIProvider)
  : Backend (list PodIdentifier) :=
  providerPods ← GetPods store p;
  mret ((fun pod => Build_PodIdentifier (v1.Pod.Namespace pod) (v1.Pod.Name pod))
          <$> elems providerPods).

End Translation.

(** ** A concrete environment

    An instance of the library and of the collaborators, used to run the
    translation on concrete pods. *)

Definition asciiLower (c : ascii) : ascii :=
  let n := nat_of_ascii c in
  if (65 <=? n)%nat && (n <=? 90)%nat then ascii_of_nat (n + 32) else c.

(** [strings.EqualFold] on strings of ASCII characters: equality up to the
    case of the letters A to Z. *)
Fixpoint asciiEqualFold (s t : string) : bool :=
  match s, t with
  | EmptyString, EmptyString => true
  | String a s', String b t' =>
      Ascii.eqb (asciiLower a) (asciiLower b) && asciiEqualFold s' t'
  | _, _ => false
  end.

(** A library whose decoders know no input. *)
Definition asciiLib : GoLib := {|
  EqualFold := asciiEqualFold;
  base64Decode := fun _ => Err (Upstream "illegal base64 data");
  unmarshalAuthConfigs := fun _ => Err (Upstream "unexpected end of JSON input");
  unmarshalDockerConfigJSON := fun _ => Err (Upstream "unexpected end of JSON input") |}.

(** Collaborators that add nothing: UDP is the only protocol told apart from
    TCP, a pod has no volumes, the virtual network amends nothing, and a
    listed group becomes a pod named after the group. *)
Definition plainCollaborators : Collaborators := {|
  getProtocol := fun pro => if String.eqb pro "UDP" then "UDP" else "TCP";
  getVolumes := fun _ _ => Ok [];
  amendVnetResources := fun _ cg _ => cg;
  containerGroupToPod := fun store cg =>
    Ok (v1.Pod.mk (azaci.ContainerGroup.Name cg) "default" "" "" "" ∅
          (v1.PodSpec.mk
             (default "" (nodeNameTag cg ≫= fun a => store !! a)) "" [] [] [])) |}.

Definition noSecrets : ResourceManager := {|
  GetSecret := fun _ _ => Err (Upstream "secret not found") |}.

Definition acceptingBackend (listed : option (list azaci.ContainerGroup.t))
  : AzClientsInterface := {|
  CreateContainerGroup := fun _ _ _ _ => None;
  GetContainerGroupListResult := fun _ => Ok listed |}.

(** A Linux provider in [westus2] with the given GPU SKUs and subnet. *)
Definition sampleProvider (skus : list string) (subnet : string)
    (listed : option (list azaci.ContainerGroup.t)) : ACIProvider := {|
  azClientsAPIs := acceptingBackend listed;
  resourceManager := noSecrets;
  resourceGroup := "rg";
  region := "westus2";
  nodeName := "virtual-kubelet";
  nodeNameAddr := 1%positive;
  operatingSystem := "Linux";
  gpuSKUs := skus;
  subnetName := subnet |}.

(** A container named [app] with the given command, arguments, ports and
    resources, and nothing else. *)
Definition sampleContainer (command args : list string)
    (ports : option (list v1.ContainerPort.t)) (resources : v1.ResourceRequirements.t)
  : v1.Container.t :=
  v1.Container.mk "app" "nginx" command args ports [] resources [] None None.

Definition noResources : v1.ResourceRequirements.t :=
  v1.ResourceRequirements.mk None None.

(** Requests holding a single entry. *)
Definition requestOf (name : string) (q : resource.Quantity) : v1.ResourceRequirements.t :=
  v1.ResourceRequirements.mk None (Some {[ name := q ]}).

(** A pod [default/web] with the given annotations and containers. *)
Definition samplePod (annotations : gmap string string)
    (initContainers containers : list v1.Container.t) : v1.Pod.t :=
  v1.Pod.mk "web" "default" "" "uid-1" "2022-11-01" annotations
    (v1.PodSpec.mk "virtual-kubelet" "Always" initContainers containers []).

(** *** Sample pods and groups *)

Definition linux : ACIProvider := sampleProvider [] "" None.

(** Containers requesting 5m, 12m, 19m and 1000m of CPU, and one container
    without a CPU request. *)
Definition cpuPod : v1.Pod.t :=
  samplePod ∅ []
    [ sampleContainer ["sh"] [] None (requestOf v1.ResourceCPU (resource.mkQuantity 5 1));
      sampleContainer ["sh"] [] None (requestOf v1.ResourceCPU (resource.mkQuantity 12 1));
      sampleContainer ["sh"] [] None (requestOf v1.ResourceCPU (resource.mkQuantity 19 1));
      sampleContainer ["sh"] [] None (requestOf v1.ResourceCPU (resource.mkQuantity 1000 1));
      sampleContainer ["sh"] [] None noResources ].

(** One container requesting 19m of CPU. *)
Definition cpu19Pod : v1.Pod.t :=
  samplePod ∅ []
    [ sampleContainer ["sh"] [] None (requestOf v1.ResourceCPU (resource.mkQuantity 19 1)) ].

(** Containers requesting 50,000,000 bytes, 190,000,000 bytes and
    2,000,000,000 bytes of memory, and one without a memory request. *)
Definition memoryPod : v1.Pod.t :=
  samplePod ∅ []
    [ sampleContainer ["sh"] [] None
        (requestOf v1.ResourceMemory (resource.mkQuantity 50000000000 50000000));
      sampleContainer ["sh"] [] None
        (requestOf v1.ResourceMemory (resource.mkQuantity 190000000000 190000000));
      sampleContainer ["sh"] [] None
        (requestOf v1.ResourceMemory (resource.mkQuantity 2000000000000 2000000000));
      sampleContainer ["sh"] [] None noResources ].

(** One container requesting 190,000,000 bytes of memory. *)
Definition memory190Pod : v1.Pod.t :=
  samplePod ∅ []
    [ sampleContainer ["sh"] [] None
        (requestOf v1.ResourceMemory (resource.mkQuantity 190000000000 190000000)) ].

(** A container that declares args but no command. *)
Definition argsOnly : v1.Container.t := sampleContainer [] ["--verbose"] None noResources.

Definition argsOnlyPod : v1.Pod.t := samplePod ∅ [] [argsOnly].

(** An init container that declares a port. *)
Definition initWithPort : v1.Container.t :=
  sampleContainer ["sh"] [] (Some [v1.ContainerPort.mk "http" 80 "TCP"]) noResources.

Definition initWithPortPod : v1.Pod.t :=
  samplePod ∅ [initWithPort] [sampleContainer ["sh"] [] None noResources].

(** A container with a GPU limit of 2 and nothing else in its limits. *)
Definition gpuContainer : v1.Container.t :=
  sampleContainer ["train"] [] None
    (v1.ResourceRequirements.mk (Some {[ gpuResourceName := resource.mkQuantity 2000 2 ]}) None).

(** The pod of the GPU scenario: the annotation asks for K80. *)
Definition gpuPod : v1.Pod.t := samplePod {[ gpuTypeAnnotation := "K80" ]} [] [gpuContainer].

(** A container whose limits map holds a memory limit only, with requests of
    250m CPU and 300,000,000 bytes. *)
Definition memoryLimitOnly : v1.Container.t :=
  sampleContainer ["sh"] [] None
    (v1.ResourceRequirements.mk
       (Some {[ v1.ResourceMemory := resource.mkQuantity 1000000000000 1000000000 ]})
       (Some (<[ v1.ResourceCPU := resource.mkQuantity 250 1 ]>
                {[ v1.ResourceMemory := resource.mkQuantity 300000000000 300000000 ]}))).

Definition limitsPod : v1.Pod.t :=
  samplePod ∅ [] [memoryLimitOnly; sampleContainer ["sh"] [] None noResources].

(** A pod whose single container has no limits map. *)
Definition noLimitsPod : v1.Pod.t :=
  samplePod ∅ [] [sampleContainer ["sh"] [] None noResources].

(** Environment variables: a plain one, an empty one, one from a secret key
    and an empty one from a secret key. *)
Definition fromSecret : option v1.EnvVarSource.t :=
  Some (v1.EnvVarSource.mk None None None (Some "db-credentials")).

Definition envContainer : v1.Container.t :=
  v1.Container.mk "app" "nginx" ["sh"] [] None
    [ v1.EnvVar.mk "MODE" "fast" None;
      v1.EnvVar.mk "EMPTY" "" None;
      v1.EnvVar.mk "PASSWORD" "hunter2" fromSecret;
      v1.EnvVar.mk "TOKEN" "" fromSecret ]
    noResources [] None None.

Definition envPod : v1.Pod.t := samplePod ∅ [] [envContainer].

(** A translated Windows group: one container whose only mount is the
    service-account secret, and the volumes of that mount and of a share. *)
Definition serviceAccountMount : azaci.VolumeMount.t :=
  azaci.VolumeMount.mk "kube-api-access" serviceAccountSecretMountPath true.

Definition windowsContainer : azaci.Container.t :=
  azaci.Container.mk "app" "iis" ["cmd"] [] []
    (azaci.ResourceRequirements.mk (azaci.ResourceRequests.mk (15 # 10) 1 None) None)
    [serviceAccountMount] None None.

Definition windowsGroup : client2.ContainerGroupWrapper.t :=
  client2.ContainerGroupWrapper.mk "westus2" ∅ "Always" "Windows" [] [windowsContainer]
    [azaci.Volume.mk "kube-api-access" "secret"; azaci.Volume.mk "share" "azureFile"]
    [] None.

(** A pod with two declared ports and a DNS name label. *)
Definition webPod : v1.Pod.t :=
  samplePod {[ virtualKubeletDNSNameLabel := "web-demo" ]} []
    [ sampleContainer ["nginx"] []
        (Some [v1.ContainerPort.mk "http" 80 "TCP"; v1.ContainerPort.mk "dns" 53 "UDP"])
        noResources ].

(** A listed group whose [NodeName] tag points to address 2, where the store
    holds the very name of the node; the provider's own [nodeName] field lives
    at address 1. *)
Definition listedGroup : azaci.ContainerGroup.t :=
  azaci.ContainerGroup.mk "default-web" "/subscriptions/s/resourceGroups/rg/cg/default-web"
    {[ "NodeName" := Some 2%positive ]}.

Definition listingStore : gmap positive string :=
  <[ 1%positive := "virtual-kubelet" ]> {[ 2%positive := "virtual-kubelet" ]}.

Definition listingProvider : ACIProvider := sampleProvider [] "" (Some [listedGroup]).

(** ** Vocabulary of the statements *)

(** What [getACIEnvVar] emits for one variable: the name, and the value on
    the secure side exactly when the variable comes from a secret key
    reference. *)
Definition emittedAs (e : v1.EnvVar.t) (ev : azaci.EnvironmentVariable.t) : Prop :=
  azaci.EnvironmentVariable.Name ev = v1.EnvVar.Name e /\
  match v1.EnvVar.ValueFrom e with
  | Some {| v1.EnvVarSource.SecretKeyRef := Some _ |} =>
      azaci.EnvironmentVariable.SecureValue ev = Some (v1.EnvVar.Value e) /\
      azaci.EnvironmentVariable.Value ev = None
  | _ =>
      azaci.EnvironmentVariable.Value ev = Some (v1.EnvVar.Value e) /\
      azaci.EnvironmentVariable.SecureValue ev = None
  end.

(** A container that declares args but no command. *)
Definition argsButNoCommand (c : v1.Container.t) : Prop :=
  v1.Container.Command c = [] /\ v1.Container.Args c ≠ [].

(** An init container that declares one of the fields the backend does not
    support on init containers. *)
Definition declaresUnsupportedInitField (c : v1.Container.t) : Prop :=
  v1.Container.Ports c ≠ None \/
  v1.ResourceRequirements.Requests (v1.Container.Resources c) ≠ None \/
  v1.ResourceRequirements.Limits (v1.Container.Resources c) ≠ None \/
  v1.Container.LivenessProbe c ≠ None \/
  v1.Container.ReadinessProbe c ≠ None.

(** [s] is the first of the supported SKUs that equals the desired SKU up to
    case. *)
Definition firstSupported `{GoLib} (desiredSKU : string) (skus : list string) (s : string)
  : Prop :=
  exists pre post, skus = pre ++ s :: post /\
    Forall (fun x => EqualFold desiredSKU x = false) pre /\
    EqualFold desiredSKU s = true.

(** The GPU limit of a container, if it declares one. *)
Definition gpuLimit (c : v1.Container.t) : option resource.Quantity :=
  rl_lookup (v1.ResourceRequirements.Limits (v1.Container.Resources c)) gpuResourceName.

(** The mount targets the service-account secret path, up to case. *)
Definition targetsServiceAccount `{GoLib} (m : azaci.VolumeMount.t) : bool :=
  EqualFold serviceAccountSecretMountPath (azaci.VolumeMount.MountPath m).

(** Some mount of some container targets the service-account path and names
    the volume. *)
Definition referencedByServiceAccountMount `{GoLib} (containers : list azaci.Container.t)
    (volumeName : string) : Prop :=
  exists c m, c ∈ containers /\ m ∈ azaci.Container.VolumeMounts c /\
    targetsServiceAccount m = true /\ azaci.VolumeMount.Name m = volumeName.

(** The ports the pod exposes: one TCP port per declared container port, over
    the containers in order. *)
Definition declaredPorts (pod : v1.Pod.t) : list azaci.Port.t :=
  c ← v1.PodSpec.Containers (v1.Pod.Spec pod);
  (fun port => azaci.Port.mk azaci.ContainerGroupNetworkProtocolTCP
                 (v1.ContainerPort.ContainerPort port))
    <$> elems (v1.Container.Ports c).

(** The DNS name label requested by the pod: the annotation, when present and
    not empty. *)
Definition requestedDNSNameLabel (pod : v1.Pod.t) : option string :=
  match v1.Pod.Annotations pod !! virtualKubeletDNSNameLabel with
  | Some label => if decide (label = "") then None else Some label
  | None => None
  end.

(** The CPU request of the translated container [ac] is the truncated and
    raised milli-CPU request of [c], or 1.0 core when [c] requests no CPU. *)
Definition cpuRequestTruncated (c : v1.Container.t) (ac : azaci.Container.t) : Prop :=
  let cores := azaci.ResourceRequests.CPU
                 (azaci.ResourceRequirements.Requests (azaci.Container.Resources ac)) in
  match rl_lookup (v1.ResourceRequirements.Requests (v1.Container.Resources c)) v1.ResourceCPU with
  | Some q => (cores == Qmax (1 # 100) (inject_Z (resource.MilliValue q ÷ 10) / 100))%Q
  | None => (cores == 1)%Q
  end.

(** The memory request of the translated container [ac] is the truncated and
    raised byte request of [c], or 1.5 GB when [c] requests no memory. *)
Definition memoryRequestTruncated (c : v1.Container.t) (ac : azaci.Container.t) : Prop :=
  let gb := azaci.ResourceRequests.MemoryInGB
              (azaci.ResourceRequirements.Requests (azaci.Container.Resources ac)) in
  match rl_lookup (v1.ResourceRequirements.Requests (v1.Container.Resources c)) v1.ResourceMemory with
  | Some q => (gb == Qmax (1 # 10) (inject_Z (resource.Value q ÷ 100000000) / 10))%Q
  | None => (gb == 15 # 10)%Q
  end.

(** The limits of the translated container [ac] against the limits map of
    [c]: none for a nil map; otherwise present, with an unspecified CPU or
    memory limit equal to the corresponding request. *)
Definition limitsMirrorRequests (c : v1.Container.t) (ac : azaci.Container.t) : Prop :=
  let requests := azaci.ResourceRequirements.Requests (azaci.Container.Resources ac) in
  match v1.ResourceRequirements.Limits (v1.Container.Resources c) with
  | None => azaci.ResourceRequirements.Limits (azaci.Container.Resources ac) = None
  | Some limits =>
      exists l, azaci.ResourceRequirements.Limits (azaci.Container.Resources ac) = Some l /\
        (limits !! v1.ResourceCPU = None ->
           azaci.ResourceLimits.CPU l = azaci.ResourceRequests.CPU requests) /\
        (limits !! v1.ResourceMemory = None ->
           azaci.ResourceLimits.MemoryInGB l = azaci.ResourceRequests.MemoryInGB requests)
  end.

(** The translated container carries limits, and they equal its requests. *)
Definition limitsEqualRequests (ac : azaci.Container.t) : Prop :=
  let requests := azaci.ResourceRequirements.Requests (azaci.Container.Resources ac) in
  exists l, azaci.ResourceRequirements.Limits (azaci.Container.Resources ac) = Some l /\
    (azaci.ResourceLimits.CPU l == azaci.ResourceRequests.CPU requests)%Q /\
    (azaci.ResourceLimits.MemoryInGB l == azaci.ResourceRequests.MemoryInGB requests)%Q.

(** The translated environment [envs] of the container [c]: in order, the
    variables of [c] whose value is not empty, each emitted by
    [getACIEnvVar]'s rule. *)
Definition environmentOf (c : v1.Container.t) (envs : list azaci.EnvironmentVariable.t)
  : Prop :=
  Forall2 emittedAs (filter (fun e => v1.EnvVar.Value e ≠ "") (v1.Container.Env c)) envs.

(** The translated container [ac] carries, on the request and on the limit
    side, the GPU count of [c] with the SKU [sku], if [c] has a GPU limit. *)
Definition gpuCarried (sku : string) (c : v1.Container.t) (ac : azaci.Container.t) : Prop :=
  forall gpu, gpuLimit c = Some gpu ->
    let g := Some (azaci.GpuResource.mk (int32 (resource.Value gpu)) sku) in
    azaci.ResourceRequests.Gpu
      (azaci.ResourceRequirements.Requests (azaci.Container.Resources ac)) = g /\
    azaci.ResourceLimits.Gpu
      <$> azaci.ResourceRequirements.Limits (azaci.Container.Resources ac) = Some g.

(** The CPU and memory requests of a translated container. *)
Definition cpuCores (ac : azaci.Container.t) : Q :=
  azaci.ResourceRequests.CPU (azaci.ResourceRequirements.Requests (azaci.Container.Resources ac)).

Definition memoryGB (ac : azaci.Container.t) : Q :=
  azaci.ResourceRequests.MemoryInGB
    (azaci.ResourceRequirements.Requests (azaci.Container.Resources ac)).


(** ** The rounding the specification speaks of

    The specification writes the quantized requests with [round]: the integer
    nearest to its argument (halves go up).  These definitions follow its
    words and are compared with the code below. *)

Definition roundNearest (x : Q) : Z := Qfloor (x + (1 # 2)).

Definition roundedCpuRequest (milliCPU : Z) : Q :=
  Qmax (1 # 100) (inject_Z (roundNearest (inject_Z milliCPU / 10)) / 100).

Definition roundedMemoryRequest (bytes : Z) : Q :=
  Qmax (1 # 10) (inject_Z (roundNearest (inject_Z bytes / 100000000)) / 10).

(** The errors the specification files under ValidationError: those raised by
    the translation itself for a malformed or unsupported spec (args without
    command, init-container fields, GPU SKU, probe handler), as opposed to an
    error handed back by a collaborator. *)
Definition ValidationError (e : error) : Prop :=
  match e with
  | InvalidInput _ | Errorf _ => True
  | Upstream _ => False
  end.

(** ** Further vocabulary: results *)

Definition is_Ok {A} (r : result A) : Prop :=
  match r with Ok _ => True | Err _ => False end.

(** ** Further vocabulary: registry credentials *)

(** The string holds no colon. *)
Fixpoint noColon (s : string) : bool :=
  match s with
  | EmptyString => true
  | String c s' => negb (Ascii.eqb c ":"%char) && noColon s'
  end.

(** A library that decodes the base64 text of [user:pass], of [user:pa:ss]
    and of [:pass], and parses one docker config with two registries. *)
Definition tableLib : GoLib := {|
  EqualFold := asciiEqualFold;
  base64Decode := fun s =>
    if String.eqb s "dXNlcjpwYXNz" then Ok "user:pass"
    else if String.eqb s "dXNlcjpwYTpzcw==" then Ok "user:pa:ss"
    else if String.eqb s "OnBhc3M=" then Ok ":pass"
    else Err (Upstream "illegal base64 data");
  unmarshalAuthConfigs := fun s =>
    if String.eqb s "legacy"
    then Ok [("registry.example.com", Build_AuthConfig "" "" "dXNlcjpwYXNz")]
    else Err (Upstream "unexpected end of JSON input");
  unmarshalDockerConfigJSON := fun s =>
    if String.eqb s "two-registries"
    then Ok [("one.azurecr.io", Build_DockerConfigEntry "alice" "a-secret");
             ("two.azurecr.io", Build_DockerConfigEntry "bob" "b-secret")]
    else if String.eqb s "no-registries" then Ok []
    else Err (Upstream "unexpected end of JSON input") |}.

(** Secrets by name: a docker-config-json secret, a legacy dockercfg secret
    and an opaque secret; any other name is not found. *)
Definition tableSecrets : ResourceManager := {|
  GetSecret := fun name _ =>
    if String.eqb name "acr" then
      Ok (Some (v1.Secret.mk v1.SecretTypeDockerConfigJson
                  {[ v1.DockerConfigJsonKey := "two-registries" ]}))
    else if String.eqb name "legacy" then
      Ok (Some (v1.Secret.mk v1.SecretTypeDockercfg {[ v1.DockerConfigKey := "legacy" ]}))
    else if String.eqb name "opaque" then
      Ok (Some (v1.Secret.mk "Opaque" {[ "password" := "x" ]}))
    else Err (Upstream "secret not found") |}.

(** The Linux provider of the samples, reading its secrets from the table. *)
Definition linuxWithSecrets : ACIProvider := {|
  azClientsAPIs := acceptingBackend None;
  resourceManager := tableSecrets;
  resourceGroup := "rg";
  region := "westus2";
  nodeName := "virtual-kubelet";
  nodeNameAddr := 1%positive;
  operatingSystem := "Linux";
  gpuSKUs := [];
  subnetName := "" |}.

(** A pod [default/web] with one plain container and the given pull
    secrets. *)
Definition pullPod (secrets : list string) : v1.Pod.t :=
  v1.Pod.mk "web" "default" "" "uid-1" "2022-11-01" ∅
    (v1.PodSpec.mk "virtual-kubelet" "Always" []
       [sampleContainer ["sh"] [] None noResources] secrets).

(** The secret behind a pull-secret reference cannot be used: the lookup
    fails, or finds nothing, or finds a secret that is neither a dockercfg nor
    a dockerconfigjson secret. *)
Definition unusablePullSecret (p : ACIProvider) (namespace ref : string) : Prop :=
  match GetSecret (resourceManager p) ref namespace with
  | Err _ => True
  | Ok None => True
  | Ok (Some secret) =>
      v1.Secret.Type_ secret ≠ v1.SecretTypeDockercfg /\
      v1.Secret.Type_ secret ≠ v1.SecretTypeDockerConfigJson
  end.

(** The credential of one entry of a docker config: the registry is the key,
    the user and the password are the entry's. *)
Definition credentialOfEntry (entry : string * DockerConfigEntry)
  : azaci.ImageRegistryCredential.t :=
  azaci.ImageRegistryCredential.mk entry.1 (EntryUsername entry.2) (EntryPassword entry.2).

(** ** Further vocabulary: probes, containers, the filter, the listing *)

(** [port] is the first of the declared ports that carries the name. *)
Definition firstPortNamed (portName : string) (ports : list v1.ContainerPort.t)
    (port : v1.ContainerPort.t) : Prop :=
  exists pre post, ports = pre ++ port :: post /\
    Forall (fun q => v1.ContainerPort.Name q ≠ portName) pre /\
    v1.ContainerPort.Name port = portName.

(** The probe declares both handlers, or none. *)
Definition handlerAmbiguous (probe : v1.Probe.t) : Prop :=
  (v1.Probe.Exec probe ≠ None /\ v1.Probe.HTTPGet probe ≠ None) \/
  (v1.Probe.Exec probe = None /\ v1.Probe.HTTPGet probe = None).

(** The timing fields of a probe are carried over unchanged. *)
Definition sameTiming (probe : v1.Probe.t) (ap : azaci.ContainerProbe.t) : Prop :=
  azaci.ContainerProbe.InitialDelaySeconds ap = v1.Probe.InitialDelaySeconds probe /\
  azaci.ContainerProbe.PeriodSeconds ap = v1.Probe.PeriodSeconds probe /\
  azaci.ContainerProbe.FailureThreshold ap = v1.Probe.FailureThreshold probe /\
  azaci.ContainerProbe.SuccessThreshold ap = v1.Probe.SuccessThreshold probe /\
  azaci.ContainerProbe.TimeoutSeconds ap = v1.Probe.TimeoutSeconds probe.

(** A translated mount is the source mount, field by field. *)
Definition sameMount (m : v1.VolumeMount.t) (am : azaci.VolumeMount.t) : Prop :=
  azaci.VolumeMount.Name am = v1.VolumeMount.Name m /\
  azaci.VolumeMount.MountPath am = v1.VolumeMount.MountPath m /\
  azaci.VolumeMount.ReadOnly am = v1.VolumeMount.ReadOnly m.

(** A translated container port carries the declared port number. *)
Definition samePort (port : v1.ContainerPort.t) (ap : azaci.ContainerPort.t) : Prop :=
  azaci.ContainerPort.Port ap = v1.ContainerPort.ContainerPort port.

(** The identity of a container survives the translation: name, image, the
    command followed by the args, the ports and the mounts, all in order. *)
Definition sameShape (c : v1.Container.t) (ac : azaci.Container.t) : Prop :=
  azaci.Container.Name ac = v1.Container.Name c /\
  azaci.Container.Image ac = v1.Container.Image c /\
  azaci.Container.Command ac = v1.Container.Command c ++ v1.Container.Args c /\
  Forall2 samePort (elems (v1.Container.Ports c)) (azaci.Container.Ports ac) /\
  Forall2 sameMount (v1.Container.VolumeMounts c) (azaci.Container.VolumeMounts ac).

(** The same for an init container, which has no ports. *)
Definition sameInitShape (c : v1.Container.t) (ic : azaci.InitContainerDefinition.t)
  : Prop :=
  azaci.InitContainerDefinition.Name ic = v1.Container.Name c /\
  azaci.InitContainerDefinition.Image ic = v1.Container.Image c /\
  azaci.InitContainerDefinition.Command ic = v1.Container.Command c ++ v1.Container.Args c /\
  Forall2 sameMount (v1.Container.VolumeMounts c)
    (azaci.InitContainerDefinition.VolumeMounts ic).

(** The limits of the translated container [ac], where [c] specifies them:
    the CPU limit is the milli-value over 1000, the memory limit the byte
    value cut down to whole tenths of a GB. *)
Definition specifiedLimitsCarried (c : v1.Container.t) (ac : azaci.Container.t) : Prop :=
  forall limits, v1.ResourceRequirements.Limits (v1.Container.Resources c) = Some limits ->
    exists l, azaci.ResourceRequirements.Limits (azaci.Container.Resources ac) = Some l /\
      (forall q, limits !! v1.ResourceCPU = Some q ->
         (azaci.ResourceLimits.CPU l == inject_Z (resource.MilliValue q) / 1000)%Q) /\
      (forall q, limits !! v1.ResourceMemory = Some q ->
         (azaci.ResourceLimits.MemoryInGB l
          == inject_Z (resource.Value q ÷ 100000000) / 10)%Q).

(** The translated requests are whole multiples of the backend's steps and at
    least one step: hundredths of a core, tenths of a GB. *)
Definition onBackendGrid (ac : azaci.Container.t) : Prop :=
  (exists k, 1 <= k /\ (cpuCores ac == inject_Z k / 100)%Q) /\
  (exists k, 1 <= k /\ (memoryGB ac == inject_Z k / 10)%Q).

(** The pod a listed group contributes to [GetPods]: none unless its tag is
    the pointer [&p.nodeName] and the group converts. *)
Definition listedPod `{Collaborators} (store : gmap positive string) (p : ACIProvider)
    (cg : azaci.ContainerGroup.t) : option v1.Pod.t :=
  if decide (nodeNameTag cg = Some (nodeNameAddr p)) then
    match containerGroupToPod store cg with
    | Ok pod => Some pod
    | Err _ => None
    end
  else None.

(** ** Group names *)

(** [containerGroupName]: [fmt.Sprintf("%s-%s", podNS, podName)]. *)
Definition containerGroupName (podNS podName : string) : string :=
  (podNS ++ "-" ++ podName)%string.

(** GetPodFullName as defined in the provider context. *)
Definition GetPodFullName (p : ACIProvider) (namespace pod : string) : string :=
  (namespace ++ "-" ++ pod)%string.

(** The string holds no hyphen. *)
Fixpoint noHyphen (s : string) : bool :=
  match s with
  | EmptyString => true
  | String c s' => negb (Ascii.eqb c "-"%char) && noHyphen s'
  end.

(** ** Pod status, and the calls of the read and delete paths *)

(** The status types of [k8s.io/api/core/v1], as far as this file reads and
    writes them; a [metav1.Time] is a number. *)
Module ContainerStateRunning.
Record t : Type := mk { StartedAt : Z }.
End ContainerStateRunning.

Module ContainerStateTerminated.
Record t : Type := mk {
  ExitCode : Z;
  Reason : string;
  Message : string;
  StartedAt : Z;
  FinishedAt : Z;
  ContainerID : string }.
End ContainerStateTerminated.

Module ContainerState.
(** [Waiting] is kept as its reason. *)
Record t : Type := mk {
  Waiting : option string;
  Running : option ContainerStateRunning.t;
  Terminated : option ContainerStateTerminated.t }.
End ContainerState.

Module ContainerStatus.
Record t : Type := mk {
  Name : string;
  State : ContainerState.t;
  Ready : bool;
  RestartCount : Z;
  Image : string;
  ContainerID : string }.
End ContainerStatus.

Module PodStatus.
Record t : Type := mk {
  Phase : string;
  Message : string;
  Reason : string;
  PodIP : string;
  ContainerStatuses : list ContainerStatus.t }.
End PodStatus.

Definition statusReasonPodDeleted : string := "NotFound".
Definition statusMessagePodDeleted : string :=
  "The pod may have been deleted from the provider".
Definition containerExitCodePodDeleted : Z := 0.

(** [api.ContainerLogOpts], handed through to the backend untouched. *)
Record ContainerLogOpts : Type := {
  Tail : Z; LimitBytes : Z; Timestamps : bool; Follow : bool; Previous : bool }.

(** The calls made by the read and delete paths: three on [azClientsAPIs] and
    one on the tracker, whose [UpdatePodStatus] receives the function that
    rewrites the status. *)
Inductive ProviderCall : Type :=
  | CallGetContainerGroupInfo (resourceGroup namespace name nodeName : string)
  | CallDeleteContainerGroup (resourceGroup cgName : string)
  | CallListLogs (resourceGroup cgName containerName : string) (opts : ContainerLogOpts)
  | CallUpdatePodStatus (namespace name : string)
      (updater : PodStatus.t -> PodStatus.t) (forceUpdate : bool).

(** A computation that logs its calls in order and ends with a value or an
    error. *)
Definition Traced (A : Type) : Type := list ProviderCall -> list ProviderCall * result A.

#[global] Instance traced_ret : MRet Traced := fun A a log => (log, Ok a).
#[global] Instance traced_bind : MBind Traced := fun A B f m log =>
  match m log with
  | (log', Ok a) => f a log'
  | (log', Err e) => (log', Err e)
  end.

Definition trace {A} (m : Traced A) : list ProviderCall * result A := m [].

(** A value, or a run-time panic (a nil dereference, a write to a nil map). *)
Inductive orPanic (A : Type) : Type :=
  | Done (a : A)
  | Panic.
Arguments Done {A} a.
Arguments Panic {A}.

(** The answers of [azClientsAPIs] on the read and delete paths (a group may
    come back nil, as it does from a [MockACIProvider] without functions), and
    the functions of other packages and files that those paths call:
    [validation.ValidateContainerGroup], [getPodStatusFromContainerGroup], and
    what [containerGroupToPod] makes of a nil group. *)
Class GroupClients : Type := {
  GetContainerGroupInfo :
    string -> string -> string -> string -> result (option azaci.ContainerGroup.t);
  DeleteContainerGroup : string -> string -> option error;
  ListLogs : string -> string -> string -> ContainerLogOpts -> result (option string);
  ValidateContainerGroup : option azaci.ContainerGroup.t -> option error;
  getPodStatusFromContainerGroup : option azaci.ContainerGroup.t -> result PodStatus.t;
  nilGroupToPod : result v1.Pod.t }.

(** [PodsTracker], of which [deleteContainerGroup] calls [UpdatePodStatus];
    the answer is the error it returns, if any. *)
Record PodsTracker : Type := {
  UpdatePodStatus : string -> string -> (PodStatus.t -> PodStatus.t) -> bool -> option error }.

Section ReadAndDelete.
Context `{collab : Collaborators} `{clients : GroupClients}.

Definition callGetContainerGroupInfo (p : ACIProvider) (namespace name : string)
  : Traced (option azaci.ContainerGroup.t) :=
  fun log =>
    (log ++ [CallGetContainerGroupInfo (resourceGroup p) namespace name (nodeName p)],
     GetContainerGroupInfo (resourceGroup p) namespace name (nodeName p)).

(** A step that calls nothing. *)
Definition quiet {A} (r : result A) : Traced A := fun log => (log, r).

(** [validation.ValidateContainerGroup(cg)], as a step. *)
Definition validate (cg : option azaci.ContainerGroup.t) : Traced unit :=
  quiet (match ValidateContainerGroup cg with Some err => Err err | None => Ok tt end).

(** GetPod returns a pod by name that is running inside ACI. *)
Definition GetPod (store : gmap positive string) (p : ACIProvider)
    (namespace name : string) : Traced v1.Pod.t :=
  cg ← callGetContainerGroupInfo p namespace name;
  _ ← validate cg;
  quiet (match cg with
         | Some cg => containerGroupToPod store cg
         | None => nilGroupToPod
         end).

(** GetPodStatus returns the status of a pod by name that is running inside
    ACI. *)
Definition GetPodStatus (p : ACIProvider) (namespace name : string) : Traced PodStatus.t :=
  cg ← callGetContainerGroupInfo p namespace name;
  _ ← validate cg;
  quiet (getPodStatusFromContainerGroup cg).

(** FetchPodStatus interface impl *)
Definition FetchPodStatus (p : ACIProvider) (ns name : string) : Traced PodStatus.t :=
  GetPodStatus p ns name.

Definition callListLogs (p : ACIProvider) (cgName containerName : string)
    (opts : ContainerLogOpts) : Traced (option string) :=
  fun log =>
    (log ++ [CallListLogs (resourceGroup p) cgName containerName opts],
     ListLogs (resourceGroup p) cgName containerName opts).

(** GetContainerLogs returns the logs of a pod by name that is running inside
    ACI: [None] is the nil reader, [Some] the reader over the content.  The
    group is dereferenced without a nil test. *)
Definition GetContainerLogs (p : ACIProvider) (namespace podName containerName : string)
    (opts : ContainerLogOpts) : Traced (orPanic (option string)) :=
  cg ← callGetContainerGroupInfo p namespace podName;
  match cg with
  | None => mret Panic
  | Some cg =>
      logContent ← callListLogs p (azaci.ContainerGroup.Name cg) containerName opts;
      mret (Done logContent)
  end.

(** The function handed to [UpdatePodStatus] by [deleteContainerGroup]: every
    container status that is running becomes terminated at [now]. *)
Definition terminateContainer (now : Z) (status : ContainerStatus.t) : ContainerStatus.t :=
  match ContainerState.Running (ContainerStatus.State status) with
  | None => status
  | Some running =>
      ContainerStatus.mk (ContainerStatus.Name status)
        (ContainerState.mk
           (ContainerState.Waiting (ContainerStatus.State status))
           None
           (Some (ContainerStateTerminated.mk containerExitCodePodDeleted
                    statusReasonPodDeleted statusMessagePodDeleted
                    (ContainerStateRunning.StartedAt running) now
                    (ContainerStatus.ContainerID status))))
        (ContainerStatus.Ready status) (ContainerStatus.RestartCount status)
        (ContainerStatus.Image status) (ContainerStatus.ContainerID status)
  end.

Definition markPodDeleted (now : Z) (podStatus : PodStatus.t) : PodStatus.t :=
  PodStatus.mk (PodStatus.Phase podStatus) (PodStatus.Message podStatus)
    (PodStatus.Reason podStatus) (PodStatus.PodIP podStatus)
    (terminateContainer now <$> PodStatus.ContainerStatuses podStatus).

Definition callDeleteContainerGroup (p : ACIProvider) (cgName : string) : Traced unit :=
  fun log =>
    (log ++ [CallDeleteContainerGroup (resourceGroup p) cgName],
     match DeleteContainerGroup (resourceGroup p) cgName with
     | Some err => Err err
     | None => Ok tt
     end).

(** [p.tracker.UpdatePodStatus(...)], whose error [deleteContainerGroup] logs
    and drops. *)
Definition callUpdatePodStatus (tracker : PodsTracker) (namespace name : string)
    (updater : PodStatus.t -> PodStatus.t) (forceUpdate : bool) : Traced unit :=
  fun log =>
    (log ++ [CallUpdatePodStatus namespace name updater forceUpdate],
     match UpdatePodStatus tracker namespace name updater forceUpdate with
     | Some _ => Ok tt
     | None => Ok tt
     end).

(** [deleteContainerGroup], with the provider's tracker ([None] is nil) and
    the time read by [time.Now()] inside the update.  An error of the tracker
    is logged and dropped. *)
Definition deleteContainerGroup (tracker : option PodsTracker) (now : Z) (p : ACIProvider)
    (podNS podName : string) : Traced unit :=
  let cgName := containerGroupName podNS podName in
  _ ← callDeleteContainerGroup p cgName;
  match tracker with
  | Some tracker => callUpdatePodStatus tracker podNS podName (markPodDeleted now) false
  | None => mret tt
  end.

(** DeletePod deletes the specified pod out of ACI. *)
Definition DeletePod (tracker : option PodsTracker) (now : Z) (p : ACIProvider)
    (pod : v1.Pod.t) : Traced unit :=
  deleteContainerGroup tracker now p (v1.Pod.Namespace pod) (v1.Pod.Name pod).

(** CleanupPod interface impl *)
Definition CleanupPod (tracker : option PodsTracker) (now : Z) (p : ACIProvider)
    (ns name : string) : Traced unit :=
  deleteContainerGroup tracker now p ns name.

End ReadAndDelete.

(** ** Diagnostics *)

Module LogAnalytics.
(** [azaci.LogAnalytics].  [Metadata] is [map[string]*string], kept with the
    strings its values point to; [None] is the nil map. *)
Record t : Type := mk {
  WorkspaceID : string;
  WorkspaceKey : string;
  LogType : string;
  Metadata : option (gmap string string) }.
End LogAnalytics.

Module ContainerGroupDiagnostics.
(** [azaci.ContainerGroupDiagnostics]: its one field is a pointer, here the
    address of a [LogAnalytics] object ([None] is nil). *)
Record t : Type := mk { LogAnalytics : option positive }.
End ContainerGroupDiagnostics.

Definition LogAnalyticsLogTypeContainerInsights : string := "ContainerInsights".
Definition LogAnalyticsMetadataKeyNodeName : string := "node-name".
Definition LogAnalyticsMetadataKeyClusterResourceID : string := "cluster-resource-id".

Definition withMetadata (la : LogAnalytics.t) (metadata : option (gmap string string))
  : LogAnalytics.t :=
  LogAnalytics.mk (LogAnalytics.WorkspaceID la) (LogAnalytics.WorkspaceKey la)
    (LogAnalytics.LogType la) metadata.

(** [getDiagnostics], on the store of [LogAnalytics] objects and the
    provider's [diagnostics] pointer (kept as the struct it points to; [None]
    is nil).  [podUUIDKey] is [aci.LogAnalyticsMetadataKeyPodUUID], a constant
    of the client package.  The copy [d := *p.diagnostics] is shallow: the map
    written is the one the provider's [LogAnalytics] holds, so the write goes
    to the store; writing to a nil map panics.  An address without an object
    does not arise and is treated as a panic. *)
Definition getDiagnostics (podUUIDKey : string) (objects : gmap positive LogAnalytics.t)
    (diagnostics : option ContainerGroupDiagnostics.t) (pod : v1.Pod.t)
  : orPanic (gmap positive LogAnalytics.t * option ContainerGroupDiagnostics.t) :=
  match diagnostics with
  | Some d =>
      match ContainerGroupDiagnostics.LogAnalytics d with
      | Some a =>
          match objects !! a with
          | Some la =>
              if String.eqb (LogAnalytics.LogType la) LogAnalyticsLogTypeContainerInsights
              then
                match LogAnalytics.Metadata la with
                | Some metadata =>
                    Done (<[a := withMetadata la (Some (<[podUUIDKey := v1.Pod.UID pod]> metadata))]>
                            objects,
                          Some d)
                | None => Panic
                end
              else Done (objects, diagnostics)
          | None => Panic
          end
      | None => Done (objects, diagnostics)
      end
  | None => Done (objects, diagnostics)
  end.

(** The address of the [LogAnalytics] object of a diagnostics value, and the
    object itself. *)
Definition logAnalyticsAddress (diagnostics : option ContainerGroupDiagnostics.t)
  : option positive :=
  d ← diagnostics; ContainerGroupDiagnostics.LogAnalytics d.

Definition logAnalyticsObject (objects : gmap positive LogAnalytics.t)
    (diagnostics : option ContainerGroupDiagnostics.t) : option LogAnalytics.t :=
  a ← logAnalyticsAddress diagnostics; objects !! a.

(** The metadata a diagnostics value shows in a store. *)
Definition metadataOf (objects : gmap positive LogAnalytics.t)
    (diagnostics : option ContainerGroupDiagnostics.t) : option (gmap string string) :=
  d ← diagnostics;
  a ← ContainerGroupDiagnostics.LogAnalytics d;
  la ← objects !! a;
  LogAnalytics.Metadata la.

(** ** The cache of pod statistics ([provider/metrics/cache.go]) *)

(** The [go-cache] library, seen through the constructor and the two methods
    the wrapper uses: [cache.New(ttl, 10*time.Minute)], [Get(k)], and
    [Set(k, x, cache.DefaultExpiration)].  A cache value is the state the call
    finds; what the library does to it as time passes happens between
    calls. *)
Class GoCache (Stats : Type) : Type := {
  Cache : Type;
  cacheNew : Z -> Cache;
  cacheGet : Cache -> string -> option Stats;
  cacheSet : Cache -> string -> Stats -> Cache }.

Section CachedStats.
Context {Stats : Type} `{gocache : GoCache Stats}.

(** Adding cache capability into podStatsGetter.  The wrapped getter is the
    answer it gives for a pod. *)
Record cachePodStatsGetter : Type := {
  wrappedGetter : v1.Pod.t -> result Stats;
  cache : Cache }.

Definition WrapCachedPodStatsGetter (ttlSeconds : Z) (getter : v1.Pod.t -> result Stats)
  : cachePodStatsGetter :=
  {| wrappedGetter := getter; cache := cacheNew ttlSeconds |}.

Definition withCache (g : cachePodStatsGetter) (c : Cache) : cachePodStatsGetter :=
  {| wrappedGetter := wrappedGetter g; cache := c |}.

(** [getPodStats]: the getter after the call, the pods the wrapped getter was
    asked for, and the result. *)
Definition getPodStats (cacheGetter : cachePodStatsGetter) (pod : v1.Pod.t)
  : cachePodStatsGetter * list v1.Pod.t * result Stats :=
  let cacheKey := v1.Pod.UID pod in
  match cacheGet (cache cacheGetter) cacheKey with
  | Some cachedPodStats => (cacheGetter, [], Ok cachedPodStats)
  | None =>
      match wrappedGetter cacheGetter pod with
      | Err err => (cacheGetter, [pod], Err err)
      | Ok stats => (withCache cacheGetter (cacheSet (cache cacheGetter) cacheKey stats),
                     [pod], Ok stats)
      end
  end.

End CachedStats.

(** A cache without expiry: a finite map. *)
Definition mapCache (Stats : Type) : GoCache Stats := {|
  Cache := gmap string Stats;
  cacheNew := fun _ => ∅;
  cacheGet := fun c k => c !! k;
  cacheSet := fun c k x => <[k := x]> c |}.

(** ** Regions *)

(** See https://learn.microsoft.com/en-us/azure/container-instances/container-instances-region-availability *)
Definition validAciRegions : list string :=
  [ "australiaeast"; "australiasoutheast"; "brazilsouth"; "canadacentral"; "canadaeast";
    "centralindia"; "centralus"; "centraluseuap"; "eastasia"; "eastus"; "eastus2";
    "eastus2euap"; "francecentral"; "germanywestcentral"; "japaneast"; "japanwest";
    "jioindiawest"; "koreacentral"; "northcentralus"; "northeurope"; "norwayeast";
    "norwaywest"; "southafricanorth"; "southcentralus"; "southindia"; "southeastasia";
    "swedencentral"; "swedensouth"; "switzerlandnorth"; "switzerlandwest"; "uaenorth";
    "uksouth"; "ukwest"; "westcentralus"; "westeurope"; "westindia"; "westus"; "westus2";
    "westus3"; "usgovvirginia"; "usgovarizona" ].

(** [strings.Replace(s, " ", "", -1)]: the string without its spaces. *)
Fixpoint removeSpaces (s : string) : string :=
  match s with
  | EmptyString => EmptyString
  | String c s' => if Ascii.eqb c " "%char then removeSpaces s' else String c (removeSpaces s')
  end.

(** The loop of [isValidACIRegion] over the valid regions. *)
Fixpoint regionListed (regionTrimmed : string) (regions : list string) : bool :=
  match regions with
  | [] => false
  | validRegion :: regions' =>
      if String.eqb regionTrimmed validRegion then true
      else regionListed regionTrimmed regions'
  end.

(** isValidACIRegion checks to make sure we're using a valid ACI region.
    [ToLower] is [strings.ToLower]. *)
Definition isValidACIRegion (ToLower : string -> string) (region : string) : bool :=
  let regionLower := ToLower region in
  let regionTrimmed := removeSpaces regionLower in
  regionListed regionTrimmed validAciRegions.

(** [strings.ToLower] on strings of ASCII characters. *)
Fixpoint asciiToLower (s : string) : string :=
  match s with
  | EmptyString => EmptyString
  | String c s' => String (asciiLower c) (asciiToLower s')
  end.

(** ** Construction of the provider ([NewACIProvider]) *)

Module AKSCredential.
(** [auth.Config.AKSCredential], as far as [NewACIProvider] reads it. *)
Record t : Type := mk {
  ResourceGroup : string;
  Region : string;
  VNetName : string;
  VNetResourceGroup : string }.
End AKSCredential.

Module setup.
(** The data fields of the [ACIProvider] struct, as [NewACIProvider] and the
    functions it calls fill them in. *)
Record t : Type := mk {
  resourceGroup : string;
  region : string;
  nodeName : string;
  operatingSystem : string;
  cpu : string;
  memory : string;
  pods : string;
  gpu : string;
  gpuSKUs : list string;
  internalIP : string;
  daemonEndpointPort : Z;
  diagnostics : option ContainerGroupDiagnostics.t;
  subnetName : string;
  subnetCIDR : string;
  vnetSubscriptionID : string;
  vnetName : string;
  vnetResourceGroup : string;
  clusterDomain : string;
  kubeDNSIP : string }.

(** [var p ACIProvider]: the zero value. *)
Definition zero : t :=
  mk "" "" "" "" "" "" "" "" [] "" 0 None "" "" "" "" "" "" "".
End setup.

(** The provider under construction together with the [LogAnalytics] objects
    its diagnostics point to. *)
Record World : Type := {
  fields : setup.t;
  objects : gmap positive LogAnalytics.t }.

(** What [NewACIProvider] takes from outside: the process environment
    ([os.Getenv] gives the empty string for an unset variable), the file
    system, [strings.ToLower], and the functions of this repository that live
    in other files and packages. *)
Class Startup : Type := {
  Getenv : string -> string;
  osOpen : string -> result string;
  ToLower : string -> string;
  loadConfig : string -> World -> result World;
  NewContainerGroupDiagnosticsFromFile :
    string -> gmap positive LogAnalytics.t ->
    result (gmap positive LogAnalytics.t * option ContainerGroupDiagnostics.t);
  NewContainerGroupDiagnostics :
    string -> string -> gmap positive LogAnalytics.t ->
    result (gmap positive LogAnalytics.t * option ContainerGroupDiagnostics.t);
  setupNodeCapacity : World -> result World;
  setVNETConfig : option AKSCredential.t -> World -> result World }.

Section Construction.
Context `{startup : Startup}.

Definition withFields (w : World) (f : setup.t) : World :=
  {| fields := f; objects := objects w |}.

(** The assignments of the arguments to the fields. *)
Definition assignArguments (f : setup.t) (nodeName operatingSystem internalIP : string)
    (daemonEndpointPort : Z) (clusterDomain : string) : setup.t :=
  setup.mk (setup.resourceGroup f) (setup.region f) nodeName operatingSystem
    (setup.cpu f) (setup.memory f) (setup.pods f) (setup.gpu f) (setup.gpuSKUs f)
    internalIP daemonEndpointPort (setup.diagnostics f) (setup.subnetName f)
    (setup.subnetCIDR f) (setup.vnetSubscriptionID f) (setup.vnetName f)
    (setup.vnetResourceGroup f) clusterDomain (setup.kubeDNSIP f).

(** [if azConfig.AKSCredential != nil { ... }] followed by the default of
    [vnetResourceGroup]. *)
Definition assignCredential (f : setup.t) (credential : option AKSCredential.t) : setup.t :=
  let '(resourceGroup, region, vnetName, vnetResourceGroup) :=
    match credential with
    | Some c => (AKSCredential.ResourceGroup c, AKSCredential.Region c,
                 AKSCredential.VNetName c, AKSCredential.VNetResourceGroup c)
    | None => (setup.resourceGroup f, setup.region f, setup.vnetName f,
               setup.vnetResourceGroup f)
    end in
  setup.mk resourceGroup region (setup.nodeName f) (setup.operatingSystem f)
    (setup.cpu f) (setup.memory f) (setup.pods f) (setup.gpu f) (setup.gpuSKUs f)
    (setup.internalIP f) (setup.daemonEndpointPort f) (setup.diagnostics f)
    (setup.subnetName f) (setup.subnetCIDR f) (setup.vnetSubscriptionID f) vnetName
    (if String.eqb vnetResourceGroup "" then resourceGroup else vnetResourceGroup)
    (setup.clusterDomain f) (setup.kubeDNSIP f).

Definition withDiagnostics (f : setup.t) (d : option ContainerGroupDiagnostics.t) : setup.t :=
  setup.mk (setup.resourceGroup f) (setup.region f) (setup.nodeName f)
    (setup.operatingSystem f) (setup.cpu f) (setup.memory f) (setup.pods f) (setup.gpu f)
    (setup.gpuSKUs f) (setup.internalIP f) (setup.daemonEndpointPort f) d
    (setup.subnetName f) (setup.subnetCIDR f) (setup.vnetSubscriptionID f)
    (setup.vnetName f) (setup.vnetResourceGroup f) (setup.clusterDomain f)
    (setup.kubeDNSIP f).

Definition withGroupAndRegion (f : setup.t) (resourceGroup region : string) : setup.t :=
  setup.mk resourceGroup region (setup.nodeName f)
    (setup.operatingSystem f) (setup.cpu f) (setup.memory f) (setup.pods f) (setup.gpu f)
    (setup.gpuSKUs f) (setup.internalIP f) (setup.daemonEndpointPort f)
    (setup.diagnostics f) (setup.subnetName f) (setup.subnetCIDR f)
    (setup.vnetSubscriptionID f) (setup.vnetName f) (setup.vnetResourceGroup f)
    (setup.clusterDomain f) (setup.kubeDNSIP f).

(** The two blocks that load the log-analytics workspace: from the file
    named by [LOG_ANALYTICS_AUTH_LOCATION], then from [LOG_ANALYTICS_ID] and
    [LOG_ANALYTICS_KEY], which overwrite the file's. *)
Definition loadDiagnostics (w : World) : result World :=
  w1 ←
    (let logAnalyticsAuthFile := Getenv "LOG_ANALYTICS_AUTH_LOCATION" in
     if String.eqb logAnalyticsAuthFile "" then Ok w
     else
       '(objects', d) ← NewContainerGroupDiagnosticsFromFile logAnalyticsAuthFile (objects w);
       Ok {| fields := withDiagnostics (fields w) d; objects := objects' |});
  let logAnalyticsID := Getenv "LOG_ANALYTICS_ID" in
  let logAnalyticsKey := Getenv "LOG_ANALYTICS_KEY" in
  if String.eqb logAnalyticsID "" then Ok w1
  else if String.eqb logAnalyticsKey "" then Ok w1
  else
    '(objects', d) ← NewContainerGroupDiagnostics logAnalyticsID logAnalyticsKey (objects w1);
    Ok {| fields := withDiagnostics (fields w1) d; objects := objects' |}.

(** The [CLUSTER_RESOURCE_ID] block: the [LogAnalytics] object of the
    diagnostics becomes a ContainerInsights one with a fresh metadata map of
    two entries. *)
Definition markContainerInsights (nodeName : string) (w : World) : World :=
  let clusterResourceID := Getenv "CLUSTER_RESOURCE_ID" in
  if String.eqb clusterResourceID "" then w
  else
    match setup.diagnostics (fields w) ≫= ContainerGroupDiagnostics.LogAnalytics with
    | Some a =>
        {| fields := fields w;
           objects :=
             alter (fun la =>
                      LogAnalytics.mk (LogAnalytics.WorkspaceID la) (LogAnalytics.WorkspaceKey la)
                        LogAnalyticsLogTypeContainerInsights
                        (Some (<[LogAnalyticsMetadataKeyClusterResourceID := clusterResourceID]>
                                 {[ LogAnalyticsMetadataKeyNodeName := nodeName ]})))
               a (objects w) |}
    | None => w
    end.

(** The resource group and the region: the environment overrides what the
    configuration and the credential gave; an empty resource group, an empty
    region and a region outside the list are errors. *)
Definition checkGroupAndRegion (w : World) : result World :=
  let rg := Getenv "ACI_RESOURCE_GROUP" in
  let resourceGroup := if String.eqb rg "" then setup.resourceGroup (fields w) else rg in
  if String.eqb resourceGroup "" then
    Err (Errorf "Resource group can not be empty please set ACI_RESOURCE_GROUP")
  else
    let r := Getenv "ACI_REGION" in
    let region := if String.eqb r "" then setup.region (fields w) else r in
    if String.eqb region "" then
      Err (Errorf "Region can not be empty please set ACI_REGION")
    else if negb (isValidACIRegion ToLower region) then
      Err (Errorf ("Region " ++ region ++ " is invalid. Current supported regions are: "
                   ++ String.concat ", " validAciRegions))
    else Ok (withFields w (withGroupAndRegion (fields w) resourceGroup region)).

(** [NewACIProvider] up to and including the region check: the state in
    which [setupNodeCapacity] is entered. *)
Definition configuredProvider (heap : gmap positive LogAnalytics.t) (config : string)
    (credential : option AKSCredential.t) (nodeName operatingSystem internalIP : string)
    (daemonEndpointPort : Z) (clusterDomain : string) : result World :=
  w ←
    (let w := {| fields := setup.zero; objects := heap |} in
     if String.eqb config "" then Ok w
     else
       f ← osOpen config;
       loadConfig f w);
  let w := withFields w (assignArguments (fields w) nodeName operatingSystem internalIP
                           daemonEndpointPort clusterDomain) in
  let w := withFields w (assignCredential (fields w) credential) in
  w ← loadDiagnostics w;
  let w := markContainerInsights nodeName w in
  checkGroupAndRegion w.

(** NewACIProvider creates a new ACIProvider.  The clients, the resource
    manager and the metrics provider it stores are not represented. *)
Definition NewACIProvider (heap : gmap positive LogAnalytics.t) (config : string)
    (credential : option AKSCredential.t) (nodeName operatingSystem internalIP : string)
    (daemonEndpointPort : Z) (clusterDomain : string) : result World :=
  w ← configuredProvider heap config credential nodeName operatingSystem internalIP
         daemonEndpointPort clusterDomain;
  w ← setupNodeCapacity w;
  setVNETConfig credential w.

End Construction.

(** ** Further samples *)

(** A legacy auth config without a user name, for the auth text of
    [user:pass]. *)
Definition authOnly : AuthConfig := Build_AuthConfig "" "" "dXNlcjpwYXNz".

(** A probe with both handlers, and a pod whose container carries it as its
    liveness probe. *)
Definition twoHandlers : v1.Probe.t :=
  v1.Probe.mk (Some ["cat"; "/tmp/healthy"])
    (Some (v1.HTTPGetAction.mk "/healthz" (intstr.Int 8080) "HTTP")) 5 1 10 1 3.

Definition probedContainer : v1.Container.t :=
  v1.Container.mk "app" "nginx" ["sh"] [] None [] noResources [] (Some twoHandlers) None.

Definition probedPod : v1.Pod.t := samplePod ∅ [] [probedContainer].

(** An HTTP probe on the port named [http], and three declared ports of
    which two carry that name. *)
Definition httpProbe : v1.Probe.t :=
  v1.Probe.mk None (Some (v1.HTTPGetAction.mk "/healthz" (intstr.String "http") "HTTP"))
    5 1 10 1 3.

Definition declaredPortList : list v1.ContainerPort.t :=
  [ v1.ContainerPort.mk "metrics" 9090 "TCP";
    v1.ContainerPort.mk "http" 8080 "TCP";
    v1.ContainerPort.mk "http" 80 "TCP" ].

(** The same probe against a port [http] declared with the number 0. *)
Definition zeroPortList : list v1.ContainerPort.t :=
  [ v1.ContainerPort.mk "http" 0 "TCP"; v1.ContainerPort.mk "http" 80 "TCP" ].

(** A container that requests and limits 5m of CPU and 50,000,000 bytes of
    memory. *)
Definition tinyQuantities : gmap string resource.Quantity :=
  <[ v1.ResourceCPU := resource.mkQuantity 5 1 ]>
    {[ v1.ResourceMemory := resource.mkQuantity 50000000000 50000000 ]}.

Definition tinyContainer : v1.Container.t :=
  sampleContainer ["sh"] [] None
    (v1.ResourceRequirements.mk (Some tinyQuantities) (Some tinyQuantities)).

Definition tinyPod : v1.Pod.t := samplePod ∅ [] [tinyContainer].

(** The Windows group of the filter scenario with an init container that
    mounts the service-account volume too. *)
Definition windowsInit : azaci.InitContainerDefinition.t :=
  azaci.InitContainerDefinition.mk "init" "busybox" ["cmd"] []
    [azaci.VolumeMount.mk "kube-api-access" "/var/run/secrets/kubernetes.io/serviceaccount" true].

Definition windowsGroupWithInit : client2.ContainerGroupWrapper.t :=
  client2.ContainerGroupWrapper.mk "westus2" ∅ "Always" "Windows" [windowsInit]
    [windowsContainer]
    [azaci.Volume.mk "kube-api-access" "secret"; azaci.Volume.mk "share" "azureFile"]
    [] None.

(** Collaborators that do not convert the group named [broken]. *)
Definition pickyCollaborators : Collaborators := {|
  getProtocol := fun pro => if String.eqb pro "UDP" then "UDP" else "TCP";
  getVolumes := fun _ _ => Ok [];
  amendVnetResources := fun _ cg _ => cg;
  containerGroupToPod := fun store cg =>
    if String.eqb (azaci.ContainerGroup.Name cg) "broken"
    then Err (Errorf "container group has no containers")
    else Ok (v1.Pod.mk (azaci.ContainerGroup.Name cg) "default" "" "" "" ∅
               (v1.PodSpec.mk "" "" [] [] [])) |}.

(** Three listed groups: two tagged with the pointer [&p.nodeName] (address
    1), of which one does not convert, and one tagged with another pointer. *)
Definition ownGroup : azaci.ContainerGroup.t :=
  azaci.ContainerGroup.mk "default-web" "id-1" {[ "NodeName" := Some 1%positive ]}.
Definition brokenGroup : azaci.ContainerGroup.t :=
  azaci.ContainerGroup.mk "broken" "id-2" {[ "NodeName" := Some 1%positive ]}.

Definition mixedListing : ACIProvider :=
  sampleProvider [] "" (Some [ownGroup; brokenGroup; listedGroup]).

(** Clients that report [ownGroup] for every pod and refuse every delete,
    with a validation that rejects every group. *)
Definition strictClients : GroupClients := {|
  GetContainerGroupInfo := fun _ _ _ _ => Ok (Some ownGroup);
  DeleteContainerGroup := fun _ _ => Some (Upstream "conflict");
  ListLogs := fun _ _ _ _ => Ok None;
  ValidateContainerGroup := fun _ => Some (Errorf "containers cannot be nil");
  getPodStatusFromContainerGroup := fun _ => Err (Errorf "no status");
  nilGroupToPod := Err (Errorf "nil container group") |}.

Definition ownListing : ACIProvider := sampleProvider [] "" (Some [ownGroup]).

(** A store with one ContainerInsights workspace at address 7. *)
Definition insights : LogAnalytics.t :=
  LogAnalytics.mk "workspace" "key" "ContainerInsights" (Some {[ "node-name" := "vk" ]}).

Definition insightsStore : gmap positive LogAnalytics.t := {[ 7%positive := insights ]}.

Definition insightsDiagnostics : ContainerGroupDiagnostics.t :=
  ContainerGroupDiagnostics.mk (Some 7%positive).

Definition podWithUID (uid : string) : v1.Pod.t :=
  v1.Pod.mk "web" "default" "" uid "2022-11-01" ∅ (v1.PodSpec.mk "" "" [] [] []).

(** A getter of statistics (here numbers) that answers by the pod's name. *)
Definition statsByName : v1.Pod.t -> result Z :=
  fun pod => if String.eqb (v1.Pod.Name pod) "web" then Ok 42 else Ok 7.

Definition podNamed (name uid : string) : v1.Pod.t :=
  v1.Pod.mk name "default" "" uid "2022-11-01" ∅ (v1.PodSpec.mk "" "" [] [] []).

(** A start-up environment: the resource group and the cluster resource id
    come from the environment, the workspace from its id and key, the region
    from the credential; there is no configuration file to open. *)
Definition sampleStartup : Startup := {|
  Getenv := fun name =>
    if String.eqb name "ACI_RESOURCE_GROUP" then "aci-rg"
    else if String.eqb name "LOG_ANALYTICS_ID" then "workspace"
    else if String.eqb name "LOG_ANALYTICS_KEY" then "key"
    else if String.eqb name "CLUSTER_RESOURCE_ID" then "/subscriptions/s/cluster"
    else "";
  osOpen := fun _ => Err (Upstream "no such file or directory");
  ToLower := asciiToLower;
  loadConfig := fun _ w => Ok w;
  NewContainerGroupDiagnosticsFromFile := fun _ _ => Err (Upstream "no such file or directory");
  NewContainerGroupDiagnostics := fun id key objects =>
    Ok (<[ 7%positive := LogAnalytics.mk id key "" None ]> objects,
        Some (ContainerGroupDiagnostics.mk (Some 7%positive)));
  setupNodeCapacity := fun w => Ok w;
  setVNETConfig := fun _ w => Ok w |}.

Definition sampleCredential : AKSCredential.t :=
  AKSCredential.mk "aks-rg" "West US 2" "vnet" "".

(** A pod with a well-formed init container. *)
Definition plainInit : v1.Container.t :=
  v1.Container.mk "init" "busybox" ["sh"] ["-c"; "true"] None [] noResources
    [v1.VolumeMount.mk "share" "/data" false] None None.

Definition initPod : v1.Pod.t :=
  samplePod ∅ [plainInit] [sampleContainer ["sh"] [] None noResources].

(** A pod that is wrong twice: its container has args and no command, and
    its pull secret does not exist. *)
Definition doublyBadPod : v1.Pod.t :=
  v1.Pod.mk "web" "default" "" "uid-1" "2022-11-01" ∅
    (v1.PodSpec.mk "virtual-kubelet" "Always" [] [argsOnly] ["missing"]).

(** A backend whose listing fails. *)
Definition failingBackend : AzClientsInterface := {|
  CreateContainerGroup := fun _ _ _ _ => None;
  GetContainerGroupListResult := fun _ => Err (Upstream "throttled") |}.

Definition failingListing : ACIProvider := {|
  azClientsAPIs := failingBackend;
  resourceManager := noSecrets;
  resourceGroup := "rg";
  region := "westus2";
  nodeName := "virtual-kubelet";
  nodeNameAddr := 1%positive;
  operatingSystem := "Linux";
  gpuSKUs := [];
  subnetName := "" |}.

(** Clients that accept every delete and every group, and a tracker that
    answers every update with an error. *)
Definition lenientClients : GroupClients := {|
  GetContainerGroupInfo := fun _ _ _ _ => Ok None;
  DeleteContainerGroup := fun _ _ => None;
  ListLogs := fun _ _ _ _ => Ok (Some "log line");
  ValidateContainerGroup := fun _ => None;
  getPodStatusFromContainerGroup := fun _ => Ok (PodStatus.mk "Running" "" "" "10.0.0.4" []);
  nilGroupToPod := Err (Errorf "nil container group") |}.

Definition failingTracker : PodsTracker := {|
  UpdatePodStatus := fun _ _ _ _ => Some (Upstream "pod not found") |}.

(** A ContainerInsights workspace whose metadata map was never made. *)
Definition bareInsightsStore : gmap positive LogAnalytics.t :=
  {[ 7%positive := LogAnalytics.mk "workspace" "key" "ContainerInsights" None ]}.

(** ** Properties of the loops *)

Section Loops.
Context {A B : Type} (body : A -> result B).

Lemma rangeAppend_Ok xs : forall out r,
  rangeAppend body xs out = Ok r <->
  exists ys, r = out ++ ys /\ Forall2 (fun x y => body x = Ok y) xs ys.
Proof.
  induction xs as [|x xs IH]; intros out r; simpl.
  - split.
    + intros [= <-]. exists []. rewrite app_nil_r. split; [done | constructor].
    + intros (ys & -> & Hys). inversion Hys. by rewrite app_nil_r.
  - destruct (body x) as [y|e] eqn:Hx.
    + rewrite IH. split.
      * intros (ys & -> & Hys). exists (y :: ys). rewrite <- app_assoc.
        split; [done | by constructor].
      * intros (ys & -> & Hys). inversion Hys as [|? y' ? ys' Hy Hys' ]; subst.
        assert (y' = y) as -> by congruence.
        exists ys'. by rewrite <- app_assoc.
    + split; [done |].
      intros (ys & _ & Hys). inversion Hys; congruence.
Qed.

(** The error of the loop is the error of the first element whose body
    fails; the elements before it were translated. *)
Lemma rangeAppend_Err xs : forall out e,
  rangeAppend body xs out = Err e <->
  exists pre x post, xs = pre ++ x :: post /\
    Forall (fun x' => exists y, body x' = Ok y) pre /\ body x = Err e.
Proof.
  induction xs as [|x xs IH]; intros out e; simpl.
  - split; [done |]. intros (pre & x & post & Hxs & _). by destruct pre.
  - destruct (body x) as [y|e'] eqn:Hx.
    + rewrite IH. split.
      * intros (pre & x' & post & -> & Hpre & Hx').
        exists (x :: pre), x', post. repeat split; [| done].
        constructor; eauto.
      * intros (pre & x' & post & Hxs & Hpre & Hx').
        destruct pre as [|x0 pre]; simpl in Hxs; injection Hxs as -> ->.
        -- congruence.
        -- inversion Hpre; subst. by exists pre, x', post.
    + split.
      * intros [= ->]. exists [], x, xs. repeat split; [constructor | done].
      * intros (pre & x' & post & Hxs & Hpre & Hx').
        destruct pre as [|x0 pre]; simpl in Hxs; injection Hxs as -> ->.
        -- congruence.
        -- inversion Hpre as [|? ? [y Hy] ?]; subst. congruence.
Qed.

(** An element whose body fails makes the loop fail. *)
Lemma rangeAppend_fails xs out x :
  x ∈ xs -> is_Err (body x) -> is_Err (rangeAppend body xs out).
Proof.
  revert out. induction xs as [|x' xs IH]; intros out Hin Hx; [by inversion Hin |].
  simpl. destruct (body x') as [y|e] eqn:Hx'; [| done].
  apply IH; [| done].
  inversion Hin; subst; [| done]. by rewrite Hx' in Hx.
Qed.

(** A loop whose body fails only with errors of one class fails only with
    errors of that class. *)
Lemma rangeAppend_Err_class (P : error -> Prop) xs out e :
  (forall x e', body x = Err e' -> P e') ->
  rangeAppend body xs out = Err e -> P e.
Proof.
  intros HP. rewrite rangeAppend_Err. intros (pre & x & post & _ & _ & Hx). eauto.
Qed.

End Loops.

Lemma is_Err_exists {A} (r : result A) : is_Err r <-> exists e, r = Err e.
Proof. destruct r; simpl; split; try done; eauto. by intros [? ?]. Qed.

(** ** Properties of the quantization *)

Lemma Qltb_lt x y : Qltb x y = true <-> (x < y)%Q.
Proof.
  unfold Qltb. rewrite negb_true_iff, <- not_true_iff_false, Qle_bool_iff.
  split; [apply Qnot_le_lt | apply Qlt_not_le].
Qed.

Lemma Qltb_ge x y : Qltb x y = false <-> (y <= x)%Q.
Proof. unfold Qltb. by rewrite negb_false_iff, Qle_bool_iff. Qed.

(** Raising to a minimum, as the code writes it, is a maximum. *)
Lemma raise_is_max (q lo : Q) : ((if Qltb q lo then lo else q) == Qmax lo q)%Q.
Proof.
  destruct (Qltb q lo) eqn:H.
  - apply Qltb_lt, Qlt_le_weak in H. symmetry. by apply Q.max_l.
  - apply Qltb_ge in H. symmetry. by apply Q.max_r.
Qed.

(** The value of the local [cpuRequest] in closed form. *)
Lemma cpuRequest_closed_form (r : v1.ResourceRequirements.t) :
  (cpuRequest r ==
   match rl_lookup (v1.ResourceRequirements.Requests r) v1.ResourceCPU with
   | Some q => Qmax (1 # 100) (inject_Z (resource.MilliValue q ÷ 10) / 100)
   | None => 1
   end)%Q.
Proof.
  unfold cpuRequest, Cpu.
  destruct (rl_lookup _ v1.ResourceCPU) as [q|]; [| reflexivity].
  simpl. apply raise_is_max.
Qed.

(** The value of the local [memoryRequest] in closed form. *)
Lemma memoryRequest_closed_form (r : v1.ResourceRequirements.t) :
  (memoryRequest r ==
   match rl_lookup (v1.ResourceRequirements.Requests r) v1.ResourceMemory with
   | Some q => Qmax (1 # 10) (inject_Z (resource.Value q ÷ 100000000) / 10)
   | None => 15 # 10
   end)%Q.
Proof.
  unfold memoryRequest, Memory.
  destruct (rl_lookup _ v1.ResourceMemory) as [q|]; [| reflexivity].
  simpl. apply raise_is_max.
Qed.

Section TranslationFacts.
Context `{lib : GoLib} `{collab : Collaborators}.

(** ** Inversion of the container translation *)

Lemma aciResources_Ok p pod r res :
  aciResources p pod r = Ok res ->
  azaci.ResourceRequests.CPU (azaci.ResourceRequirements.Requests res) = cpuRequest r /\
  azaci.ResourceRequests.MemoryInGB (azaci.ResourceRequirements.Requests res) = memoryRequest r /\
  match v1.ResourceRequirements.Limits r with
  | None => azaci.ResourceRequirements.Limits res = None
  | Some _ =>
      exists gpu, gpuResource p pod r = Ok gpu /\
        azaci.ResourceRequests.Gpu (azaci.ResourceRequirements.Requests res) = gpu /\
        azaci.ResourceRequirements.Limits res =
          Some (azaci.ResourceLimits.mk (memoryLimit r) (cpuLimit r) gpu)
  end.
Proof.
  unfold aciResources. destruct (v1.ResourceRequirements.Limits r) as [lim|] eqn:Hlim; simpl.
  - destruct (gpuResource p pod r) as [gpu|e] eqn:Hgpu; simpl; [| done].
    intros [= <-]. simpl. eauto 6.
  - intros [= <-]. by simpl.
Qed.

Lemma aciContainer_Ok p pod c ac :
  aciContainer p pod c = Ok ac ->
  verifyContainer c = None /\
  exists resources liveness readiness,
    aciResources p pod (v1.Container.Resources c) = Ok resources /\
    getProbeOpt (v1.Container.LivenessProbe c) (elems (v1.Container.Ports c)) = Ok liveness /\
    getProbeOpt (v1.Container.ReadinessProbe c) (elems (v1.Container.Ports c)) = Ok readiness /\
    ac = azaci.Container.mk (v1.Container.Name c) (v1.Container.Image c)
           (v1.Container.Command c ++ v1.Container.Args c) (getContainerPorts c)
           (environmentVariables (v1.Container.Env c) []) resources
           (getVolumeMounts c) liveness readiness.
Proof.
  unfold aciContainer, verifyContainer.
  destruct (_ && _); [done |].
  destruct (aciResources _ _ _) as [res|]; simpl; [| done].
  destruct (getProbeOpt (v1.Container.LivenessProbe c) _) as [lv|]; simpl; [| done].
  destruct (getProbeOpt (v1.Container.ReadinessProbe c) _) as [rd|]; simpl; [| done].
  intros [= <-]. split; [done |]. by exists res, lv, rd.
Qed.

(** A successful [getContainers] translates the containers one by one, in
    order. *)
Lemma getContainers_Ok p pod acs :
  getContainers p pod = Ok acs <->
  Forall2 (fun c ac => aciContainer p pod c = Ok ac)
    (v1.PodSpec.Containers (v1.Pod.Spec pod)) acs.
Proof.
  unfold getContainers. rewrite rangeAppend_Ok. split.
  - by intros (ys & -> & H).
  - intros H. by exists acs.
Qed.

(** C1 (as amended).  For every container of a pod that [getContainers]
    translates, the CPU request in cores is [max(0.01, (m quot 10) / 100)],
    where [m] is the requested milli-CPU value and [quot] is integer division
    truncating toward zero (multiples of 10m are kept, the remainder is cut
    off, nothing is rounded up); without a CPU request it is 1.0 core.  In
    particular 5m and 12m give 0.01, and 1000m gives 1.00. *)
Theorem cpu_request_truncated p pod acs :
  getContainers p pod = Ok acs ->
  Forall2 cpuRequestTruncated (v1.PodSpec.Containers (v1.Pod.Spec pod)) acs
  /\ (forall v, cpuRequest (requestOf v1.ResourceCPU (resource.mkQuantity 5 v)) == 1 # 100)%Q
  /\ (forall v, cpuRequest (requestOf v1.ResourceCPU (resource.mkQuantity 12 v)) == 1 # 100)%Q
  /\ (forall v, cpuRequest (requestOf v1.ResourceCPU (resource.mkQuantity 1000 v)) == 1)%Q.
Proof.
  intros H. split; [| by repeat split; intros v; vm_compute].
  apply getContainers_Ok in H.
  eapply Forall2_impl; [exact H |].
  intros c ac Hc. simpl in Hc. unfold cpuRequestTruncated.
  apply aciContainer_Ok in Hc as (_ & res & lv & rd & Hres & _ & _ & ->). simpl.
  apply aciResources_Ok in Hres as (-> & _).
  pose proof (cpuRequest_closed_form (v1.Container.Resources c)) as Hq.
  by destruct (rl_lookup _ v1.ResourceCPU).
Qed.

(** C2 (as amended).  For every container of a pod that [getContainers]
    translates, the memory request in GB is [max(0.1, (b quot 10^8) / 10)],
    where [b] is the requested number of bytes and [quot] is integer division
    truncating toward zero (whole steps of 0.1 GB are kept, the remainder is
    cut off, nothing is rounded up); without a memory request it is 1.5 GB.
    In particular 50,000,000 bytes give 0.1 GB. *)
Theorem memory_request_truncated p pod acs :
  getContainers p pod = Ok acs ->
  Forall2 memoryRequestTruncated (v1.PodSpec.Containers (v1.Pod.Spec pod)) acs
  /\ (forall m, memoryRequest (requestOf v1.ResourceMemory (resource.mkQuantity m 50000000))
                == 1 # 10)%Q.
Proof.
  intros H. split; [| by intros m; vm_compute].
  apply getContainers_Ok in H.
  eapply Forall2_impl; [exact H |].
  intros c ac Hc. simpl in Hc. unfold memoryRequestTruncated.
  apply aciContainer_Ok in Hc as (_ & res & lv & rd & Hres & _ & _ & ->). simpl.
  apply aciResources_Ok in Hres as (_ & -> & _).
  pose proof (memoryRequest_closed_form (v1.Container.Resources c)) as Hq.
  by destruct (rl_lookup _ v1.ResourceMemory).
Qed.

(** C9 (as amended).  For every container of a pod that [getContainers]
    translates: when the container's limits map is nil, the translated
    container carries no limits at all; when the limits map is not nil
    (possibly empty, or holding other entries only), the translated limits
    exist, a CPU limit that is not specified equals the quantized CPU request,
    and a memory limit that is not specified equals the quantized memory
    request. *)
Theorem limits_mirror_requests p pod acs :
  getContainers p pod = Ok acs ->
  Forall2 limitsMirrorRequests (v1.PodSpec.Containers (v1.Pod.Spec pod)) acs.
Proof.
  intros H. apply getContainers_Ok in H.
  eapply Forall2_impl; [exact H |].
  intros c ac Hc. simpl in Hc. unfold limitsMirrorRequests.
  apply aciContainer_Ok in Hc as (_ & res & lv & rd & Hres & _ & _ & ->). simpl.
  apply aciResources_Ok in Hres as (Hcpu & Hmem & Hlim).
  destruct (v1.ResourceRequirements.Limits (v1.Container.Resources c)) as [limits|] eqn:Hl;
    [| done].
  destruct Hlim as (gpu & _ & _ & ->). eexists. split; [done |]. simpl.
  rewrite Hcpu, Hmem. unfold cpuLimit, memoryLimit, rl_lookup. rewrite Hl. simpl.
  split; by intros ->.
Qed.

(** ** Environment variables *)

Lemma environmentVariables_filter env : forall out,
  environmentVariables env out =
  out ++ (getACIEnvVar <$> filter (fun e => v1.EnvVar.Value e ≠ "") env).
Proof.
  induction env as [|e env IH]; intros out; simpl.
  - by rewrite app_nil_r.
  - rewrite filter_cons. destruct (String.eqb_spec (v1.EnvVar.Value e) "") as [Heq|Hne].
    + rewrite decide_False by (intros Hn; by apply Hn). apply IH.
    + rewrite decide_True by done. rewrite IH, <- app_assoc. done.
Qed.

Lemma getACIEnvVar_emittedAs e : emittedAs e (getACIEnvVar e).
Proof.
  unfold emittedAs, getACIEnvVar.
  destruct (v1.EnvVar.ValueFrom e) as [[f r c [s|]]|]; simpl; auto.
Qed.

Lemma environmentVariables_emitted env :
  Forall2 emittedAs (filter (fun e => v1.EnvVar.Value e ≠ "") env)
    (environmentVariables env []).
Proof.
  rewrite environmentVariables_filter. simpl.
  apply Forall2_fmap_r, Forall_Forall2_diag, Forall_forall.
  intros e _. apply getACIEnvVar_emittedAs.
Qed.

(** C5.  For a pod whose containers and init containers translate, the
    environment of every translated container (and init container) consists,
    in order, of exactly the variables of the source container whose value is
    not the empty string: the variables with an empty value are dropped.  Each
    variable kept is emitted under its name, with its value in [SecureValue]
    and no plain [Value] when it comes from a secret key reference, and with
    its value in [Value] and no [SecureValue] otherwise. *)
Theorem environment_variables_translated p pod acs ics :
  getContainers p pod = Ok acs ->
  getInitContainers pod = Ok ics ->
  Forall2 (fun c ac => environmentOf c (azaci.Container.EnvironmentVariables ac))
    (v1.PodSpec.Containers (v1.Pod.Spec pod)) acs /\
  Forall2 (fun c ic => environmentOf c (azaci.InitContainerDefinition.EnvironmentVariables ic))
    (v1.PodSpec.InitContainers (v1.Pod.Spec pod)) ics.
Proof.
  intros Hc Hi. unfold environmentOf. split.
  - apply getContainers_Ok in Hc. eapply Forall2_impl; [exact Hc |].
    intros c ac Hac. simpl in Hac.
    apply aciContainer_Ok in Hac as (_ & res & lv & rd & _ & _ & _ & ->). simpl.
    apply environmentVariables_emitted.
  - unfold getInitContainers in Hi. apply rangeAppend_Ok in Hi as (ys & -> & Hys).
    eapply Forall2_impl; [exact Hys |].
    intros c ic Hic. simpl in Hic. unfold newInitContainer in Hic.
    destruct (verifyContainer c); [done |].
    repeat (match type of Hic with (if ?b then _ else _) = _ => destruct b; [done |] end).
    injection Hic as <-. simpl. apply environmentVariables_emitted.
Qed.

(** ** Failures of the translation *)

Lemma verifyContainer_rejects c :
  argsButNoCommand c -> verifyContainer c = Some (InvalidInput argsWithoutCommand).
Proof.
  intros [Hcmd Hargs]. unfold verifyContainer. rewrite Hcmd.
  by destruct (v1.Container.Args c).
Qed.

Lemma aciContainer_rejects p pod c :
  argsButNoCommand c -> aciContainer p pod c = Err (InvalidInput argsWithoutCommand).
Proof.
  intros [Hcmd Hargs]. unfold aciContainer. rewrite Hcmd.
  by destruct (v1.Container.Args c).
Qed.

Lemma getGPUSKU_Err p pod e : getGPUSKU p pod = Err e -> ValidationError e.
Proof.
  unfold getGPUSKU. destruct (gpuSKUs p); [by intros [= <-] |].
  destruct (_ !! gpuTypeAnnotation); [| done].
  destruct (supportedSKUFor _ _); [done | by intros [= <-]].
Qed.

Lemma getProbe_Err probe ports e : getProbe probe ports = Err e -> ValidationError e.
Proof.
  unfold getProbe.
  destruct (_ && _); [by intros [= <-] |].
  destruct (_ && _); [by intros [= <-] |].
  destruct (v1.Probe.HTTPGet probe) as [h|]; simpl; [| done].
  destruct (v1.HTTPGetAction.Port h) as [n|portName]; simpl; [done |].
  destruct (_ =? _)%Z; simpl; [by intros [= <-] | done].
Qed.

Lemma getProbeOpt_Err probe ports e : getProbeOpt probe ports = Err e -> ValidationError e.
Proof.
  destruct probe as [pr|]; simpl; [| done].
  destruct (getProbe pr ports) eqn:H; simpl; [done |].
  intros [= <-]. by eapply getProbe_Err.
Qed.

(** Every error of the container translation is raised by the translation
    itself. *)
Lemma aciContainer_Err p pod c e : aciContainer p pod c = Err e -> ValidationError e.
Proof.
  unfold aciContainer. destruct (_ && _); [by intros [= <-] |].
  destruct (aciResources _ _ _) as [res|e'] eqn:Hres; simpl.
  - destruct (getProbeOpt (v1.Container.LivenessProbe c) _) as [lv|e'] eqn:Hlv; simpl.
    + destruct (getProbeOpt (v1.Container.ReadinessProbe c) _) as [rd|e'] eqn:Hrd; simpl;
        [done |].
      intros [= <-]. by eapply getProbeOpt_Err.
    + intros [= <-]. by eapply getProbeOpt_Err.
  - intros [= <-]. revert Hres. unfold aciResources, gpuResource.
    destruct (notNil _); [| done].
    destruct (rl_lookup _ gpuResourceName) as [gpu|]; simpl; [| done].
    destruct (getGPUSKU p pod) as [sku|e''] eqn:Hsku; simpl.
    + destruct (_ =? _)%Z; simpl; [by intros [= <-] | done].
    + intros [= <-]. by eapply getGPUSKU_Err.
Qed.

(** Every error of the init-container translation is an [InvalidInput]. *)
Lemma newInitContainer_Err c e : newInitContainer c = Err e -> isInvalidInput e.
Proof.
  unfold newInitContainer, verifyContainer.
  destruct (_ && _); [by intros [= <-] |].
  repeat (match goal with |- (if ?b then _ else _) = _ -> _ =>
            destruct b; [by intros [= <-] |] end).
  done.
Qed.

Lemma newInitContainer_rejects c :
  argsButNoCommand c \/ declaresUnsupportedInitField c -> is_Err (newInitContainer c).
Proof.
  unfold newInitContainer. intros [H|H].
  - by rewrite (verifyContainer_rejects c H).
  - destruct (verifyContainer c); [done |].
    unfold declaresUnsupportedInitField in H.
    destruct (v1.Container.Ports c); [done |].
    destruct (v1.ResourceRequirements.Requests _); [done |].
    destruct (v1.ResourceRequirements.Limits _); [done |].
    destruct (v1.Container.LivenessProbe c); [done |].
    destruct (v1.Container.ReadinessProbe c); [done |].
    by destruct H as [H|[H|[H|[H|H]]]].
Qed.

Lemma getInitContainers_rejects pod c :
  c ∈ v1.PodSpec.InitContainers (v1.Pod.Spec pod) ->
  argsButNoCommand c \/ declaresUnsupportedInitField c ->
  exists msg, getInitContainers pod = Err (InvalidInput msg).
Proof.
  intros Hin Hc.
  pose proof (rangeAppend_fails newInitContainer _ [] c Hin (newInitContainer_rejects c Hc)) as H.
  apply is_Err_exists in H as [e He].
  pose proof (rangeAppend_Err_class newInitContainer isInvalidInput _ _ _
                newInitContainer_Err He) as Hinv.
  unfold getInitContainers. rewrite He. destruct e; try done. eauto.
Qed.

(** ** The create path *)

(** A failed translation ends [CreatePod] with that error and an empty log of
    backend calls. *)
Lemma CreatePod_translation_error p pod e :
  containerGroupRequest p pod = Err e -> run (CreatePod p pod) = ([], Err e).
Proof. intros H. unfold run, CreatePod, mbind, backend_bind, pure. by rewrite H. Qed.

(** A successful translation is submitted in a single call. *)
Lemma CreatePod_submits p pod cg :
  containerGroupRequest p pod = Ok cg ->
  (run (CreatePod p pod)).1 =
    [CallCreateContainerGroup (resourceGroup p) (v1.Pod.Namespace pod) (v1.Pod.Name pod) cg].
Proof. intros H. unfold run, CreatePod, mbind, backend_bind, pure. by rewrite H. Qed.

Lemma containerGroupRequest_containers_fail p pod e :
  getContainers p pod = Err e -> containerGroupRequest p pod = Err e.
Proof. intros H. unfold containerGroupRequest. by rewrite H. Qed.

Lemma containerGroupRequest_init_fail p pod :
  is_Err (getInitContainers pod) -> is_Err (containerGroupRequest p pod).
Proof.
  intros H. unfold containerGroupRequest.
  destruct (getContainers p pod); simpl; [| done].
  destruct (getImagePullSecrets p pod); simpl; [| done].
  destruct (getVolumes p pod); simpl; [| done].
  by destruct (getInitContainers pod).
Qed.

(** C3.  If a container or an init container of the pod declares args but no
    command, the translation fails and [CreatePod] returns an error without
    any call to the backend.  For a container, [getContainers] fails with a
    validation error, and with the [InvalidInput] error of the args check
    whenever the containers before the offending one translate; for an init
    container, [getInitContainers] fails with an [InvalidInput] error. *)
Theorem args_without_command_rejected p pod c :
  argsButNoCommand c ->
  c ∈ v1.PodSpec.Containers (v1.Pod.Spec pod) \/
  c ∈ v1.PodSpec.InitContainers (v1.Pod.Spec pod) ->
  (c ∈ v1.PodSpec.Containers (v1.Pod.Spec pod) ->
     (exists e, getContainers p pod = Err e /\ ValidationError e) /\
     (forall pre post,
        v1.PodSpec.Containers (v1.Pod.Spec pod) = pre ++ c :: post ->
        Forall (fun c' => exists ac, aciContainer p pod c' = Ok ac) pre ->
        getContainers p pod = Err (InvalidInput argsWithoutCommand))) /\
  (c ∈ v1.PodSpec.InitContainers (v1.Pod.Spec pod) ->
     exists msg, getInitContainers pod = Err (InvalidInput msg)) /\
  exists e, run (CreatePod p pod) = ([], Err e).
Proof.
  intros Hc Hin.
  assert (c ∈ v1.PodSpec.Containers (v1.Pod.Spec pod) ->
          exists e, getContainers p pod = Err e /\ ValidationError e) as Hcont.
  { intros Hin'.
    assert (is_Err (getContainers p pod)) as H.
    { eapply rangeAppend_fails; [exact Hin' |]. by rewrite aciContainer_rejects. }
    apply is_Err_exists in H as [e He]. exists e. split; [done |].
    eapply rangeAppend_Err_class; [| exact He].
    intros x e'. apply aciContainer_Err. }
  assert (c ∈ v1.PodSpec.InitContainers (v1.Pod.Spec pod) ->
          exists msg, getInitContainers pod = Err (InvalidInput msg)) as Hinit.
  { intros Hin'. eapply getInitContainers_rejects; eauto. }
  repeat split.
  - by apply Hcont.
  - intros pre post Hsplit Hpre. unfold getContainers. apply rangeAppend_Err.
    exists pre, c, post. repeat split; [done.. |]. by apply aciContainer_rejects.
  - done.
  - destruct Hin as [Hin|Hin].
    + destruct (Hcont Hin) as (e & He & _). exists e.
      by apply CreatePod_translation_error, containerGroupRequest_containers_fail.
    + destruct (Hinit Hin) as (msg & Hmsg).
      assert (is_Err (containerGroupRequest p pod)) as H.
      { apply containerGroupRequest_init_fail. by rewrite Hmsg. }
      apply is_Err_exists in H as [e He]. exists e.
      by apply CreatePod_translation_error.
Qed.

(** C7.  If an init container of the pod declares ports, resource requests,
    resource limits, a liveness probe or a readiness probe, then
    [getInitContainers] fails with an [InvalidInput] error (no init-container
    list is produced, so the field is not dropped silently), and [CreatePod]
    returns an error without any call to the backend. *)
Theorem init_container_fields_rejected p pod c :
  c ∈ v1.PodSpec.InitContainers (v1.Pod.Spec pod) ->
  declaresUnsupportedInitField c ->
  (exists msg, getInitContainers pod = Err (InvalidInput msg)) /\
  exists e, run (CreatePod p pod) = ([], Err e).
Proof.
  intros Hin Hc.
  destruct (getInitContainers_rejects pod c Hin (or_intror Hc)) as (msg & Hmsg).
  split; [by exists msg |].
  assert (is_Err (containerGroupRequest p pod)) as H.
  { apply containerGroupRequest_init_fail. by rewrite Hmsg. }
  apply is_Err_exists in H as [e He]. exists e.
  by apply CreatePod_translation_error.
Qed.

(** ** GPU SKU resolution *)

Lemma supportedSKUFor_Some desiredSKU skus s :
  supportedSKUFor desiredSKU skus = Some s <-> firstSupported desiredSKU skus s.
Proof.
  unfold firstSupported. induction skus as [|x skus IH]; simpl.
  - split; [done |]. intros (pre & post & H & _). by destruct pre.
  - destruct (EqualFold desiredSKU x) eqn:Hx.
    + split.
      * intros [= ->]. exists [], skus. by repeat split.
      * intros (pre & post & Hsplit & Hpre & Hs).
        destruct pre as [|x' pre]; simpl in Hsplit; injection Hsplit as -> ->; [done |].
        inversion Hpre; subst. congruence.
    + rewrite IH. split.
      * intros (pre & post & -> & Hpre & Hs). exists (x :: pre), post.
        repeat split; [by constructor | done].
      * intros (pre & post & Hsplit & Hpre & Hs).
        destruct pre as [|x' pre]; simpl in Hsplit; injection Hsplit as -> ->; [congruence |].
        inversion Hpre; subst. by exists pre, post.
Qed.

Lemma supportedSKUFor_None desiredSKU skus :
  supportedSKUFor desiredSKU skus = None <->
  Forall (fun x => EqualFold desiredSKU x = false) skus.
Proof.
  induction skus as [|x skus IH]; simpl; [by split; [constructor |] |].
  destruct (EqualFold desiredSKU x) eqn:Hx.
  - split; [done |]. intros H. inversion H; congruence.
  - rewrite IH. split; [by constructor | by inversion 1].
Qed.

Lemma getGPUSKU_annotated p pod desiredSKU s :
  v1.Pod.Annotations pod !! gpuTypeAnnotation = Some desiredSKU ->
  getGPUSKU p pod = Ok s <-> firstSupported desiredSKU (gpuSKUs p) s.
Proof.
  intros Hann. rewrite <- supportedSKUFor_Some. unfold getGPUSKU. rewrite Hann.
  destruct (gpuSKUs p) as [|x skus] eqn:Hskus; [done |].
  destruct (supportedSKUFor desiredSKU (x :: skus)); split; congruence.
Qed.

Lemma getGPUSKU_default p pod s :
  v1.Pod.Annotations pod !! gpuTypeAnnotation = None ->
  getGPUSKU p pod = Ok s <-> head (gpuSKUs p) = Some s.
Proof.
  intros Hann. unfold getGPUSKU. rewrite Hann.
  destruct (gpuSKUs p); simpl; split; congruence.
Qed.

Lemma gpuResource_Ok p pod r g :
  gpuResource p pod r = Ok g ->
  match rl_lookup (v1.ResourceRequirements.Limits r) gpuResourceName with
  | Some gpu =>
      exists sku, getGPUSKU p pod = Ok sku /\ resource.Value gpu ≠ 0 /\
        g = Some (azaci.GpuResource.mk (int32 (resource.Value gpu)) sku)
  | None => g = None
  end.
Proof.
  unfold gpuResource. destruct (rl_lookup _ gpuResourceName) as [gpu|]; [| congruence].
  destruct (getGPUSKU p pod) as [sku|]; simpl; [| done].
  destruct (Z.eqb_spec (resource.Value gpu) 0); [done |].
  intros [= <-]. by exists sku.
Qed.

(** A container with a GPU limit does not translate when no SKU resolves or
    when the GPU count is zero. *)
Lemma aciContainer_gpu_fails p pod c gpu :
  gpuLimit c = Some gpu ->
  is_Err (getGPUSKU p pod) \/ resource.Value gpu = 0 ->
  is_Err (aciContainer p pod c).
Proof.
  unfold gpuLimit. intros Hgpu Hbad.
  destruct (aciContainer p pod c) as [ac|] eqn:Hac; [| done].
  apply aciContainer_Ok in Hac as (_ & res & lv & rd & Hres & _).
  apply aciResources_Ok in Hres as (_ & _ & Hlim).
  destruct (v1.ResourceRequirements.Limits (v1.Container.Resources c)) as [limits|] eqn:Hl;
    [| done].
  destruct Hlim as (g & Hg & _). apply gpuResource_Ok in Hg. rewrite Hl, Hgpu in Hg.
  destruct Hg as (sku & Hsku & Hval & _).
  destruct Hbad as [Hbad|Hbad]; [by rewrite Hsku in Hbad | done].
Qed.

(** C4.  Let a container of the pod declare a GPU limit.  With a GPU-type
    annotation, [getGPUSKU] succeeds exactly with the first supported SKU
    equal to the annotation up to case; without the annotation it succeeds
    exactly with the first supported SKU.  If the supported list is empty, or
    the annotation matches no supported SKU, or the GPU count is zero, then
    [getContainers] returns an error (and so no container list), and
    [CreatePod] returns an error without any call to the backend.  When
    [getContainers] succeeds, every container with a GPU limit carries, on the
    request and on the limit side, the resolved SKU and the GPU count. *)
Theorem gpu_sku_resolved p pod c gpu :
  c ∈ v1.PodSpec.Containers (v1.Pod.Spec pod) ->
  gpuLimit c = Some gpu ->
  (forall desiredSKU s,
     v1.Pod.Annotations pod !! gpuTypeAnnotation = Some desiredSKU ->
     getGPUSKU p pod = Ok s <-> firstSupported desiredSKU (gpuSKUs p) s) /\
  (forall s,
     v1.Pod.Annotations pod !! gpuTypeAnnotation = None ->
     getGPUSKU p pod = Ok s <-> head (gpuSKUs p) = Some s) /\
  (gpuSKUs p = [] \/
   (exists desiredSKU,
      v1.Pod.Annotations pod !! gpuTypeAnnotation = Some desiredSKU /\
      Forall (fun x => EqualFold desiredSKU x = false) (gpuSKUs p)) \/
   resource.Value gpu = 0 ->
   (exists e, getContainers p pod = Err e) /\
   (exists e, run (CreatePod p pod) = ([], Err e))) /\
  (forall acs,
     getContainers p pod = Ok acs ->
     exists sku, getGPUSKU p pod = Ok sku /\
       Forall2 (gpuCarried sku) (v1.PodSpec.Containers (v1.Pod.Spec pod)) acs).
Proof.
  intros Hin Hgpu. split; [| split; [| split]].
  - intros desiredSKU s Hann. by apply getGPUSKU_annotated.
  - intros s Hann. by apply getGPUSKU_default.
  - intros Hbad.
    assert (is_Err (getGPUSKU p pod) \/ resource.Value gpu = 0) as Hbad'.
    { destruct Hbad as [Hnil|[(desiredSKU & Hann & Hnone)|Hzero]]; [left | left | by right].
      - unfold getGPUSKU. by rewrite Hnil.
      - apply supportedSKUFor_None in Hnone. unfold getGPUSKU. rewrite Hann, Hnone.
        by destruct (gpuSKUs p).
    }
    assert (is_Err (getContainers p pod)) as H.
    { eapply rangeAppend_fails; [exact Hin |]. by eapply aciContainer_gpu_fails. }
    apply is_Err_exists in H as [e He]. split; exists e; [done |].
    by apply CreatePod_translation_error, containerGroupRequest_containers_fail.
  - intros acs Hacs. apply getContainers_Ok in Hacs.
    assert (exists sku, getGPUSKU p pod = Ok sku) as [sku Hsku].
    { destruct (getGPUSKU p pod) as [sku|e] eqn:Hsku; [by exists sku |].
      apply list_elem_of_lookup in Hin as [i Hi].
      destruct (Forall2_lookup_l _ _ _ _ _ Hacs Hi) as (ac & _ & Hac).
      pose proof (aciContainer_gpu_fails p pod c gpu Hgpu) as Hf.
      rewrite Hsku, Hac in Hf. destruct Hf. by left. }
    exists sku. split; [done |].
    eapply Forall2_impl; [exact Hacs |].
    intros c' ac Hac gpu' Hgpu'. simpl in Hac.
    apply aciContainer_Ok in Hac as (_ & res & lv & rd & Hres & _ & _ & ->). simpl.
    apply aciResources_Ok in Hres as (_ & _ & Hlim).
    unfold gpuLimit in Hgpu'.
    destruct (v1.ResourceRequirements.Limits (v1.Container.Resources c')) as [limits|] eqn:Hl;
      [| done].
    destruct Hlim as (g & Hg & Hreq & Hlimits). apply gpuResource_Ok in Hg.
    rewrite Hl, Hgpu' in Hg. destruct Hg as (sku' & Hsku' & _ & ->).
    assert (sku' = sku) as -> by congruence.
    rewrite Hreq, Hlimits. done.
Qed.

(** ** The Windows service-account volume filter *)

Lemma filterVolumeMounts_spec mounts : forall kept names,
  (filterVolumeMounts mounts kept names).1 =
    kept ++ filter (fun m => targetsServiceAccount m = false) mounts /\
  forall n, n ∈ (filterVolumeMounts mounts kept names).2 <->
    n ∈ names \/
    exists m, m ∈ mounts /\ targetsServiceAccount m = true /\ azaci.VolumeMount.Name m = n.
Proof.
  induction mounts as [|m mounts IH]; intros kept names; simpl.
  - rewrite app_nil_r. split; [done |]. intros n. split; [by left |].
    intros [H|(m & Hm & _)]; [done | by inversion Hm].
  - rewrite filter_cons.
    change (EqualFold serviceAccountSecretMountPath (azaci.VolumeMount.MountPath m))
      with (targetsServiceAccount m).
    destruct (targetsServiceAccount m) eqn:Hm; simpl.
    + destruct (IH kept ({[azaci.VolumeMount.Name m]} ∪ names)) as [IH1 IH2].
      split; [done |].
      intros n. rewrite IH2. rewrite elem_of_union, elem_of_singleton. split.
      * intros [[->|H]|(m' & Hm' & Ht & Hn)]; [right | by left | right].
        -- exists m. split; [left | done].
        -- exists m'. split; [by right | done].
      * intros [H|(m' & Hm' & Ht & Hn)]; [by left; right |].
        inversion Hm'; subst; [by left; left |]. right. by exists m'.
    + destruct (IH (kept ++ [m]) names) as [IH1 IH2].
      rewrite IH1, <- app_assoc. split; [done |].
      intros n. rewrite IH2. split.
      * intros [H|(m' & Hm' & Ht & Hn)]; [by left | right].
        exists m'. split; [by right | done].
      * intros [H|(m' & Hm' & Ht & Hn)]; [by left |].
        inversion Hm'; subst; [congruence |].
        right. by exists m'.
Qed.

Lemma filterContainers_spec containers : forall names,
  (filterContainers containers names).1 =
    (fun c => withVolumeMounts c
                (filter (fun m => targetsServiceAccount m = false)
                   (azaci.Container.VolumeMounts c))) <$> containers /\
  forall n, n ∈ (filterContainers containers names).2 <->
    n ∈ names \/ referencedByServiceAccountMount containers n.
Proof.
  unfold referencedByServiceAccountMount.
  induction containers as [|c containers IH]; intros names; simpl.
  - split; [done |]. intros n. split; [by left |].
    intros [H|(c & m & Hc & _)]; [done | by inversion Hc].
  - destruct (filterVolumeMounts_spec (azaci.Container.VolumeMounts c) [] names) as [Hm1 Hm2].
    destruct (filterVolumeMounts (azaci.Container.VolumeMounts c) [] names)
      as [volumeMounts names1].
    destruct (IH names1) as [IH1 IH2].
    destruct (filterContainers containers names1) as [rest names2].
    simpl in *. subst. split; [done |].
    intros n. rewrite IH2, Hm2. split.
    + intros [[H|(m & Hm & Ht & Hn)]|(c' & m & Hc' & Hm & Ht & Hn)]; [by left | right | right].
      * exists c, m. split; [left | done].
      * exists c', m. split; [by right | done].
    + intros [H|(c' & m & Hc' & Hm & Ht & Hn)]; [by left; left |].
      inversion Hc'; subst.
      * left; right. by exists m.
      * right. by exists c', m.
Qed.

Lemma filterVolumes_spec vols names : forall out,
  filterVolumes vols names out =
  out ++ filter (fun v => azaci.Volume.Name v ∉ names) vols.
Proof.
  induction vols as [|v vols IH]; intros out; simpl.
  - by rewrite app_nil_r.
  - rewrite filter_cons. case_bool_decide as Hv.
    + rewrite decide_False by (intros Hn; by apply Hn). apply IH.
    + rewrite decide_True by done. by rewrite IH, <- app_assoc.
Qed.

(** On Windows the filter rewrites the mounts of every container and the
    volume list; everything else in the wrapper stays. *)
Lemma filterWindows_Windows osType cgw :
  EqualFold osType "Windows" = true ->
  exists names : gset string,
    (forall n, n ∈ names <->
       referencedByServiceAccountMount (client2.ContainerGroupWrapper.Containers cgw) n) /\
    filterWindowsServiceAccountSecretVolume osType cgw =
      withContainersVolumes cgw
        ((fun c => withVolumeMounts c
                     (filter (fun m => targetsServiceAccount m = false)
                        (azaci.Container.VolumeMounts c)))
           <$> client2.ContainerGroupWrapper.Containers cgw)
        (filter (fun v => azaci.Volume.Name v ∉ names)
           (client2.ContainerGroupWrapper.Volumes cgw)).
Proof.
  intros Hos. unfold filterWindowsServiceAccountSecretVolume. rewrite Hos.
  destruct (filterContainers_spec (client2.ContainerGroupWrapper.Containers cgw) ∅)
    as [Hc Hn].
  destruct (filterContainers (client2.ContainerGroupWrapper.Containers cgw) ∅)
    as [containers names].
  simpl in *. subst. exists names. split.
  - intros n. rewrite Hn. split; [| by right]. by intros [H|H]; [set_solver |].
  - destruct (Nat.eqb_spec (size names) 0) as [Hz|Hz].
    + f_equal. apply size_empty_iff in Hz.
      symmetry. induction (client2.ContainerGroupWrapper.Volumes cgw) as [|v vols IH];
        [done |].
      rewrite filter_cons, decide_True by set_solver. by f_equal.
    + by rewrite filterVolumes_spec.
Qed.

(** C6.  When the OS type folds to [Windows], the filter leaves every
    container as it was except for its mounts, from which exactly the mounts
    whose path equals the service-account secret path up to case are removed;
    the volume list keeps its order and loses exactly the volumes named by
    such a mount.  So a container whose only mount targets that path ends with
    no mounts, and no volume of that name remains in the group. *)
Theorem windows_service_account_volume_filtered osType cgw :
  EqualFold osType "Windows" = true ->
  let cgw' := filterWindowsServiceAccountSecretVolume osType cgw in
  client2.ContainerGroupWrapper.Containers cgw' =
    (fun c => withVolumeMounts c
                (filter (fun m => targetsServiceAccount m = false)
                   (azaci.Container.VolumeMounts c)))
      <$> client2.ContainerGroupWrapper.Containers cgw /\
  sublist (client2.ContainerGroupWrapper.Volumes cgw')
    (client2.ContainerGroupWrapper.Volumes cgw) /\
  (forall v, v ∈ client2.ContainerGroupWrapper.Volumes cgw' <->
     v ∈ client2.ContainerGroupWrapper.Volumes cgw /\
     ~ referencedByServiceAccountMount (client2.ContainerGroupWrapper.Containers cgw)
         (azaci.Volume.Name v)) /\
  (forall c m,
     c ∈ client2.ContainerGroupWrapper.Containers cgw ->
     azaci.Container.VolumeMounts c = [m] ->
     targetsServiceAccount m = true ->
     withVolumeMounts c [] ∈ client2.ContainerGroupWrapper.Containers cgw' /\
     forall v, v ∈ client2.ContainerGroupWrapper.Volumes cgw' ->
       azaci.Volume.Name v ≠ azaci.VolumeMount.Name m).
Proof.
  intros Hos cgw'. subst cgw'.
  destruct (filterWindows_Windows osType cgw Hos) as (names & Hnames & ->). simpl.
  assert (forall v,
    v ∈ filter (fun v => azaci.Volume.Name v ∉ names)
          (client2.ContainerGroupWrapper.Volumes cgw) <->
    v ∈ client2.ContainerGroupWrapper.Volumes cgw /\
    ~ referencedByServiceAccountMount (client2.ContainerGroupWrapper.Containers cgw)
        (azaci.Volume.Name v)) as Hvols.
  { intros v. rewrite list_elem_of_filter, Hnames. tauto. }
  split; [done |]. split; [apply sublist_filter |]. split; [done |].
  intros c m Hc Hmounts Hm. split.
  - apply list_elem_of_fmap. exists c. split; [| done].
    rewrite Hmounts, filter_cons, decide_False by congruence. done.
  - intros v Hv Hname. apply Hvols in Hv as [_ Hv]. apply Hv.
    exists c, m. repeat split; [done | | done..]. rewrite Hmounts. left.
Qed.

(** ** The public IP address *)

Lemma groupPorts_withVolumeMounts (f : azaci.Container.t -> list azaci.VolumeMount.t)
    containers :
  groupPorts ((fun c => withVolumeMounts c (f c)) <$> containers) = groupPorts containers.
Proof.
  unfold groupPorts. induction containers as [|c containers IH]; [done |].
  rewrite fmap_cons, !bind_cons, IH. done.
Qed.

Lemma filterWindows_groupPorts osType cgw :
  groupPorts (client2.ContainerGroupWrapper.Containers
                (filterWindowsServiceAccountSecretVolume osType cgw)) =
  groupPorts (client2.ContainerGroupWrapper.Containers cgw).
Proof.
  destruct (EqualFold osType "Windows") eqn:Hos.
  - destruct (filterWindows_Windows osType cgw Hos) as (names & _ & ->). simpl.
    apply groupPorts_withVolumeMounts.
  - unfold filterWindowsServiceAccountSecretVolume. by rewrite Hos.
Qed.

Lemma filterWindows_IPAddress osType cgw :
  client2.ContainerGroupWrapper.IPAddress
    (filterWindowsServiceAccountSecretVolume osType cgw) =
  client2.ContainerGroupWrapper.IPAddress cgw.
Proof.
  destruct (EqualFold osType "Windows") eqn:Hos.
  - by destruct (filterWindows_Windows osType cgw Hos) as (names & _ & ->).
  - unfold filterWindowsServiceAccountSecretVolume. by rewrite Hos.
Qed.

(** The ports of the translated containers are the declared ports. *)
Lemma groupPorts_translated p pod acs :
  getContainers p pod = Ok acs -> groupPorts acs = declaredPorts pod.
Proof.
  rewrite getContainers_Ok. unfold groupPorts, declaredPorts.
  induction 1 as [|c ac cs acs Hc _ IH]; [done |].
  rewrite !bind_cons, IH. f_equal.
  apply aciContainer_Ok in Hc as (_ & res & lv & rd & _ & _ & _ & ->). simpl.
  unfold getContainerPorts. by rewrite <- list_fmap_compose.
Qed.

Lemma declaredPorts_nonempty pod :
  declaredPorts pod ≠ [] <->
  exists c, c ∈ v1.PodSpec.Containers (v1.Pod.Spec pod) /\ elems (v1.Container.Ports c) ≠ [].
Proof.
  unfold declaredPorts.
  induction (v1.PodSpec.Containers (v1.Pod.Spec pod)) as [|c cs IH].
  - split; [done |]. intros (c & Hc & _). by inversion Hc.
  - rewrite bind_cons. destruct (elems (v1.Container.Ports c)) as [|port ports] eqn:Hp; simpl.
    + rewrite IH. split.
      * intros (c' & Hc' & Hne). exists c'. split; [by right | done].
      * intros (c' & Hc' & Hne). inversion Hc'; subst; [congruence |]. by exists c'.
    + split; [| done]. intros _. exists c. split; [left | by rewrite Hp].
Qed.

(** What [attachIPAddress] leaves in the wrapper. *)
Lemma attachIPAddress_IPAddress p pod cg :
  client2.ContainerGroupWrapper.IPAddress cg = None ->
  client2.ContainerGroupWrapper.IPAddress (attachIPAddress p pod cg) =
    if bool_decide (groupPorts (client2.ContainerGroupWrapper.Containers cg) ≠ []
                    /\ subnetName p = "")
    then Some (azaci.IPAddress.mk (groupPorts (client2.ContainerGroupWrapper.Containers cg))
                 azaci.ContainerGroupIPAddressTypePublic (requestedDNSNameLabel pod))
    else None.
Proof.
  intros Hnone. unfold attachIPAddress, requestedDNSNameLabel.
  destruct (groupPorts (client2.ContainerGroupWrapper.Containers cg)) as [|port ports]; simpl.
  - done.
  - destruct (String.eqb_spec (subnetName p) "") as [Hs|Hs]; simpl.
    + rewrite bool_decide_eq_true_2 by done. do 2 f_equal.
      destruct (v1.Pod.Annotations pod !! virtualKubeletDNSNameLabel) as [label|]; simpl.
      * destruct (String.eqb_spec label ""); [by rewrite decide_True | by rewrite decide_False].
      * done.
    + rewrite Hnone. by rewrite bool_decide_eq_false_2 by (by intros [_ ?]).
Qed.

(** C8.  Provided the virtual-network amendment leaves the IP address of the
    request alone: the request that [CreatePod] submits carries an IP address
    if and only if some container declares a port and the provider's subnet
    name is empty; and when it does, the address is public, its ports are the
    declared container ports (as TCP ports, in order), and its DNS name label
    is the DNS-name-label annotation when that is present and not empty, and
    absent otherwise. *)
Theorem public_ip_attached p pod cg :
  (forall p' cg' pod',
     client2.ContainerGroupWrapper.IPAddress (amendVnetResources p' cg' pod') =
     client2.ContainerGroupWrapper.IPAddress cg') ->
  containerGroupRequest p pod = Ok cg ->
  (run (CreatePod p pod)).1 =
    [CallCreateContainerGroup (resourceGroup p) (v1.Pod.Namespace pod) (v1.Pod.Name pod) cg] /\
  (is_Some (client2.ContainerGroupWrapper.IPAddress cg) <->
     (exists c, c ∈ v1.PodSpec.Containers (v1.Pod.Spec pod) /\
                elems (v1.Container.Ports c) ≠ []) /\
     subnetName p = "") /\
  (forall ip, client2.ContainerGroupWrapper.IPAddress cg = Some ip ->
     azaci.IPAddress.Type_ ip = azaci.ContainerGroupIPAddressTypePublic /\
     azaci.IPAddress.Ports ip = declaredPorts pod /\
     azaci.IPAddress.DNSNameLabel ip = requestedDNSNameLabel pod).
Proof.
  intros Hamend Hcg. split; [by apply CreatePod_submits |].
  revert Hcg. unfold containerGroupRequest.
  destruct (getContainers p pod) as [acs|] eqn:Hacs; simpl; [| done].
  destruct (getImagePullSecrets p pod) as [creds|]; simpl; [| done].
  destruct (getVolumes p pod) as [volumes|]; simpl; [| done].
  destruct (getInitContainers pod) as [ics|]; simpl; [| done].
  intros [= <-]. rewrite Hamend. simpl.
  rewrite attachIPAddress_IPAddress by (by rewrite filterWindows_IPAddress).
  rewrite filterWindows_groupPorts. simpl.
  rewrite (groupPorts_translated p pod acs Hacs), <- declaredPorts_nonempty.
  case_bool_decide as Hd; split.
  - split; [done |]. intros _. by eexists.
  - by intros ip [= <-].
  - split; [by intros [? ?] | done].
  - done.
Qed.

(** ** The node filter of GetPods *)

Lemma podsOfGroups_skip store p pre cg post : forall pods,
  nodeNameTag cg ≠ Some (nodeNameAddr p) ->
  podsOfGroups store p (pre ++ cg :: post) pods = podsOfGroups store p (pre ++ post) pods.
Proof.
  induction pre as [|cg' pre IH]; intros pods Hne; simpl.
  - by rewrite bool_decide_eq_true_2.
  - case_bool_decide; [by apply IH |].
    destruct (containerGroupToPod store cg'); by apply IH.
Qed.

Lemma podsOfGroups_elem store p cgs : forall pods pod,
  pod ∈ podsOfGroups store p cgs pods <->
  pod ∈ pods \/
  exists cg, cg ∈ cgs /\ nodeNameTag cg = Some (nodeNameAddr p) /\
    containerGroupToPod store cg = Ok pod.
Proof.
  induction cgs as [|cg cgs IH]; intros pods pod; simpl.
  - split; [by left |]. intros [H|(cg & Hcg & _)]; [done | by inversion Hcg].
  - case_bool_decide as Htag.
    + rewrite IH. split.
      * intros [H|(cg' & Hcg' & H)]; [by left | right].
        exists cg'. split; [by right | done].
      * intros [H|(cg' & Hcg' & Ht & Hp)]; [by left |].
        inversion Hcg'; subst; [done |]. right. by exists cg'.
    + destruct (containerGroupToPod store cg) as [pod'|e] eqn:Hpod; rewrite IH.
      * rewrite elem_of_app, list_elem_of_singleton. split.
        -- intros [[H| ->]|(cg' & Hcg' & H)]; [by left | right | right].
           ++ exists cg. split; [left | done].
           ++ exists cg'. split; [by right | done].
        -- intros [H|(cg' & Hcg' & Ht & Hp)]; [by left; left |].
           inversion Hcg'; subst; [left; right; congruence |]. right. by exists cg'.
      * split.
        -- intros [H|(cg' & Hcg' & H)]; [by left | right].
           exists cg'. split; [by right | done].
        -- intros [H|(cg' & Hcg' & Ht & Hp)]; [by left |].
           inversion Hcg'; subst; [congruence |]. right. by exists cg'.
Qed.

Lemma podsOfGroups_none store p cgs : forall pods,
  Forall (fun cg => nodeNameTag cg ≠ Some (nodeNameAddr p)) cgs ->
  podsOfGroups store p cgs pods = pods.
Proof.
  induction cgs as [|cg cgs IH]; intros pods Hall; [done |].
  inversion Hall; subst. simpl. rewrite bool_decide_eq_true_2 by done. by apply IH.
Qed.

(** C10.  Let the backend list the groups [cgs].  [GetPods] makes that one
    call and returns the pods of the groups whose [NodeName] tag is the very
    pointer [&p.nodeName]: every returned pod stems from such a group.  A
    group whose tag pointer differs from [&p.nodeName] is skipped: the
    result is the same as if the group had not been listed, whatever string
    the store holds at its pointer (the string plays no part in the test).
    When every listed group carries a pointer other than [&p.nodeName],
    [GetPods] returns no pod and [ListActivePods] no identifier. *)
Theorem node_filter_compares_pointers store p cgs :
  GetContainerGroupListResult (azClientsAPIs p) (resourceGroup p) = Ok (Some cgs) ->
  exists pods,
    run (GetPods store p) =
      ([CallGetContainerGroupListResult (resourceGroup p)], Ok (Some pods)) /\
    run (ListActivePods store p) =
      ([CallGetContainerGroupListResult (resourceGroup p)],
       Ok ((fun pod => Build_PodIdentifier (v1.Pod.Namespace pod) (v1.Pod.Name pod))
             <$> pods)) /\
    (forall pod, pod ∈ pods ->
       exists cg, cg ∈ cgs /\ nodeNameTag cg = Some (nodeNameAddr p) /\
         containerGroupToPod store cg = Ok pod) /\
    (forall pre cg post,
       cgs = pre ++ cg :: post ->
       nodeNameTag cg ≠ Some (nodeNameAddr p) ->
       pods = podsOfGroups store p (pre ++ post) []) /\
    (Forall (fun cg => nodeNameTag cg ≠ Some (nodeNameAddr p)) cgs -> pods = []).
Proof.
  intros Hlist. exists (podsOfGroups store p cgs []).
  assert (run (GetPods store p) =
          ([CallGetContainerGroupListResult (resourceGroup p)],
           Ok (Some (podsOfGroups store p cgs [])))) as Hget.
  { unfold run, GetPods, mbind, backend_bind, callGetContainerGroupListResult.
    by rewrite Hlist. }
  split; [done |]. split; [| split; [| split]].
  - unfold ListActivePods, run, mbind, backend_bind in *. by rewrite Hget.
  - intros pod Hpod. apply podsOfGroups_elem in Hpod as [Hpod|Hpod]; [by inversion Hpod | done].
  - intros pre cg post -> Hne. by apply podsOfGroups_skip.
  - apply podsOfGroups_none.
Qed.
End TranslationFacts.

(** ** Registry credentials *)

Lemma string_app_nil_l (s : string) : ("" ++ s)%string = s.
Proof. reflexivity. Qed.

Lemma string_app_cons c (s t : string) : (String c s ++ t)%string = String c (s ++ t).
Proof. reflexivity. Qed.

Lemma string_app_assoc (s t u : string) : ((s ++ t) ++ u = s ++ (t ++ u))%string.
Proof.
  induction s as [|c s IH]; [done |]. rewrite !string_app_cons. by f_equal.
Qed.

Lemma string_app_nil_r (s : string) : (s ++ "")%string = s.
Proof. induction s as [|c s IH]; [done |]. rewrite string_app_cons. by f_equal. Qed.

Lemma noColon_app s t : noColon (s ++ t) = noColon s && noColon t.
Proof.
  induction s as [|c s IH]; [done |].
  rewrite string_app_cons. simpl. rewrite IH. by rewrite andb_assoc.
Qed.

Lemma splitColonFrom_nonempty s : forall piece, splitColonFrom s piece ≠ [].
Proof.
  induction s as [|c s IH]; intros piece; simpl; [done |].
  destruct (Ascii.eqb c ":"%char); [done | apply IH].
Qed.

(** A split with one piece: the string has no colon. *)
Lemma splitColonFrom_one s : forall piece x,
  splitColonFrom s piece = [x] <-> x = (piece ++ s)%string /\ noColon s = true.
Proof.
  induction s as [|c s IH]; intros piece x; simpl.
  - rewrite string_app_nil_r. split; [by intros [= <-] | by intros [-> _]].
  - destruct (Ascii.eqb_spec c ":"%char) as [-> | Hc]; simpl.
    + split; [| by intros [_ ?]].
      intros [= _ H]. by apply splitColonFrom_nonempty in H.
    + rewrite IH, string_app_assoc, string_app_cons, string_app_nil_l. done.
Qed.

(** A split with two pieces: the string is the two pieces around its only
    colon. *)
Lemma splitColonFrom_two s : forall piece x y,
  splitColonFrom s piece = [x; y] <->
  exists x', x = (piece ++ x')%string /\ s = (x' ++ ":" ++ y)%string /\
    noColon x' = true /\ noColon y = true.
Proof.
  induction s as [|c s IH]; intros piece x y; simpl.
  - split; [done |]. intros (x' & _ & H & _). by destruct x'.
  - destruct (Ascii.eqb_spec c ":"%char) as [-> | Hc]; simpl.
    + split.
      * intros [= <- H]. apply splitColonFrom_one in H as [-> H].
        exists ""%string. rewrite string_app_nil_r, !string_app_nil_l. done.
      * intros (x' & -> & H & Hx' & Hy).
        destruct x' as [|c' x'].
        -- rewrite string_app_nil_l, string_app_cons, string_app_nil_l in H.
           injection H as ->. rewrite string_app_nil_r. f_equal.
           apply splitColonFrom_one. by rewrite string_app_nil_l.
        -- rewrite string_app_cons in H. injection H as <- _.
           by simpl in Hx'.
    + rewrite IH. split.
      * intros (x' & -> & -> & Hx' & Hy). exists (String c x').
        rewrite string_app_assoc, !string_app_cons, string_app_nil_l.
        repeat split; [| done].
        simpl. rewrite Hx'. by destruct (Ascii.eqb_spec c ":"%char).
      * intros (x' & -> & H & Hx' & Hy).
        destruct x' as [|c' x'].
        -- rewrite string_app_nil_l, string_app_cons in H. by injection H as -> _.
        -- rewrite string_app_cons in H. injection H as <- ->.
           simpl in Hx'. apply andb_prop in Hx' as [_ Hx'].
           exists x'. by rewrite string_app_assoc, !string_app_cons, string_app_nil_l.
Qed.

Lemma splitColon_two s x y :
  splitColon s = [x; y] <->
  s = (x ++ ":" ++ y)%string /\ noColon x = true /\ noColon y = true.
Proof.
  unfold splitColon. rewrite splitColonFrom_two. split.
  - intros (x' & -> & -> & Hx & Hy). by rewrite string_app_nil_l.
  - intros (-> & Hx & Hy). exists x. by rewrite string_app_nil_l.
Qed.

Section MoreTranslationFacts.
Context `{lib : GoLib} `{collab : Collaborators}.

(** X1.  A legacy auth config without a user name yields a credential exactly
    when its [auth] text is not empty and decodes to [user:password] with a
    single colon; the credential then carries that user and that password.  A
    decoded text with no colon, or with a colon inside the password, is
    rejected. *)
Theorem registry_credential_from_auth server authConfig cred :
  AuthUsername authConfig = "" ->
  makeRegistryCredential server authConfig = Ok cred <->
  Auth authConfig ≠ "" /\
  exists username password,
    base64Decode (Auth authConfig) = Ok (username ++ ":" ++ password)%string /\
    noColon username = true /\ noColon password = true /\
    cred = azaci.ImageRegistryCredential.mk server username password.
Proof.
  intros Huser. unfold makeRegistryCredential. rewrite Huser. simpl.
  destruct (String.eqb_spec (Auth authConfig) "") as [Hauth|Hauth].
  { split; [done | by intros [? _]]. }
  destruct (base64Decode (Auth authConfig)) as [decoded|e].
  - split.
    + destruct (splitColon decoded) as [|u [|pw [|? ?]]] eqn:Hsplit; try done.
      intros [= <-]. apply splitColon_two in Hsplit as (-> & Hu & Hpw).
      split; [done |]. by exists u, pw.
    + intros (_ & u & pw & [= ->] & Hu & Hpw & ->).
      by rewrite (proj2 (splitColon_two _ u pw)).
  - split; [done |]. by intros (_ & u & pw & H & _).
Qed.

Lemma rangeAppend_fmap {A B} (body : A -> result B) (f : A -> B) xs :
  Forall (fun x => body x = Ok (f x)) xs ->
  forall out, rangeAppend body xs out = Ok (out ++ (f <$> xs)).
Proof.
  induction 1 as [|x xs Hx _ IH]; intros out; simpl.
  - by rewrite app_nil_r.
  - rewrite Hx, IH, <- app_assoc. done.
Qed.

Lemma docker_config_entries (l : list (string * DockerConfigEntry)) ys :
  Forall2 (fun entry y => makeRegistryCredentialFromDockerConfig entry.1 entry.2 = Ok y) l ys ->
  Forall (fun entry => EntryUsername entry.2 ≠ "") l /\ ys = credentialOfEntry <$> l.
Proof.
  induction 1 as [|entry y l ys Hy _ [IH1 IH2]]; [by split |].
  unfold makeRegistryCredentialFromDockerConfig in Hy.
  destruct (String.eqb_spec (EntryUsername entry.2) "") as [|Hne]; [done |].
  injection Hy as <-. split; [by constructor |]. rewrite fmap_cons. by f_equal.
Qed.

(** X2.  A docker-config-json secret extends the credentials exactly when it
    holds the [.dockerconfigjson] key, the text parses, there is at least one
    registry, and every registry entry names a user; the credentials gained
    are those of the entries, in the order of the entries, each for the
    registry it is filed under. *)
Theorem docker_config_json_credentials secret ips ips' :
  readDockerConfigJSONSecret secret ips = Ok ips' <->
  exists repoData auths,
    v1.Secret.Data secret !! v1.DockerConfigJsonKey = Some repoData /\
    unmarshalDockerConfigJSON repoData = Ok auths /\
    auths ≠ [] /\
    Forall (fun entry => EntryUsername entry.2 ≠ "") auths /\
    ips' = ips ++ (credentialOfEntry <$> auths).
Proof.
  unfold readDockerConfigJSONSecret.
  destruct (v1.Secret.Data secret !! v1.DockerConfigJsonKey) as [repoData|];
    [| split; [done | by intros (? & ? & ? & _)]].
  destruct (unmarshalDockerConfigJSON repoData) as [auths|e] eqn:Hparse; simpl;
    [| split; [done | intros (? & ? & [= <-] & ? & _); congruence]].
  destruct (Nat.eqb_spec (length auths) 0) as [Hlen|Hlen].
  { split; [done |]. intros (? & ? & [= <-] & H & Hne & _).
    assert (auths = x0) as <- by congruence. by destruct auths. }
  split.
  - intros H. apply rangeAppend_Ok in H as (ys & -> & Hys).
    exists repoData, auths. split; [done |]. split; [done |].
    split; [by destruct auths |].
    apply docker_config_entries in Hys as [Hall ->]. done.
  - intros (repoData' & auths' & [= <-] & Hp & _ & Hall & ->).
    assert (auths' = auths) as -> by congruence.
    apply rangeAppend_fmap.
    eapply Forall_impl; [exact Hall |]. intros entry Hentry. simpl.
    unfold makeRegistryCredentialFromDockerConfig, credentialOfEntry.
    by destruct (String.eqb_spec (EntryUsername entry.2) "").
Qed.

Lemma imagePullSecrets_unusable p namespace refs ref : forall ips,
  ref ∈ refs -> unusablePullSecret p namespace ref ->
  is_Err (imagePullSecrets p namespace refs ips).
Proof.
  unfold unusablePullSecret.
  induction refs as [|r refs IH]; intros ips Hin Hbad; [by inversion Hin |].
  simpl. destruct (GetSecret (resourceManager p) r namespace) as [[secret|]|e] eqn:Hget;
    simpl; [| done..].
  destruct (String.eqb_spec (v1.Secret.Type_ secret) v1.SecretTypeDockercfg) as [Ht1|Ht1].
  - destruct (readDockerCfgSecret secret ips) as [ips'|]; simpl; [| done].
    inversion Hin; subst; [| by apply IH].
    rewrite Hget in Hbad. by destruct Hbad.
  - destruct (String.eqb_spec (v1.Secret.Type_ secret) v1.SecretTypeDockerConfigJson)
      as [Ht2|Ht2]; [| done].
    destruct (readDockerConfigJSONSecret secret ips) as [ips'|]; simpl; [| done].
    inversion Hin; subst; [| by apply IH].
    rewrite Hget in Hbad. by destruct Hbad.
Qed.

(** X3.  If one of the pod's image pull secrets cannot be looked up, is not
    found, or is of a type other than dockercfg and dockerconfigjson, then
    [getImagePullSecrets] returns an error (the secret is not skipped) and
    [CreatePod] returns an error without any call to the backend. *)
Theorem unusable_pull_secret_fails p pod ref :
  ref ∈ v1.PodSpec.ImagePullSecrets (v1.Pod.Spec pod) ->
  unusablePullSecret p (v1.Pod.Namespace pod) ref ->
  is_Err (getImagePullSecrets p pod) /\
  exists e, run (CreatePod p pod) = ([], Err e).
Proof.
  intros Hin Hbad.
  assert (is_Err (getImagePullSecrets p pod)) as Hfail
    by (by eapply imagePullSecrets_unusable).
  split; [done |].
  assert (is_Err (containerGroupRequest p pod)) as H.
  { unfold containerGroupRequest. destruct (getContainers p pod); simpl; [| done].
    by destruct (getImagePullSecrets p pod). }
  apply is_Err_exists in H as [e He]. exists e. by apply CreatePod_translation_error.
Qed.

(** ** Probes *)

Lemma namedPort_first portName ports port :
  firstPortNamed portName ports port ->
  namedPort portName ports = v1.ContainerPort.ContainerPort port.
Proof.
  intros (pre & post & -> & Hpre & Hname).
  induction Hpre as [|q pre Hq _ IH]; simpl.
  - rewrite <- Hname. by rewrite String.eqb_refl.
  - destruct (String.eqb_spec portName (v1.ContainerPort.Name q)); [congruence | done].
Qed.

Lemma namedPort_nonzero portName ports :
  namedPort portName ports ≠ 0 ->
  exists port, firstPortNamed portName ports port.
Proof.
  induction ports as [|q ports IH]; simpl; [done |].
  destruct (String.eqb_spec portName (v1.ContainerPort.Name q)) as [Heq|Hne].
  - intros _. exists q, [], ports. by repeat split.
  - intros H. destruct (IH H) as (port & pre & post & -> & Hpre & Hname).
    exists port, (q :: pre), post. repeat split; [| done]. constructor; [congruence | done].
Qed.

(** X4.  A probe translates only if it declares exactly one of the two
    handlers: with both, or with none, [getProbe] returns an error, and a
    container carrying such a liveness or readiness probe makes
    [getContainers] fail and [CreatePod] return an error without any call to
    the backend. *)
Theorem probe_needs_one_handler p pod c probe :
  c ∈ v1.PodSpec.Containers (v1.Pod.Spec pod) ->
  v1.Container.LivenessProbe c = Some probe \/ v1.Container.ReadinessProbe c = Some probe ->
  handlerAmbiguous probe ->
  (forall ports, is_Err (getProbe probe ports)) /\
  is_Err (getContainers p pod) /\
  exists e, run (CreatePod p pod) = ([], Err e).
Proof.
  intros Hin Hprobe Hbad.
  assert (forall ports, is_Err (getProbe probe ports)) as Hfail.
  { intros ports. unfold getProbe.
    destruct Hbad as [[He Hh]|[He Hh]].
    - by destruct (v1.Probe.Exec probe), (v1.Probe.HTTPGet probe).
    - by rewrite He, Hh. }
  assert (is_Err (aciContainer p pod c)) as Hc.
  { destruct (aciContainer p pod c) as [ac|] eqn:Hac; [| done].
    apply aciContainer_Ok in Hac as (_ & res & lv & rd & _ & Hlv & Hrd & _).
    pose proof (Hfail (elems (v1.Container.Ports c))) as Hf.
    destruct Hprobe as [Hp|Hp]; rewrite Hp in *; simpl in *;
      by destruct (getProbe probe _). }
  assert (is_Err (getContainers p pod)) as Hcs by (by eapply rangeAppend_fails).
  split; [done |]. split; [done |].
  apply is_Err_exists in Hcs as [e He]. exists e.
  by apply CreatePod_translation_error, containerGroupRequest_containers_fail.
Qed.

(** X5.  An HTTP probe that names its port translates exactly when some
    declared port of the container carries that name and the first such port
    has a number other than 0; the translated probe then targets that number,
    with the path and the scheme of the source and its timing fields.  A named
    port declared with the number 0 counts as not found. *)
Theorem probe_named_port_resolved probe ports h portName ap :
  v1.Probe.Exec probe = None ->
  v1.Probe.HTTPGet probe = Some h ->
  v1.HTTPGetAction.Port h = intstr.String portName ->
  getProbe probe ports = Ok ap <->
  exists port,
    firstPortNamed portName ports port /\
    v1.ContainerPort.ContainerPort port ≠ 0 /\
    azaci.ContainerProbe.Exec ap = None /\
    azaci.ContainerProbe.HTTPGet ap =
      Some (azaci.ContainerHTTPGet.mk (v1.HTTPGetAction.Path h)
              (v1.ContainerPort.ContainerPort port) (v1.HTTPGetAction.Scheme h)) /\
    sameTiming probe ap.
Proof.
  intros Hexec Hhttp Hport. unfold getProbe. rewrite Hexec, Hhttp, Hport. simpl.
  destruct (Z.eqb_spec (namedPort portName ports) 0) as [Hz|Hnz]; simpl.
  - split; [done |]. intros (port & Hfirst & Hne & _).
    apply namedPort_first in Hfirst. congruence.
  - destruct (namedPort_nonzero _ _ Hnz) as (port & Hfirst).
    pose proof (namedPort_first _ _ _ Hfirst) as Hn. rewrite Hn in *. split.
    + intros [= <-]. exists port. by repeat split.
    + intros (port' & Hfirst' & _ & He & Hh & Ht).
      apply namedPort_first in Hfirst'. rewrite Hn in Hfirst'.
      destruct ap as [e g i pe f su t]. unfold sameTiming in Ht. simpl in *.
      destruct Ht as (-> & -> & -> & -> & ->). subst. by rewrite Hfirst'.
Qed.

(** ** Init containers and containers *)

Lemma getVolumeMounts_same c : Forall2 sameMount (v1.Container.VolumeMounts c) (getVolumeMounts c).
Proof.
  unfold getVolumeMounts. apply Forall2_fmap_r, Forall_Forall2_diag, Forall_forall.
  by intros m _.
Qed.

Lemma newInitContainer_Ok c ic :
  newInitContainer c = Ok ic <->
  ~ argsButNoCommand c /\ ~ declaresUnsupportedInitField c /\
  ic = azaci.InitContainerDefinition.mk (v1.Container.Name c) (v1.Container.Image c)
         (getCommand c) (getEnvironmentVariables c) (getVolumeMounts c).
Proof.
  split.
  - intros H. split; [| split].
    + intros Hbad. pose proof (newInitContainer_rejects c (or_introl Hbad)) as Hr.
      by rewrite H in Hr.
    + intros Hbad. pose proof (newInitContainer_rejects c (or_intror Hbad)) as Hr.
      by rewrite H in Hr.
    + revert H. unfold newInitContainer. destruct (verifyContainer c); [done |].
      repeat (match goal with |- (if ?b then _ else _) = _ -> _ => destruct b; [done |] end).
      by intros [= <-].
  - intros (Hargs & Hfields & ->). unfold newInitContainer, verifyContainer.
    unfold argsButNoCommand in Hargs. unfold declaresUnsupportedInitField in Hfields.
    destruct (v1.Container.Command c) as [|x cmd] eqn:Hcmd; simpl.
    + destruct (v1.Container.Args c) as [|y args] eqn:Hargs'; simpl;
        [| by destruct Hargs].
      destruct (v1.Container.Ports c); [by destruct Hfields; left |].
      destruct (v1.ResourceRequirements.Requests _); [by destruct Hfields; right; left |].
      destruct (v1.ResourceRequirements.Limits _);
        [by destruct Hfields; right; right; left |].
      destruct (v1.Container.LivenessProbe c);
        [by destruct Hfields; right; right; right; left |].
      destruct (v1.Container.ReadinessProbe c);
        [by destruct Hfields; right; right; right; right |].
      simpl. unfold getCommand. by rewrite Hcmd, Hargs'.
    + destruct (v1.Container.Ports c); [by destruct Hfields; left |].
      destruct (v1.ResourceRequirements.Requests _); [by destruct Hfields; right; left |].
      destruct (v1.ResourceRequirements.Limits _);
        [by destruct Hfields; right; right; left |].
      destruct (v1.Container.LivenessProbe c);
        [by destruct Hfields; right; right; right; left |].
      destruct (v1.Container.ReadinessProbe c);
        [by destruct Hfields; right; right; right; right |].
      simpl. unfold getCommand. by rewrite Hcmd.
Qed.

Lemma newInitContainer_Err_cause c e :
  newInitContainer c = Err e -> argsButNoCommand c \/ declaresUnsupportedInitField c.
Proof.
  unfold newInitContainer, verifyContainer, argsButNoCommand, declaresUnsupportedInitField.
  destruct (v1.Container.Command c) as [|x cmd]; simpl.
  - destruct (v1.Container.Args c) as [|y args]; simpl; [| by intros _; left].
    destruct (v1.Container.Ports c); [by intros _; right; left |].
    destruct (v1.ResourceRequirements.Requests _); [by intros _; right; right; left |].
    destruct (v1.ResourceRequirements.Limits _); [by intros _; right; right; right; left |].
    destruct (v1.Container.LivenessProbe c);
      [by intros _; right; right; right; right; left |].
    destruct (v1.Container.ReadinessProbe c);
      [by intros _; right; right; right; right; right | done].
  - destruct (v1.Container.Ports c); [by intros _; right; left |].
    destruct (v1.ResourceRequirements.Requests _); [by intros _; right; right; left |].
    destruct (v1.ResourceRequirements.Limits _); [by intros _; right; right; right; left |].
    destruct (v1.Container.LivenessProbe c);
      [by intros _; right; right; right; right; left |].
    destruct (v1.Container.ReadinessProbe c);
      [by intros _; right; right; right; right; right | done].
Qed.

(** X6.  [getInitContainers] succeeds exactly when no init container
    declares args without a command or one of the unsupported fields.  It
    then returns one definition per init container, in order, with the name,
    the image, the command followed by the args, and the mounts of the
    source. *)
Theorem init_containers_translated pod :
  (is_Err (getInitContainers pod) <->
   exists c, c ∈ v1.PodSpec.InitContainers (v1.Pod.Spec pod) /\
     (argsButNoCommand c \/ declaresUnsupportedInitField c)) /\
  (forall ics, getInitContainers pod = Ok ics ->
     Forall2 sameInitShape (v1.PodSpec.InitContainers (v1.Pod.Spec pod)) ics).
Proof.
  split.
  - split.
    + intros H. apply is_Err_exists in H as [e He].
      apply rangeAppend_Err in He as (pre & c & post & Hsplit & _ & Hc).
      exists c. split; [rewrite Hsplit; set_solver |].
      by eapply newInitContainer_Err_cause.
    + intros (c & Hin & Hbad).
      eapply rangeAppend_fails; [exact Hin |]. by apply newInitContainer_rejects.
  - intros ics H. apply rangeAppend_Ok in H as (ys & -> & Hys).
    eapply Forall2_impl; [exact Hys |]. intros c ic Hic. simpl in Hic.
    apply newInitContainer_Ok in Hic as (_ & _ & ->).
    repeat split. apply getVolumeMounts_same.
Qed.

(** X7.  A successful [getContainers] returns one container per container of
    the pod, in order, each with the name and the image of its source, the
    command followed by the args as its command, one port per declared port
    with the declared number, and one mount per declared mount with the same
    name, path and read-only flag. *)
Theorem containers_keep_shape p pod acs :
  getContainers p pod = Ok acs ->
  Forall2 sameShape (v1.PodSpec.Containers (v1.Pod.Spec pod)) acs.
Proof.
  intros H. apply getContainers_Ok in H.
  eapply Forall2_impl; [exact H |]. intros c ac Hc. simpl in Hc.
  apply aciContainer_Ok in Hc as (_ & res & lv & rd & _ & _ & _ & ->).
  unfold sameShape. simpl. repeat split.
  - unfold getContainerPorts. apply Forall2_fmap_r, Forall_Forall2_diag, Forall_forall.
    by intros port _.
  - apply getVolumeMounts_same.
Qed.

(** X8.  Where a container specifies a limit, the translated limit is not
    quantized like a request: a CPU limit is the milli-value divided by 1000,
    exactly, and a memory limit is the byte value cut down to whole tenths of
    a GB; neither is raised to the minimum of a request. *)
Theorem specified_limits_carried p pod acs :
  getContainers p pod = Ok acs ->
  Forall2 specifiedLimitsCarried (v1.PodSpec.Containers (v1.Pod.Spec pod)) acs.
Proof.
  intros H. apply getContainers_Ok in H.
  eapply Forall2_impl; [exact H |]. intros c ac Hc limits Hl. simpl in Hc.
  apply aciContainer_Ok in Hc as (_ & res & lv & rd & Hres & _ & _ & ->). simpl.
  apply aciResources_Ok in Hres as (_ & _ & Hlim). rewrite Hl in Hlim.
  destruct Hlim as (gpu & _ & _ & ->). eexists. split; [done |]. simpl.
  unfold cpuLimit, memoryLimit, Cpu, Memory, rl_lookup. rewrite Hl. simpl.
  split; intros q Hq; rewrite Hq; reflexivity.
Qed.

Lemma small_quot_nonpositive (a b : Z) : 0 < b -> a < b -> a ÷ b <= 0.
Proof.
  intros Hb Hab. destruct (Z_lt_le_dec a 0) as [Hneg|Hpos].
  - rewrite <- (Z.opp_involutive a), Z.quot_opp_l by lia.
    pose proof (Z.quot_pos (- a) b). lia.
  - rewrite Z.quot_small by lia. lia.
Qed.

(** X9.  A container that requests and limits CPU by the same quantity of
    less than 10m gets a translated CPU limit strictly below its translated
    CPU request; likewise a memory quantity of less than 100,000,000 bytes,
    used as request and as limit, gives a memory limit strictly below the
    memory request. *)
Theorem small_limit_below_request p pod acs :
  getContainers p pod = Ok acs ->
  Forall2 (fun c ac =>
    forall limits requests l,
      v1.ResourceRequirements.Limits (v1.Container.Resources c) = Some limits ->
      v1.ResourceRequirements.Requests (v1.Container.Resources c) = Some requests ->
      azaci.ResourceRequirements.Limits (azaci.Container.Resources ac) = Some l ->
      (forall q, limits !! v1.ResourceCPU = Some q -> requests !! v1.ResourceCPU = Some q ->
         resource.MilliValue q < 10 -> (azaci.ResourceLimits.CPU l < cpuCores ac)%Q) /\
      (forall q, limits !! v1.ResourceMemory = Some q ->
         requests !! v1.ResourceMemory = Some q ->
         resource.Value q < 100000000 -> (azaci.ResourceLimits.MemoryInGB l < memoryGB ac)%Q))
    (v1.PodSpec.Containers (v1.Pod.Spec pod)) acs.
Proof.
  intros H. apply getContainers_Ok in H.
  eapply Forall2_impl; [exact H |]. intros c ac Hc limits requests l Hl Hr Hal. simpl in Hc.
  apply aciContainer_Ok in Hc as (_ & res & lv & rd & Hres & _ & _ & ->).
  unfold cpuCores, memoryGB. simpl in *.
  apply aciResources_Ok in Hres as (-> & -> & Hlim). rewrite Hl in Hlim.
  destruct Hlim as (gpu & _ & _ & Hlimits). rewrite Hlimits in Hal. injection Hal as <-.
  simpl. split; intros q Hlq Hrq Hsmall.
  - rewrite (cpuRequest_closed_form (v1.Container.Resources c)).
    unfold cpuLimit, Cpu, rl_lookup. rewrite Hl, Hr. simpl. rewrite Hlq, Hrq. simpl.
    apply Qlt_le_trans with (y := (1 # 100)%Q); [| apply Q.le_max_l].
    unfold float64, Qlt, Qdiv, Qmult, Qinv, inject_Z. simpl. lia.
  - rewrite (memoryRequest_closed_form (v1.Container.Resources c)).
    unfold memoryLimit, Memory, rl_lookup. rewrite Hl, Hr. simpl. rewrite Hlq, Hrq. simpl.
    apply Qlt_le_trans with (y := (1 # 10)%Q); [| apply Q.le_max_l].
    pose proof (small_quot_nonpositive (resource.Value q) 100000000 ltac:(lia) Hsmall).
    unfold float64, Qlt, Qdiv, Qmult, Qinv, inject_Z. simpl. lia.
Qed.

(** X10.  Every translated request lies on the grid of the backend: the CPU
    request is a whole number of hundredths of a core and at least one, the
    memory request a whole number of tenths of a GB and at least one
    (whatever the pod requests, also nothing, zero or a negative quantity). *)
Theorem requests_on_backend_grid p pod acs :
  getContainers p pod = Ok acs -> Forall onBackendGrid acs.
Proof.
  intros H. apply getContainers_Ok in H.
  induction H as [|c ac cs acs Hc _ IH]; constructor; [| exact IH].
  apply aciContainer_Ok in Hc as (_ & res & lv & rd & Hres & _ & _ & ->).
  unfold onBackendGrid, cpuCores, memoryGB. simpl.
  apply aciResources_Ok in Hres as (-> & -> & _). split.
  - pose proof (cpuRequest_closed_form (v1.Container.Resources c)) as Hq.
    destruct (rl_lookup _ v1.ResourceCPU) as [q|];
      [| exists 100; split; [done | by rewrite Hq]].
    destruct (Z_lt_le_dec (resource.MilliValue q ÷ 10) 1) as [Hlt|Hge].
    + exists 1. split; [done |]. rewrite Hq, Q.max_l; [reflexivity |].
      unfold Qle, Qdiv, Qmult, Qinv, inject_Z. simpl. lia.
    + exists (resource.MilliValue q ÷ 10). split; [done |].
      rewrite Hq, Q.max_r; [reflexivity |].
      unfold Qle, Qdiv, Qmult, Qinv, inject_Z. simpl. lia.
  - pose proof (memoryRequest_closed_form (v1.Container.Resources c)) as Hq.
    destruct (rl_lookup _ v1.ResourceMemory) as [q|];
      [| exists 15; split; [done | by rewrite Hq]].
    destruct (Z_lt_le_dec (resource.Value q ÷ 100000000) 1) as [Hlt|Hge].
    + exists 1. split; [done |]. rewrite Hq, Q.max_l; [reflexivity |].
      unfold Qle, Qdiv, Qmult, Qinv, inject_Z. simpl. lia.
    + exists (resource.Value q ÷ 100000000). split; [done |].
      rewrite Hq, Q.max_r; [reflexivity |].
      unfold Qle, Qdiv, Qmult, Qinv, inject_Z. simpl. lia.
Qed.

(** ** More on the Windows filter *)

Lemma filter_targets_idem (mounts : list azaci.VolumeMount.t) :
  filter (fun m => targetsServiceAccount m = false)
    (filter (fun m => targetsServiceAccount m = false) mounts) =
  filter (fun m => targetsServiceAccount m = false) mounts.
Proof.
  induction mounts as [|m mounts IH]; [done |].
  rewrite filter_cons. destruct (decide (targetsServiceAccount m = false)) as [Hm|Hm].
  - by rewrite filter_cons, decide_True, IH.
  - done.
Qed.

Lemma filter_volumes_none (names : gset string) (vols : list azaci.Volume.t) :
  (forall n, n ∉ names) -> filter (fun v => azaci.Volume.Name v ∉ names) vols = vols.
Proof.
  intros Hempty. induction vols as [|v vols IH]; [done |].
  rewrite filter_cons, decide_True by apply Hempty. by rewrite IH.
Qed.

(** X11.  The filter is idempotent: filtering a filtered group changes
    nothing, on Windows and elsewhere. *)
Theorem windows_filter_idempotent osType cgw :
  filterWindowsServiceAccountSecretVolume osType
    (filterWindowsServiceAccountSecretVolume osType cgw) =
  filterWindowsServiceAccountSecretVolume osType cgw.
Proof.
  destruct (EqualFold osType "Windows") eqn:Hos;
    [| unfold filterWindowsServiceAccountSecretVolume; by rewrite !Hos].
  destruct (filterWindows_Windows osType cgw Hos) as (names & Hnames & ->).
  destruct (filterWindows_Windows osType
              (withContainersVolumes cgw
                 ((fun c => withVolumeMounts c
                              (filter (fun m => targetsServiceAccount m = false)
                                 (azaci.Container.VolumeMounts c)))
                    <$> client2.ContainerGroupWrapper.Containers cgw)
                 (filter (fun v => azaci.Volume.Name v ∉ names)
                    (client2.ContainerGroupWrapper.Volumes cgw))) Hos)
    as (names2 & Hnames2 & ->).
  unfold withContainersVolumes. simpl. f_equal.
  - rewrite <- list_fmap_compose. apply list_fmap_ext. intros i c _. simpl.
    unfold withVolumeMounts. simpl. by rewrite filter_targets_idem.
  - assert (forall n, n ∉ names2) as Hempty.
    { intros n Hn. apply Hnames2 in Hn as (c & m & Hc & Hm & Ht & _). simpl in Hc.
      apply list_elem_of_fmap in Hc as (c0 & -> & _). simpl in Hm.
      apply list_elem_of_filter in Hm as [Hf _]. simpl in Hf. congruence. }
    by apply filter_volumes_none.
Qed.

(** X12.  The filter works on the containers only.  On Windows it leaves
    the init containers (and the credentials, the tags, the IP address and
    the location) as they are; so when an init container mounts a volume that
    some container mounts at the service-account path, the init container
    keeps its mount although no volume of that name is left in the group. *)
Theorem windows_filter_skips_init_containers osType cgw :
  EqualFold osType "Windows" = true ->
  let cgw' := filterWindowsServiceAccountSecretVolume osType cgw in
  client2.ContainerGroupWrapper.InitContainers cgw' =
    client2.ContainerGroupWrapper.InitContainers cgw /\
  client2.ContainerGroupWrapper.ImageRegistryCredentials cgw' =
    client2.ContainerGroupWrapper.ImageRegistryCredentials cgw /\
  client2.ContainerGroupWrapper.Tags cgw' = client2.ContainerGroupWrapper.Tags cgw /\
  client2.ContainerGroupWrapper.IPAddress cgw' = client2.ContainerGroupWrapper.IPAddress cgw /\
  client2.ContainerGroupWrapper.Location cgw' = client2.ContainerGroupWrapper.Location cgw /\
  (forall ic m,
     ic ∈ client2.ContainerGroupWrapper.InitContainers cgw ->
     m ∈ azaci.InitContainerDefinition.VolumeMounts ic ->
     referencedByServiceAccountMount (client2.ContainerGroupWrapper.Containers cgw)
       (azaci.VolumeMount.Name m) ->
     ic ∈ client2.ContainerGroupWrapper.InitContainers cgw' /\
     forall v, v ∈ client2.ContainerGroupWrapper.Volumes cgw' ->
       azaci.Volume.Name v ≠ azaci.VolumeMount.Name m).
Proof.
  intros Hos cgw'. subst cgw'.
  destruct (filterWindows_Windows osType cgw Hos) as (names & Hnames & ->). simpl.
  repeat split; [done |].
  intros v Hv Hname. apply list_elem_of_filter in Hv as [Hv _]. apply Hv.
  apply Hnames. by rewrite Hname.
Qed.

(** ** More on the create path *)

(** X13.  [CreatePod] reaches the backend at most once, and only with the
    request of a translation that succeeded: either the translation fails,
    nothing is called and its error is returned; or the one call submits the
    translated request under the provider's resource group and the pod's
    namespace and name, and the backend's answer, error or not, is the
    result. *)
Theorem create_pod_calls_once p pod log r :
  run (CreatePod p pod) = (log, r) ->
  (exists e, containerGroupRequest p pod = Err e /\ log = [] /\ r = Err e) \/
  (exists cg, containerGroupRequest p pod = Ok cg /\
     log = [CallCreateContainerGroup (resourceGroup p) (v1.Pod.Namespace pod)
              (v1.Pod.Name pod) cg] /\
     r = match CreateContainerGroup (azClientsAPIs p) (resourceGroup p)
                 (v1.Pod.Namespace pod) (v1.Pod.Name pod) cg with
         | Some err => Err err
         | None => Ok tt
         end).
Proof.
  unfold run, CreatePod, mbind, backend_bind, pure, callCreateContainerGroup.
  destruct (containerGroupRequest p pod) as [cg|e]; intros [= <- <-].
  - right. by exists cg.
  - left. by exists e.
Qed.

(** X14.  The four translations fail in a fixed order of precedence: the
    error of the containers comes first, then that of the image pull
    secrets, then that of the volumes, then that of the init containers. *)
Theorem create_pod_error_precedence p pod e :
  (getContainers p pod = Err e -> run (CreatePod p pod) = ([], Err e)) /\
  (is_Ok (getContainers p pod) -> getImagePullSecrets p pod = Err e ->
     run (CreatePod p pod) = ([], Err e)) /\
  (is_Ok (getContainers p pod) -> is_Ok (getImagePullSecrets p pod) ->
     getVolumes p pod = Err e -> run (CreatePod p pod) = ([], Err e)) /\
  (is_Ok (getContainers p pod) -> is_Ok (getImagePullSecrets p pod) ->
     is_Ok (getVolumes p pod) -> getInitContainers pod = Err e ->
     run (CreatePod p pod) = ([], Err e)).
Proof.
  repeat split; intros; apply CreatePod_translation_error; unfold containerGroupRequest;
    repeat match goal with
           | H : is_Ok ?x |- _ => destruct x; [clear H | destruct H]
           | H : ?x = Err _ |- _ => rewrite H; clear H
           end; done.
Qed.

(** ** More on the listing *)

Lemma podsOfGroups_omap store p cgs : forall pods,
  podsOfGroups store p cgs pods = pods ++ omap (listedPod store p) cgs.
Proof.
  induction cgs as [|cg cgs IH]; intros pods; simpl; [by rewrite app_nil_r |].
  unfold listedPod at 1. case_bool_decide as Htag.
  - rewrite decide_False by done. apply IH.
  - rewrite decide_True by done.
    destruct (containerGroupToPod store cg); rewrite IH; [| done].
    by rewrite <- app_assoc.
Qed.

(** X15.  A group that does not convert does not abort the listing: [GetPods]
    returns, in the order of the listing, the pods of exactly the listed
    groups that carry the pointer [&p.nodeName] as their tag and that
    [containerGroupToPod] converts; the others are left out. *)
Theorem get_pods_skips_failed_conversions store p cgs :
  GetContainerGroupListResult (azClientsAPIs p) (resourceGroup p) = Ok (Some cgs) ->
  run (GetPods store p) =
    ([CallGetContainerGroupListResult (resourceGroup p)],
     Ok (Some (omap (listedPod store p) cgs))).
Proof.
  intros Hlist.
  unfold run, GetPods, mbind, backend_bind, callGetContainerGroupListResult.
  rewrite Hlist. simpl. by rewrite podsOfGroups_omap.
Qed.

(** X16.  When the backend fails to list, [GetPods] and [ListActivePods]
    return its error after that one call; when the backend lists nothing (a
    nil list), [GetPods] returns the nil list and [ListActivePods] an empty
    list of identifiers, both without error. *)
Theorem listing_error_and_nil store p :
  (forall e,
     GetContainerGroupListResult (azClientsAPIs p) (resourceGroup p) = Err e ->
     run (GetPods store p) = ([CallGetContainerGroupListResult (resourceGroup p)], Err e) /\
     run (ListActivePods store p) =
       ([CallGetContainerGroupListResult (resourceGroup p)], Err e)) /\
  (GetContainerGroupListResult (azClientsAPIs p) (resourceGroup p) = Ok None ->
     run (GetPods store p) = ([CallGetContainerGroupListResult (resourceGroup p)], Ok None) /\
     run (ListActivePods store p) =
       ([CallGetContainerGroupListResult (resourceGroup p)], Ok [])).
Proof.
  split; [intros e Hlist | intros Hlist];
    unfold run, ListActivePods, GetPods, mbind, backend_bind, callGetContainerGroupListResult;
    by rewrite Hlist.
Qed.
End MoreTranslationFacts.

(** ** Group names *)

Lemma group_name_prefix (s1 s2 t1 t2 : string) :
  noHyphen s1 = true -> noHyphen s2 = true ->
  (s1 ++ "-" ++ t1 = s2 ++ "-" ++ t2)%string -> s1 = s2 /\ t1 = t2.
Proof.
  revert s2. induction s1 as [|c s1 IH]; intros s2 H1 H2 Heq.
  - destruct s2 as [|c2 s2]; [by injection Heq |].
    rewrite string_app_nil_l, !string_app_cons in Heq. injection Heq as <- _.
    by simpl in H2.
  - destruct s2 as [|c2 s2].
    + rewrite string_app_nil_l, !string_app_cons in Heq. injection Heq as -> _.
      by simpl in H1.
    + rewrite !string_app_cons in Heq. injection Heq as -> Heq.
      simpl in H1, H2. apply andb_prop in H1 as [_ H1]. apply andb_prop in H2 as [_ H2].
      destruct (IH s2 H1 H2 Heq) as [-> ->]. done.
Qed.

(** X17.  The group name tells two pods apart whenever neither namespace
    holds a hyphen: equal group names then mean equal namespaces and equal
    pod names. *)
Theorem group_name_injective ns1 name1 ns2 name2 :
  noHyphen ns1 = true -> noHyphen ns2 = true ->
  containerGroupName ns1 name1 = containerGroupName ns2 name2 ->
  ns1 = ns2 /\ name1 = name2.
Proof. unfold containerGroupName. apply group_name_prefix. Qed.

(** X18.  With a hyphen in a namespace the group name is ambiguous: the pod
    [c] of the namespace [a-b] and the pod [b-c] of the namespace [a] share
    one group name, which is also the full name [GetPodFullName] gives to
    both. *)
Theorem group_name_collision p a b c :
  containerGroupName (a ++ "-" ++ b) c = containerGroupName a (b ++ "-" ++ c) /\
  GetPodFullName p (a ++ "-" ++ b) c = containerGroupName a (b ++ "-" ++ c).
Proof.
  unfold containerGroupName, GetPodFullName.
  rewrite !string_app_assoc, !string_app_cons, !string_app_nil_l. done.
Qed.

Section ReadAndDeleteFacts.
Context `{collab : Collaborators} `{clients : GroupClients}.

(** ** The delete path *)

Lemma terminateContainer_not_running now status :
  ContainerState.Running (ContainerStatus.State (terminateContainer now status)) = None.
Proof.
  unfold terminateContainer.
  by destruct (ContainerState.Running (ContainerStatus.State status)) eqn:H.
Qed.

(** X19.  The status update of a deleted pod leaves no container running:
    every status that was running becomes terminated with exit code 0, the
    reason [NotFound], the deletion message, the start time it ran from, the
    time of the update as its finish, and its container id; every other
    status, the order of the statuses and the phase of the pod stay as they
    were.  Updating an updated status again, at any time, changes nothing. *)
Theorem deleted_pod_marked_terminated now later podStatus :
  let updated := markPodDeleted now podStatus in
  Forall (fun status => ContainerState.Running (ContainerStatus.State status) = None)
    (PodStatus.ContainerStatuses updated) /\
  Forall2 (fun status status' =>
      match ContainerState.Running (ContainerStatus.State status) with
      | None => status' = status
      | Some running =>
          ContainerStatus.Name status' = ContainerStatus.Name status /\
          ContainerState.Terminated (ContainerStatus.State status') =
            Some (ContainerStateTerminated.mk 0 "NotFound"
                    "The pod may have been deleted from the provider"
                    (ContainerStateRunning.StartedAt running) now
                    (ContainerStatus.ContainerID status))
      end)
    (PodStatus.ContainerStatuses podStatus) (PodStatus.ContainerStatuses updated) /\
  PodStatus.Phase updated = PodStatus.Phase podStatus /\
  markPodDeleted later updated = updated.
Proof.
  simpl. split; [| split; [| split]].
  - apply Forall_fmap, Forall_forall. intros status _. apply terminateContainer_not_running.
  - apply Forall2_fmap_r, Forall_Forall2_diag, Forall_forall. intros status _.
    unfold compose, terminateContainer.
    destruct (ContainerState.Running (ContainerStatus.State status)); simpl;
      [split; reflexivity | reflexivity].
  - done.
  - unfold markPodDeleted. simpl. f_equal.
    rewrite <- list_fmap_compose. apply list_fmap_ext. intros i status _. simpl.
    unfold terminateContainer at 1. by rewrite terminateContainer_not_running.
Qed.

(** X20.  [deleteContainerGroup] answers with the backend's answer alone.
    If the backend refuses the delete, its error is returned and the tracker
    is not told; if the backend accepts, the result is success whatever the
    tracker answers, and the tracker (when there is one) is told once, for the
    same namespace and name, with the terminating update and no forced
    update.  The group deleted is the one named [namespace-name]. *)
Theorem delete_reports_backend_only tracker now p podNS podName :
  (forall e,
     DeleteContainerGroup (resourceGroup p) (containerGroupName podNS podName) = Some e ->
     trace (deleteContainerGroup tracker now p podNS podName) =
       ([CallDeleteContainerGroup (resourceGroup p) (containerGroupName podNS podName)],
        Err e)) /\
  (DeleteContainerGroup (resourceGroup p) (containerGroupName podNS podName) = None ->
     trace (deleteContainerGroup tracker now p podNS podName) =
       (CallDeleteContainerGroup (resourceGroup p) (containerGroupName podNS podName)
          :: match tracker with
             | Some _ => [CallUpdatePodStatus podNS podName (markPodDeleted now) false]
             | None => []
             end,
        Ok tt)).
Proof.
  split; [intros e H | intros H];
    unfold trace, deleteContainerGroup, mbind, traced_bind, callDeleteContainerGroup;
    simpl; rewrite H; [done |].
  destruct tracker as [tracker|]; [| done].
  unfold callUpdatePodStatus. simpl. by destruct (UpdatePodStatus _ _ _ _ _).
Qed.

(** ** The read path *)

(** X21.  [GetPod] and [GetPodStatus] make exactly one call, for the group
    of the given namespace and name on the provider's node, and convert the
    group only after [ValidateContainerGroup] has accepted it: a backend
    error is returned as it is, and otherwise a validation error is returned
    and the conversion is not consulted. *)
Theorem get_pod_validates_first store p namespace name :
  let call := CallGetContainerGroupInfo (resourceGroup p) namespace name (nodeName p) in
  let answer := GetContainerGroupInfo (resourceGroup p) namespace name (nodeName p) in
  (trace (GetPod store p namespace name)).1 = [call] /\
  (trace (GetPodStatus p namespace name)).1 = [call] /\
  (forall e, answer = Err e ->
     (trace (GetPod store p namespace name)).2 = Err e /\
     (trace (GetPodStatus p namespace name)).2 = Err e) /\
  (forall cg e, answer = Ok cg -> ValidateContainerGroup cg = Some e ->
     (trace (GetPod store p namespace name)).2 = Err e /\
     (trace (GetPodStatus p namespace name)).2 = Err e) /\
  (forall pod, (trace (GetPod store p namespace name)).2 = Ok pod ->
     exists cg, answer = Ok cg /\ ValidateContainerGroup cg = None) /\
  (forall status, (trace (GetPodStatus p namespace name)).2 = Ok status ->
     exists cg, answer = Ok cg /\ ValidateContainerGroup cg = None /\
       getPodStatusFromContainerGroup cg = Ok status).
Proof.
  simpl.
  unfold trace, GetPod, GetPodStatus, mbind, traced_bind, callGetContainerGroupInfo,
    validate, quiet. simpl.
  destruct (GetContainerGroupInfo _ _ _ _) as [cg|e0]; simpl;
    [destruct (ValidateContainerGroup cg) as [e1|] eqn:Hval; simpl |];
    repeat split; intros; simplify_eq/=; eauto.
Qed.

(** X22.  [GetPods] lists what [GetPod] refuses.  For a group that the
    backend lists and reports, that carries the pointer [&p.nodeName] and that
    converts, but that [ValidateContainerGroup] rejects: [GetPods] returns its
    pod, while [GetPod] for the same group returns the validation error. *)
Theorem get_pods_lists_unvalidated_groups store p cg pod e namespace name :
  GetContainerGroupListResult (azClientsAPIs p) (resourceGroup p) = Ok (Some [cg]) ->
  GetContainerGroupInfo (resourceGroup p) namespace name (nodeName p) = Ok (Some cg) ->
  nodeNameTag cg = Some (nodeNameAddr p) ->
  containerGroupToPod store cg = Ok pod ->
  ValidateContainerGroup (Some cg) = Some e ->
  (run (GetPods store p)).2 = Ok (Some [pod]) /\
  (trace (GetPod store p namespace name)).2 = Err e.
Proof.
  intros Hlist Hinfo Htag Hpod Hval. split.
  - unfold run, GetPods, mbind, backend_bind, callGetContainerGroupListResult.
    rewrite Hlist. simpl. rewrite bool_decide_eq_false_2 by (by intros H; apply H).
    by rewrite Hpod.
  - unfold trace, GetPod, mbind, traced_bind, callGetContainerGroupInfo, validate, quiet.
    simpl. by rewrite Hinfo, Hval.
Qed.

(** X23.  [GetContainerLogs] asks for the logs only after the group was
    found, and under the name the backend reported for the group.  A backend
    error on the group is returned without asking for logs; a nil group
    panics (it is dereferenced unchecked); otherwise the answer to the log
    request is the result, a nil content giving a nil reader and no error. *)
Theorem container_logs_after_group p namespace podName containerName opts :
  let info := CallGetContainerGroupInfo (resourceGroup p) namespace podName (nodeName p) in
  match GetContainerGroupInfo (resourceGroup p) namespace podName (nodeName p) with
  | Err e =>
      trace (GetContainerLogs p namespace podName containerName opts) = ([info], Err e)
  | Ok None =>
      trace (GetContainerLogs p namespace podName containerName opts) = ([info], Ok Panic)
  | Ok (Some cg) =>
      trace (GetContainerLogs p namespace podName containerName opts) =
        ([info; CallListLogs (resourceGroup p) (azaci.ContainerGroup.Name cg)
                  containerName opts],
         Done <$> ListLogs (resourceGroup p) (azaci.ContainerGroup.Name cg)
                    containerName opts)
  end.
Proof.
  simpl. unfold trace, GetContainerLogs, mbind, traced_bind, callGetContainerGroupInfo.
  simpl. destruct (GetContainerGroupInfo _ _ _ _) as [[cg|]|e]; simpl; [| done..].
  unfold callListLogs. by destruct (ListLogs _ _ _ _).
Qed.

End ReadAndDeleteFacts.

(** ** Diagnostics *)

(** X24.  The diagnostics handed out for a pod are shared with the provider
    and with every other pod.  With a ContainerInsights workspace whose
    metadata map exists, [getDiagnostics] returns the provider's own
    diagnostics value and writes the pod's UID into the one metadata map
    behind it: after the call for a second pod, the diagnostics returned for
    the first pod show the UID of the second.  The other entries of the map
    and the other objects stay as they were. *)
Theorem diagnostics_shared_between_pods podUUIDKey objects d a la metadata pod1 pod2 :
  ContainerGroupDiagnostics.LogAnalytics d = Some a ->
  objects !! a = Some la ->
  LogAnalytics.LogType la = LogAnalyticsLogTypeContainerInsights ->
  LogAnalytics.Metadata la = Some metadata ->
  exists objects1 objects2,
    getDiagnostics podUUIDKey objects (Some d) pod1 = Done (objects1, Some d) /\
    getDiagnostics podUUIDKey objects1 (Some d) pod2 = Done (objects2, Some d) /\
    metadataOf objects1 (Some d) = Some (<[podUUIDKey := v1.Pod.UID pod1]> metadata) /\
    metadataOf objects2 (Some d) = Some (<[podUUIDKey := v1.Pod.UID pod2]> metadata) /\
    (forall b, b ≠ a -> objects2 !! b = objects !! b).
Proof.
  intros Ha Hla Htype Hmeta.
  unfold getDiagnostics, metadataOf. simpl. rewrite Ha, Hla, Htype, Hmeta. simpl.
  eexists _, _. split; [reflexivity |].
  rewrite lookup_insert_eq. simpl. rewrite Htype. simpl.
  split; [reflexivity |]. rewrite !lookup_insert_eq. simpl.
  split; [done |]. split; [by rewrite insert_insert_eq |].
  intros b Hb. by rewrite !lookup_insert_ne.
Qed.

(** X25.  Whenever [getDiagnostics] returns, it returns the provider's
    diagnostics value itself and leaves every object other than the one at its
    [LogAnalytics] address untouched; without diagnostics, without a
    [LogAnalytics] object, or with a log type other than ContainerInsights it
    changes nothing at all.  With a ContainerInsights workspace whose metadata
    map is nil it panics. *)
Theorem diagnostics_returned_or_panic podUUIDKey objects diagnostics pod :
  (forall objects' diagnostics',
     getDiagnostics podUUIDKey objects diagnostics pod = Done (objects', diagnostics') ->
     diagnostics' = diagnostics /\
     (forall b, logAnalyticsAddress diagnostics ≠ Some b ->
        objects' !! b = objects !! b) /\
     (forall la, logAnalyticsObject objects diagnostics = Some la ->
        LogAnalytics.LogType la ≠ LogAnalyticsLogTypeContainerInsights ->
        objects' = objects) /\
     (logAnalyticsAddress diagnostics = None -> objects' = objects)) /\
  (forall d a la,
     diagnostics = Some d -> ContainerGroupDiagnostics.LogAnalytics d = Some a ->
     objects !! a = Some la ->
     LogAnalytics.LogType la = LogAnalyticsLogTypeContainerInsights ->
     LogAnalytics.Metadata la = None ->
     getDiagnostics podUUIDKey objects diagnostics pod = Panic).
Proof.
  split.
  - intros objects' diagnostics'.
    unfold getDiagnostics, logAnalyticsObject, logAnalyticsAddress.
    destruct diagnostics as [d|]; simpl; [| by intros [= <- <-]].
    destruct (ContainerGroupDiagnostics.LogAnalytics d) as [a|] eqn:Ha; simpl;
      [| by intros [= <- <-]].
    destruct (objects !! a) as [la|] eqn:Hla; simpl; [| done].
    destruct (String.eqb_spec (LogAnalytics.LogType la) LogAnalyticsLogTypeContainerInsights)
      as [Ht|Ht]; [| by intros [= <- <-]].
    destruct (LogAnalytics.Metadata la) as [metadata|]; [| done].
    intros [= <- <-]. repeat split; try done.
    + intros b Hb. rewrite lookup_insert_ne; [done | congruence].
    + intros la' [= <-] Hne. done.
  - intros d a la -> Ha Hla Ht Hm. unfold getDiagnostics. by rewrite Ha, Hla, Ht, Hm.
Qed.

(** ** The cache of pod statistics *)

(** X26.  Let the cache library return under a key what was last set under
    it.  After a miss that the wrapped getter answers with statistics, the
    call has asked the getter once and returned its statistics, and the next
    call for any pod with the same UID is served from the cache: it returns
    the same statistics, asks the getter nothing and leaves the cache as it
    is, whatever the getter would answer for that pod.  A miss that the
    getter answers with an error leaves the cache unchanged. *)
Theorem cached_stats_served {Stats : Type} `{gocache : GoCache Stats}
    (cacheGetter : cachePodStatsGetter) pod pod' stats :
  (forall c k x, cacheGet (cacheSet c k x) k = Some x) ->
  cacheGet (cache cacheGetter) (v1.Pod.UID pod) = None ->
  v1.Pod.UID pod' = v1.Pod.UID pod ->
  (wrappedGetter cacheGetter pod = Ok stats ->
     exists cacheGetter',
       getPodStats cacheGetter pod = (cacheGetter', [pod], Ok stats) /\
       getPodStats cacheGetter' pod' = (cacheGetter', [], Ok stats)) /\
  (forall e, wrappedGetter cacheGetter pod = Err e ->
     getPodStats cacheGetter pod = (cacheGetter, [pod], Err e)).
Proof.
  intros Hlaw Hmiss Huid. unfold getPodStats. rewrite Hmiss. split.
  - intros Hget. rewrite Hget. eexists. split; [reflexivity |].
    simpl. by rewrite Huid, Hlaw.
  - intros e Hget. by rewrite Hget.
Qed.

(** ** Regions and the construction of the provider *)

Lemma regionListed_elem regionTrimmed regions :
  regionListed regionTrimmed regions = true <-> regionTrimmed ∈ regions.
Proof.
  induction regions as [|r regions IH]; simpl; [by split; [| inversion 1] |].
  destruct (String.eqb_spec regionTrimmed r) as [-> | Hne].
  - split; [left | done].
  - rewrite IH. split; [by right |]. by inversion 1.
Qed.

Section ConstructionFacts.
Context `{startup : Startup}.

Lemma checkGroupAndRegion_Ok w w' :
  checkGroupAndRegion w = Ok w' ->
  objects w' = objects w /\
  setup.diagnostics (fields w') = setup.diagnostics (fields w) /\
  setup.vnetResourceGroup (fields w') = setup.vnetResourceGroup (fields w) /\
  setup.resourceGroup (fields w') =
    (if String.eqb (Getenv "ACI_RESOURCE_GROUP") "" then setup.resourceGroup (fields w)
     else Getenv "ACI_RESOURCE_GROUP") /\
  setup.region (fields w') =
    (if String.eqb (Getenv "ACI_REGION") "" then setup.region (fields w)
     else Getenv "ACI_REGION") /\
  setup.resourceGroup (fields w') ≠ "" /\
  setup.region (fields w') ≠ "" /\
  removeSpaces (ToLower (setup.region (fields w'))) ∈ validAciRegions.
Proof.
  unfold checkGroupAndRegion.
  destruct (String.eqb_spec (if String.eqb (Getenv "ACI_RESOURCE_GROUP") ""
                             then setup.resourceGroup (fields w)
                             else Getenv "ACI_RESOURCE_GROUP") "") as [|Hrg]; [done |].
  destruct (String.eqb_spec (if String.eqb (Getenv "ACI_REGION") ""
                             then setup.region (fields w)
                             else Getenv "ACI_REGION") "") as [|Hr]; [done |].
  destruct (isValidACIRegion ToLower _) eqn:Hvalid; simpl; [| done].
  intros [= <-]. simpl. repeat split; try done.
  by apply regionListed_elem.
Qed.

Lemma loadDiagnostics_fields w w' :
  loadDiagnostics w = Ok w' ->
  exists d, fields w' = withDiagnostics (fields w) d.
Proof.
  unfold loadDiagnostics.
  destruct (String.eqb (Getenv "LOG_ANALYTICS_AUTH_LOCATION") ""); simpl.
  - destruct (String.eqb (Getenv "LOG_ANALYTICS_ID") "");
      [intros [= <-]; exists (setup.diagnostics (fields w)); by destruct (fields w) |].
    destruct (String.eqb (Getenv "LOG_ANALYTICS_KEY") "");
      [intros [= <-]; exists (setup.diagnostics (fields w)); by destruct (fields w) |].
    destruct (NewContainerGroupDiagnostics _ _ _) as [[o d]|]; simpl; [| done].
    intros [= <-]. by exists d.
  - destruct (NewContainerGroupDiagnosticsFromFile _ _) as [[o d]|]; simpl; [| done].
    destruct (String.eqb (Getenv "LOG_ANALYTICS_ID") ""); [intros [= <-]; by exists d |].
    destruct (String.eqb (Getenv "LOG_ANALYTICS_KEY") ""); [intros [= <-]; by exists d |].
    destruct (NewContainerGroupDiagnostics _ _ _) as [[o' d']|]; simpl; [| done].
    intros [= <-]. exists d'. simpl. reflexivity.
Qed.

Lemma markContainerInsights_fields nodeName w :
  fields (markContainerInsights nodeName w) = fields w.
Proof.
  unfold markContainerInsights.
  destruct (String.eqb (Getenv "CLUSTER_RESOURCE_ID") ""); [reflexivity |].
  destruct (setup.diagnostics (fields w) ≫= _); reflexivity.
Qed.

(** X27.  A provider is constructed only after the checks: whenever
    [NewACIProvider] succeeds, the state in which [setupNodeCapacity] was
    entered has a resource group that is not empty and a region that is not
    empty and whose lower-cased form without spaces is one of the listed
    regions, and both [setupNodeCapacity] and [setVNETConfig] succeeded after
    it. *)
Theorem new_provider_passed_checks heap config credential nodeName operatingSystem
    internalIP daemonEndpointPort clusterDomain w :
  NewACIProvider heap config credential nodeName operatingSystem internalIP
    daemonEndpointPort clusterDomain = Ok w ->
  exists w0 w1,
    configuredProvider heap config credential nodeName operatingSystem internalIP
      daemonEndpointPort clusterDomain = Ok w0 /\
    setupNodeCapacity w0 = Ok w1 /\
    setVNETConfig credential w1 = Ok w /\
    setup.resourceGroup (fields w0) ≠ "" /\
    setup.region (fields w0) ≠ "" /\
    removeSpaces (ToLower (setup.region (fields w0))) ∈ validAciRegions.
Proof.
  unfold NewACIProvider.
  destruct (configuredProvider _ _ _ _ _ _ _ _) as [w0|] eqn:Hw0; simpl; [| done].
  destruct (setupNodeCapacity w0) as [w1|] eqn:Hw1; simpl; [| done].
  intros Hw. exists w0, w1. repeat split; try done.
  all: revert Hw0; unfold configuredProvider;
    match goal with |- (?m ≫= _) = _ -> _ => destruct m as [wa|]; simpl; [| done] end;
    match goal with |- (?m ≫= _) = _ -> _ => destruct m as [wb|]; simpl; [| done] end;
    intros Hc; apply checkGroupAndRegion_Ok in Hc; tauto.
Qed.

(** X28.  Without a configuration file, the resource group and the region of
    the constructed state come from the environment ([ACI_RESOURCE_GROUP],
    [ACI_REGION]) when set and from the AKS credential otherwise; but the
    resource group of the virtual network is defaulted before the environment
    is read: it is the credential's (its vnet resource group, or else its
    resource group), and stays empty without a credential even when
    [ACI_RESOURCE_GROUP] supplies the resource group. *)
Theorem group_and_region_sources heap credential nodeName operatingSystem
    internalIP daemonEndpointPort clusterDomain w0 :
  configuredProvider heap "" credential nodeName operatingSystem internalIP
    daemonEndpointPort clusterDomain = Ok w0 ->
  setup.resourceGroup (fields w0) =
    (if String.eqb (Getenv "ACI_RESOURCE_GROUP") ""
     then from_option AKSCredential.ResourceGroup "" credential
     else Getenv "ACI_RESOURCE_GROUP") /\
  setup.region (fields w0) =
    (if String.eqb (Getenv "ACI_REGION") ""
     then from_option AKSCredential.Region "" credential
     else Getenv "ACI_REGION") /\
  setup.vnetResourceGroup (fields w0) =
    match credential with
    | Some c =>
        if String.eqb (AKSCredential.VNetResourceGroup c) ""
        then AKSCredential.ResourceGroup c
        else AKSCredential.VNetResourceGroup c
    | None => ""
    end.
Proof.
  unfold configuredProvider. simpl.
  match goal with |- (?m ≫= _) = _ -> _ => destruct m as [wb|] eqn:Hd; simpl; [| done] end.
  intros Hc. apply checkGroupAndRegion_Ok in Hc as (_ & _ & Hv & Hrg & Hr & _).
  apply loadDiagnostics_fields in Hd as [d Hd]. simpl in Hd.
  rewrite Hrg, Hr, Hv.
  rewrite markContainerInsights_fields, Hd. by destruct credential.
Qed.

(** X29.  When [CLUSTER_RESOURCE_ID] is set and the constructed state has a
    log-analytics object, that object is a ContainerInsights one whose
    metadata are exactly the cluster resource id and the node name; so
    [getDiagnostics] on the constructed state does not panic, and gives the
    pod those two entries and its own UID. *)
Theorem constructed_diagnostics_usable heap config credential nodeName operatingSystem
    internalIP daemonEndpointPort clusterDomain w0 d a la podUUIDKey pod :
  configuredProvider heap config credential nodeName operatingSystem internalIP
    daemonEndpointPort clusterDomain = Ok w0 ->
  Getenv "CLUSTER_RESOURCE_ID" ≠ "" ->
  setup.diagnostics (fields w0) = Some d ->
  ContainerGroupDiagnostics.LogAnalytics d = Some a ->
  objects w0 !! a = Some la ->
  LogAnalytics.LogType la = LogAnalyticsLogTypeContainerInsights /\
  LogAnalytics.Metadata la =
    Some (<[LogAnalyticsMetadataKeyClusterResourceID := Getenv "CLUSTER_RESOURCE_ID"]>
            {[ LogAnalyticsMetadataKeyNodeName := nodeName ]}) /\
  exists objects',
    getDiagnostics podUUIDKey (objects w0) (setup.diagnostics (fields w0)) pod =
      Done (objects', Some d) /\
    metadataOf objects' (Some d) =
      Some (<[podUUIDKey := v1.Pod.UID pod]>
              (<[LogAnalyticsMetadataKeyClusterResourceID := Getenv "CLUSTER_RESOURCE_ID"]>
                 {[ LogAnalyticsMetadataKeyNodeName := nodeName ]})).
Proof.
  unfold configuredProvider. intros Hc Hcrid Hd Ha Hla.
  revert Hc.
  match goal with |- (?m ≫= _) = _ -> _ => destruct m as [wa|]; simpl; [| done] end.
  match goal with |- (?m ≫= _) = _ -> _ => destruct m as [wb|]; simpl; [| done] end.
  intros Hc. apply checkGroupAndRegion_Ok in Hc as (Ho & Hdiag & _).
  rewrite markContainerInsights_fields in Hdiag. rewrite Hdiag in Hd.
  rewrite Ho in Hla. unfold markContainerInsights in Hla, Ho.
  destruct (String.eqb_spec (Getenv "CLUSTER_RESOURCE_ID") "") as [|_]; [done |].
  rewrite Hd in Hla, Ho. simpl in Hla, Ho. rewrite Ha in Hla, Ho. simpl in Hla, Ho.
  rewrite lookup_alter_eq in Hla.
  destruct (objects wb !! a) as [la0|] eqn:Hla0; simpl in Hla; [| done].
  injection Hla as <-. simpl. split; [done |]. split; [done |].
  unfold getDiagnostics. rewrite Hdiag, Hd. simpl. rewrite Ha, Ho. simpl.
  rewrite lookup_alter_eq, Hla0. simpl.
  eexists. split; [reflexivity |].
  unfold metadataOf. simpl. rewrite ?Ha. simpl. by rewrite lookup_insert_eq.
Qed.

End ConstructionFacts.

(** ** The theorems at concrete pods *)

#[local] Existing Instance asciiLib.
#[local] Existing Instance plainCollaborators.

(** Requests of 5m, 12m, 19m and 1000m of CPU become 0.01, 0.01, 0.01 and
    1.00 cores; no request becomes 1 core. *)
Lemma cpu_request_truncated_witness :
  exists acs,
    getContainers linux cpuPod = Ok acs /\
    Forall2 cpuRequestTruncated (v1.PodSpec.Containers (v1.Pod.Spec cpuPod)) acs /\
    Forall2 Qeq (cpuCores <$> acs) [1 # 100; 1 # 100; 1 # 100; 1; 1]%Q.
Proof.
  eexists. split; [vm_compute; reflexivity |]. split.
  - apply (cpu_request_truncated linux cpuPod). vm_compute; reflexivity.
  - repeat constructor.
Defined.

(** C1, as the specification states it, fails on a request of 19m: the code
    gives 0.01 core where rounding 1.9 to the nearest integer gives 0.02. *)
Lemma cpu_request_rounded_counterexample :
  exists ac,
    getContainers linux cpu19Pod = Ok [ac] /\
    ~ (cpuCores ac == roundedCpuRequest 19)%Q.
Proof.
  eexists. split; [vm_compute; reflexivity |].
  vm_compute. discriminate.
Qed.

(** Requests of 50,000,000, 190,000,000 and 2,000,000,000 bytes become 0.1,
    0.1 and 2.0 GB; no request becomes 1.5 GB. *)
Lemma memory_request_truncated_witness :
  exists acs,
    getContainers linux memoryPod = Ok acs /\
    Forall2 memoryRequestTruncated (v1.PodSpec.Containers (v1.Pod.Spec memoryPod)) acs /\
    Forall2 Qeq (memoryGB <$> acs) [1 # 10; 1 # 10; 2; 15 # 10]%Q.
Proof.
  eexists. split; [vm_compute; reflexivity |]. split.
  - apply (memory_request_truncated linux memoryPod). vm_compute; reflexivity.
  - repeat constructor.
Defined.

(** C2, as the specification states it, fails on a request of 190,000,000
    bytes: the code gives 0.1 GB where rounding 1.9 to the nearest integer
    gives 0.2 GB. *)
Lemma memory_request_rounded_counterexample :
  exists ac,
    getContainers linux memory190Pod = Ok [ac] /\
    ~ (memoryGB ac == roundedMemoryRequest 190000000)%Q.
Proof.
  eexists. split; [vm_compute; reflexivity |].
  vm_compute. discriminate.
Qed.

(** A pod whose only container declares args but no command is rejected by
    [getContainers] with the error of the args check, and [CreatePod] stops
    before the backend. *)
Lemma args_without_command_rejected_witness :
  argsButNoCommand argsOnly /\
  argsOnly ∈ v1.PodSpec.Containers (v1.Pod.Spec argsOnlyPod) /\
  getContainers linux argsOnlyPod = Err (InvalidInput argsWithoutCommand) /\
  exists e, run (CreatePod linux argsOnlyPod) = ([], Err e).
Proof.
  assert (argsButNoCommand argsOnly) as Hargs by (split; [reflexivity | discriminate]).
  assert (argsOnly ∈ v1.PodSpec.Containers (v1.Pod.Spec argsOnlyPod)) as Hin by left.
  destruct (args_without_command_rejected linux argsOnlyPod argsOnly Hargs (or_introl Hin))
    as (Hcont & _ & Hcreate).
  destruct (Hcont Hin) as (_ & Hfirst).
  split; [exact Hargs |]. split; [exact Hin |]. split; [| exact Hcreate].
  apply (Hfirst [] []); [reflexivity | constructor].
Defined.

(** The GPU scenario: a limit of 2 GPUs, the annotation asks for K80, the
    region supports P100 only.  The translation fails and nothing reaches the
    backend. *)
Lemma gpu_sku_resolved_witness :
  gpuContainer ∈ v1.PodSpec.Containers (v1.Pod.Spec gpuPod) /\
  gpuLimit gpuContainer = Some (resource.mkQuantity 2000 2) /\
  (exists e, getContainers (sampleProvider ["P100"] "" None) gpuPod = Err e) /\
  (exists e, run (CreatePod (sampleProvider ["P100"] "" None) gpuPod) = ([], Err e)).
Proof.
  assert (gpuContainer ∈ v1.PodSpec.Containers (v1.Pod.Spec gpuPod)) as Hin by left.
  assert (gpuLimit gpuContainer = Some (resource.mkQuantity 2000 2)) as Hgpu
    by (vm_compute; reflexivity).
  destruct (gpu_sku_resolved (sampleProvider ["P100"] "" None) gpuPod gpuContainer _ Hin Hgpu)
    as (_ & _ & Hfail & _).
  split; [exact Hin |]. split; [exact Hgpu |].
  apply Hfail. right; left. exists "K80". split; [vm_compute; reflexivity |].
  repeat constructor.
Defined.

(** With K80 among the supported SKUs under another case, the first match is
    taken and carried by the container with the count 2. *)
Example gpu_sku_first_match :
  getGPUSKU (sampleProvider ["P100"; "k80"; "K80"] "" None) gpuPod = Ok "k80" /\
  exists ac,
    getContainers (sampleProvider ["P100"; "k80"; "K80"] "" None) gpuPod = Ok [ac] /\
    azaci.ResourceRequests.Gpu
      (azaci.ResourceRequirements.Requests (azaci.Container.Resources ac)) =
      Some (azaci.GpuResource.mk 2 "k80").
Proof.
  split; [vm_compute; reflexivity |].
  eexists. split; [vm_compute; reflexivity | reflexivity].
Qed.

(** The variables with an empty value are dropped; the one that comes from a
    secret key is emitted as a secure value. *)
Lemma environment_variables_translated_witness :
  exists acs,
    getContainers linux envPod = Ok acs /\
    getInitContainers envPod = Ok [] /\
    Forall2 (fun c ac => environmentOf c (azaci.Container.EnvironmentVariables ac))
      (v1.PodSpec.Containers (v1.Pod.Spec envPod)) acs /\
    azaci.Container.EnvironmentVariables <$> acs =
      [[azaci.EnvironmentVariable.mk "MODE" (Some "fast") None;
        azaci.EnvironmentVariable.mk "PASSWORD" None (Some "hunter2")]].
Proof.
  eexists. split; [vm_compute; reflexivity |]. split; [reflexivity |]. split.
  - apply (environment_variables_translated linux envPod _ []); reflexivity.
  - reflexivity.
Defined.

(** The Windows scenario: the container ends with no mounts and the volume of
    the service-account mount is gone, the share stays. *)
Lemma windows_service_account_volume_filtered_witness :
  EqualFold "Windows" "Windows" = true /\
  client2.ContainerGroupWrapper.Containers
    (filterWindowsServiceAccountSecretVolume "Windows" windowsGroup) =
    [withVolumeMounts windowsContainer []] /\
  (forall v, v ∈ client2.ContainerGroupWrapper.Volumes
                 (filterWindowsServiceAccountSecretVolume "Windows" windowsGroup) ->
     azaci.Volume.Name v ≠ "kube-api-access") /\
  client2.ContainerGroupWrapper.Volumes
    (filterWindowsServiceAccountSecretVolume "Windows" windowsGroup) =
    [azaci.Volume.mk "share" "azureFile"].
Proof.
  assert (EqualFold "Windows" "Windows" = true) as Hos by reflexivity.
  destruct (windows_service_account_volume_filtered "Windows" windowsGroup Hos)
    as (Hcontainers & _ & _ & Hscenario).
  split; [exact Hos |]. split; [rewrite Hcontainers; reflexivity |]. split.
  - apply (Hscenario windowsContainer serviceAccountMount); [left | reflexivity..].
  - vm_compute; reflexivity.
Defined.

(** An init container that declares a port makes [getInitContainers] fail
    with [InvalidInput], and [CreatePod] stops before the backend. *)
Lemma init_container_fields_rejected_witness :
  initWithPort ∈ v1.PodSpec.InitContainers (v1.Pod.Spec initWithPortPod) /\
  declaresUnsupportedInitField initWithPort /\
  (exists msg, getInitContainers initWithPortPod = Err (InvalidInput msg)) /\
  (exists e, run (CreatePod linux initWithPortPod) = ([], Err e)).
Proof.
  assert (initWithPort ∈ v1.PodSpec.InitContainers (v1.Pod.Spec initWithPortPod)) as Hin by left.
  assert (declaresUnsupportedInitField initWithPort) as Hdecl by (left; discriminate).
  split; [exact Hin |]. split; [exact Hdecl |].
  exact (init_container_fields_rejected linux initWithPortPod initWithPort Hin Hdecl).
Defined.

(** A pod with two declared ports and a DNS label, on a provider without a
    subnet: the submitted request has a public address with both ports and
    the label. *)
Lemma public_ip_attached_witness :
  exists cg,
    containerGroupRequest linux webPod = Ok cg /\
    client2.ContainerGroupWrapper.IPAddress cg =
      Some (azaci.IPAddress.mk
              [azaci.Port.mk "TCP" 80; azaci.Port.mk "TCP" 53] "Public" (Some "web-demo")) /\
    is_Some (client2.ContainerGroupWrapper.IPAddress cg).
Proof.
  eexists. split; [vm_compute; reflexivity |]. split; [reflexivity |].
  refine (proj2 (proj1 (proj2 (public_ip_attached linux webPod _ _ _))) _).
  - intros p' cg' pod'. reflexivity.
  - vm_compute; reflexivity.
  - split; [| reflexivity].
    eexists. split; [left | discriminate].
Defined.

(** With a subnet configured the same pod gets no IP address. *)
Example public_ip_not_attached_in_subnet :
  client2.ContainerGroupWrapper.IPAddress
    <$> containerGroupRequest (sampleProvider [] "aci-subnet" None) webPod = Ok None.
Proof. vm_compute; reflexivity. Qed.

(** A limits map holding a memory limit only: the CPU limit is the CPU
    request of 0.25 core, the memory limit is the one specified; the container
    without a limits map gets no limits. *)
Lemma limits_mirror_requests_witness :
  exists acs,
    getContainers linux limitsPod = Ok acs /\
    Forall2 limitsMirrorRequests (v1.PodSpec.Containers (v1.Pod.Spec limitsPod)) acs /\
    (azaci.ResourceRequirements.Limits ∘ azaci.Container.Resources) <$> acs =
      [Some (azaci.ResourceLimits.mk (10 # 10) (25 # 100) None); None].
Proof.
  eexists. split; [vm_compute; reflexivity |]. split.
  - apply (limits_mirror_requests linux limitsPod). vm_compute; reflexivity.
  - reflexivity.
Defined.

(** C9, as the specification states it, fails on a container without a limits
    map: the translated container has no limits that could equal its
    requests. *)
Lemma limits_mirror_requests_counterexample :
  exists ac,
    getContainers linux noLimitsPod = Ok [ac] /\
    ~ limitsEqualRequests ac.
Proof.
  eexists. split; [vm_compute; reflexivity |].
  intros (l & Hl & _). discriminate Hl.
Qed.

(** The listed group carries a [NodeName] tag whose string is the name of the
    node, at an address other than that of the provider's field: [GetPods]
    skips it and [ListActivePods] reports nothing. *)
Lemma node_filter_compares_pointers_witness :
  GetContainerGroupListResult (azClientsAPIs listingProvider) (resourceGroup listingProvider)
    = Ok (Some [listedGroup]) /\
  (nodeNameTag listedGroup ≫= fun a => listingStore !! a) = Some (nodeName listingProvider) /\
  run (GetPods listingStore listingProvider) =
    ([CallGetContainerGroupListResult "rg"], Ok (Some [])) /\
  run (ListActivePods listingStore listingProvider) =
    ([CallGetContainerGroupListResult "rg"], Ok []).
Proof.
  assert (GetContainerGroupListResult (azClientsAPIs listingProvider)
            (resourceGroup listingProvider) = Ok (Some [listedGroup])) as Hlist
    by reflexivity.
  destruct (node_filter_compares_pointers listingStore listingProvider [listedGroup] Hlist)
    as (pods & Hget & Hactive & _ & _ & Hnone).
  assert (pods = []) as ->.
  { apply Hnone. repeat constructor. vm_compute. discriminate. }
  split; [exact Hlist |]. split; [vm_compute; reflexivity |].
  split; [exact Hget | exact Hactive].
Defined.

(** ** The further properties at concrete inputs *)

(** The auth text [dXNlcjpwYXNz] decodes to [user:pass]: the credential of
    the server carries the two halves. *)
Lemma registry_credential_from_auth_witness :
  AuthUsername authOnly = "" /\
  makeRegistryCredential (lib := tableLib) "registry.example.com" authOnly =
    Ok (azaci.ImageRegistryCredential.mk "registry.example.com" "user" "pass").
Proof.
  split; [reflexivity |].
  apply (registry_credential_from_auth (lib := tableLib) "registry.example.com" authOnly);
    [reflexivity |].
  split; [discriminate |].
  exists "user", "pass". repeat split; reflexivity.
Defined.

(** A decoded text with two colons is not split into a user name and a
    password. *)
Example registry_credential_two_colons :
  is_Err (makeRegistryCredential (lib := tableLib) "registry.example.com"
            (Build_AuthConfig "" "" "dXNlcjpwYTpzcw==")).
Proof. vm_compute. eauto. Qed.

(** The secret [opaque] is neither a dockercfg nor a dockerconfigjson
    secret: the pod that names it after a usable one is not created. *)
Lemma unusable_pull_secret_fails_witness :
  "opaque" ∈ v1.PodSpec.ImagePullSecrets (v1.Pod.Spec (pullPod ["acr"; "opaque"])) /\
  unusablePullSecret linuxWithSecrets "default" "opaque" /\
  is_Err (getImagePullSecrets (lib := tableLib) linuxWithSecrets (pullPod ["acr"; "opaque"])) /\
  exists e, run (CreatePod (lib := tableLib) (collab := plainCollaborators)
                   linuxWithSecrets (pullPod ["acr"; "opaque"])) = ([], Err e).
Proof.
  assert (Hin : "opaque" ∈ v1.PodSpec.ImagePullSecrets
                  (v1.Pod.Spec (pullPod ["acr"; "opaque"]))).
  { simpl. apply list_elem_of_In. simpl. tauto. }
  assert (Hbad : unusablePullSecret linuxWithSecrets
                   (v1.Pod.Namespace (pullPod ["acr"; "opaque"])) "opaque").
  { vm_compute. split; discriminate. }
  split; [exact Hin |]. split; [exact Hbad |].
  exact (unusable_pull_secret_fails (lib := tableLib) (collab := plainCollaborators)
           linuxWithSecrets (pullPod ["acr"; "opaque"]) "opaque" Hin Hbad).
Defined.

(** A liveness probe with an exec and an HTTP handler stops the pod. *)
Lemma probe_needs_one_handler_witness :
  probedContainer ∈ v1.PodSpec.Containers (v1.Pod.Spec probedPod) /\
  v1.Container.LivenessProbe probedContainer = Some twoHandlers /\
  handlerAmbiguous twoHandlers /\
  is_Err (getContainers linux probedPod) /\
  exists e, run (CreatePod linux probedPod) = ([], Err e).
Proof.
  assert (Hin : probedContainer ∈ v1.PodSpec.Containers (v1.Pod.Spec probedPod)).
  { simpl. apply list_elem_of_In. simpl. tauto. }
  assert (Hamb : handlerAmbiguous twoHandlers).
  { unfold handlerAmbiguous. simpl. left. split; discriminate. }
  split; [exact Hin |]. split; [reflexivity |]. split; [exact Hamb |].
  exact (proj2 (probe_needs_one_handler linux probedPod probedContainer twoHandlers
                  Hin (or_introl eq_refl) Hamb)).
Defined.

(** Of the two ports named [http], the probe gets the first, 8080. *)
Lemma probe_named_port_resolved_witness :
  exists ap,
    getProbe httpProbe declaredPortList = Ok ap /\
    azaci.ContainerProbe.HTTPGet ap =
      Some (azaci.ContainerHTTPGet.mk "/healthz" 8080 "HTTP").
Proof.
  eexists. split; [vm_compute; reflexivity |].
  destruct (proj1 (probe_named_port_resolved httpProbe declaredPortList
                     (v1.HTTPGetAction.mk "/healthz" (intstr.String "http") "HTTP")
                     "http" _ eq_refl eq_refl eq_refl) eq_refl)
    as (port & _ & _ & _ & Hget & _).
  reflexivity.
Defined.

(** A first port of that name with the number 0 is "not found", although a
    later port of the name has a number. *)
Example probe_named_port_zero : is_Err (getProbe httpProbe zeroPortList).
Proof. vm_compute. eauto. Qed.

(** The web pod keeps its name, image, command and ports. *)
Lemma containers_keep_shape_witness :
  exists acs,
    getContainers linux webPod = Ok acs /\
    Forall2 sameShape (v1.PodSpec.Containers (v1.Pod.Spec webPod)) acs.
Proof.
  eexists. split; [vm_compute; reflexivity |].
  apply (containers_keep_shape linux webPod). vm_compute; reflexivity.
Defined.

Lemma specified_limits_carried_witness :
  exists acs,
    getContainers linux limitsPod = Ok acs /\
    Forall2 specifiedLimitsCarried (v1.PodSpec.Containers (v1.Pod.Spec limitsPod)) acs.
Proof.
  eexists. split; [vm_compute; reflexivity |].
  apply (specified_limits_carried linux limitsPod). vm_compute; reflexivity.
Defined.

(** 5m of CPU and 50,000,000 bytes, requested and limited alike: the group
    asks for 0.01 cores and 0.1 GB under limits of 0.005 cores and 0 GB. *)
Lemma small_limit_below_request_witness :
  exists acs,
    getContainers linux tinyPod = Ok acs /\
    Forall2 (fun ac l =>
               (cpuCores ac == 1 # 100)%Q /\ (memoryGB ac == 1 # 10)%Q /\
               exists limits,
                 azaci.ResourceRequirements.Limits (azaci.Container.Resources ac)
                   = Some limits /\
                 (azaci.ResourceLimits.CPU limits < cpuCores ac)%Q /\
                 (azaci.ResourceLimits.MemoryInGB limits < memoryGB ac)%Q /\
                 (azaci.ResourceLimits.CPU limits == l.1)%Q /\
                 (azaci.ResourceLimits.MemoryInGB limits == l.2)%Q)
      acs [(5 # 1000, 0)%Q].
Proof.
  eexists. split; [vm_compute; reflexivity |].
  match goal with
  | |- Forall2 _ ?acs _ =>
      pose proof (small_limit_below_request linux tinyPod acs
                    ltac:(vm_compute; reflexivity)) as Hall
  end.
  change (v1.PodSpec.Containers (v1.Pod.Spec tinyPod)) with [tinyContainer] in Hall.
  apply Forall2_cons_1 in Hall as [Hc _].
  destruct (Hc tinyQuantities tinyQuantities _ eq_refl eq_refl eq_refl) as [Hcpu Hmem].
  constructor; [| constructor].
  split; [reflexivity |]. split; [reflexivity |].
  eexists. split; [reflexivity |].
  split; [apply (Hcpu (resource.mkQuantity 5 1)); [reflexivity | reflexivity | simpl; lia] |].
  split; [apply (Hmem (resource.mkQuantity 50000000000 50000000));
            [reflexivity | reflexivity | simpl; lia] |].
  split; reflexivity.
Defined.

Lemma requests_on_backend_grid_witness :
  exists acs, getContainers linux cpuPod = Ok acs /\ Forall onBackendGrid acs.
Proof.
  eexists. split; [vm_compute; reflexivity |].
  apply (requests_on_backend_grid linux cpuPod). vm_compute; reflexivity.
Defined.

(** On Windows the init container keeps its mount of the service-account
    volume, while the volume itself leaves the group. *)
Lemma windows_filter_skips_init_containers_witness :
  EqualFold "windows" "Windows" = true /\
  let cgw' := filterWindowsServiceAccountSecretVolume "windows" windowsGroupWithInit in
  client2.ContainerGroupWrapper.InitContainers cgw' = [windowsInit] /\
  azaci.Volume.Name <$> client2.ContainerGroupWrapper.Volumes cgw' = ["share"] /\
  azaci.VolumeMount.Name <$> azaci.InitContainerDefinition.VolumeMounts windowsInit
    = ["kube-api-access"].
Proof.
  split; [reflexivity |].
  split; [| split; [vm_compute; reflexivity | reflexivity]].
  exact (proj1 (windows_filter_skips_init_containers "windows" windowsGroupWithInit eq_refl)).
Defined.

(** The web pod translates, and its creation is one call to the backend. *)
Lemma create_pod_calls_once_witness :
  exists cg,
    containerGroupRequest linux webPod = Ok cg /\
    run (CreatePod linux webPod) =
      ([CallCreateContainerGroup "rg" (v1.Pod.Namespace webPod) (v1.Pod.Name webPod) cg],
       Ok tt).
Proof.
  destruct (create_pod_calls_once linux webPod _ _
              (surjective_pairing (run (CreatePod linux webPod))))
    as [(e & He & _) | (cg & Hcg & Hlog & Hr)].
  - vm_compute in He. discriminate He.
  - exists cg. split; [exact Hcg |].
    rewrite (surjective_pairing (run (CreatePod linux webPod))), Hlog, Hr. reflexivity.
Defined.

(** Of three listed groups, the one with another pointer and the one that
    does not convert are left out without an error. *)
Lemma get_pods_skips_failed_conversions_witness :
  GetContainerGroupListResult (azClientsAPIs mixedListing) (resourceGroup mixedListing)
    = Ok (Some [ownGroup; brokenGroup; listedGroup]) /\
  exists pod,
    run (GetPods (collab := pickyCollaborators) listingStore mixedListing) =
      ([CallGetContainerGroupListResult "rg"], Ok (Some [pod])) /\
    v1.Pod.Name pod = "default-web".
Proof.
  split; [reflexivity |].
  eexists. split.
  - rewrite (get_pods_skips_failed_conversions (collab := pickyCollaborators)
               listingStore mixedListing [ownGroup; brokenGroup; listedGroup] eq_refl).
    vm_compute. reflexivity.
  - reflexivity.
Defined.

Lemma group_name_injective_witness :
  noHyphen "default" = true /\
  containerGroupName "default" "web-1" = containerGroupName "default" ("web" ++ "-1") /\
  "default" = "default" /\ "web-1" = ("web" ++ "-1")%string.
Proof.
  split; [reflexivity |]. split; [reflexivity |].
  exact (group_name_injective "default" "web-1" "default" ("web" ++ "-1")
           eq_refl eq_refl eq_refl).
Defined.

(** The group [default-web] is rejected by the validation and listed all the
    same. *)
Lemma get_pods_lists_unvalidated_groups_witness :
  ValidateContainerGroup (GroupClients := strictClients) (Some ownGroup)
    = Some (Errorf "containers cannot be nil") /\
  exists pod,
    (run (GetPods listingStore ownListing)).2 = Ok (Some [pod]) /\
    (trace (GetPod (clients := strictClients) listingStore ownListing "default" "web")).2
      = Err (Errorf "containers cannot be nil").
Proof.
  split; [reflexivity |].
  eexists.
  apply (get_pods_lists_unvalidated_groups (clients := strictClients)
           listingStore ownListing ownGroup _ _ "default" "web");
    [reflexivity | reflexivity | vm_compute; reflexivity | vm_compute; reflexivity
    | reflexivity].
Defined.

(** After the call for the second pod, the one metadata map shows its UID. *)
Lemma diagnostics_shared_between_pods_witness :
  exists objects1 objects2,
    getDiagnostics "pod-uuid" insightsStore (Some insightsDiagnostics) (podWithUID "uid-1")
      = Done (objects1, Some insightsDiagnostics) /\
    getDiagnostics "pod-uuid" objects1 (Some insightsDiagnostics) (podWithUID "uid-2")
      = Done (objects2, Some insightsDiagnostics) /\
    (metadataOf objects1 (Some insightsDiagnostics) ≫= fun m => m !! "pod-uuid")
      = Some "uid-1" /\
    (metadataOf objects2 (Some insightsDiagnostics) ≫= fun m => m !! "pod-uuid")
      = Some "uid-2".
Proof.
  destruct (diagnostics_shared_between_pods "pod-uuid" insightsStore insightsDiagnostics
              7%positive insights {[ "node-name" := "vk" ]}
              (podWithUID "uid-1") (podWithUID "uid-2")
              eq_refl eq_refl eq_refl eq_refl)
    as (objects1 & objects2 & H1 & H2 & Hm1 & Hm2 & _).
  exists objects1, objects2.
  split; [exact H1 |]. split; [exact H2 |].
  rewrite Hm1, Hm2. split; reflexivity.
Defined.

(** Two pods of one UID and different names: the second is answered with the
    statistics of the first, 42, where the getter would have said 7. *)
Lemma cached_stats_served_witness :
  let cacheGetter := WrapCachedPodStatsGetter (gocache := mapCache Z) 60 statsByName in
  statsByName (podNamed "other" "uid-1") = Ok 7 /\
  exists cacheGetter',
    getPodStats cacheGetter (podNamed "web" "uid-1")
      = (cacheGetter', [podNamed "web" "uid-1"], Ok 42) /\
    getPodStats cacheGetter' (podNamed "other" "uid-1") = (cacheGetter', [], Ok 42).
Proof.
  intros cacheGetter. split; [reflexivity |].
  apply (cached_stats_served (gocache := mapCache Z) cacheGetter
           (podNamed "web" "uid-1") (podNamed "other" "uid-1") 42);
    [intros c k x; apply lookup_insert_eq | reflexivity | reflexivity | reflexivity].
Defined.

(** The region [West US 2] of the credential passes the region check as [westus2]. *)
Lemma new_provider_passed_checks_witness :
  exists w w0 w1,
    NewACIProvider (startup := sampleStartup) ∅ "" (Some sampleCredential) "vk" "Linux"
      "10.0.0.1" 10250 "cluster.local" = Ok w /\
    configuredProvider (startup := sampleStartup) ∅ "" (Some sampleCredential) "vk" "Linux"
      "10.0.0.1" 10250 "cluster.local" = Ok w0 /\
    setupNodeCapacity (Startup := sampleStartup) w0 = Ok w1 /\
    setVNETConfig (Startup := sampleStartup) (Some sampleCredential) w1 = Ok w /\
    setup.resourceGroup (fields w0) ≠ "" /\
    setup.region (fields w0) ≠ "" /\
    removeSpaces (asciiToLower (setup.region (fields w0))) ∈ validAciRegions.
Proof.
  eexists.
  match goal with
  | |- exists w0 w1, ?new = Ok ?w /\ _ =>
      assert (Hnew : new = Ok w) by (vm_compute; reflexivity);
      destruct (new_provider_passed_checks (startup := sampleStartup) ∅ ""
                  (Some sampleCredential) "vk" "Linux" "10.0.0.1" 10250 "cluster.local"
                  w Hnew) as (w0 & w1 & H0 & H1 & H2 & Hrg & Hr & Hin);
      exists w0, w1
  end.
  repeat (split; [assumption |]). exact Hin.
Defined.

(** The resource group comes from [ACI_RESOURCE_GROUP], the region from the
    credential, and the resource group of the virtual network is the
    credential's, not the environment's. *)
Lemma group_and_region_sources_witness :
  exists w0,
    configuredProvider (startup := sampleStartup) ∅ "" (Some sampleCredential) "vk" "Linux"
      "10.0.0.1" 10250 "cluster.local" = Ok w0 /\
    setup.resourceGroup (fields w0) = "aci-rg" /\
    setup.region (fields w0) = "West US 2" /\
    setup.vnetResourceGroup (fields w0) = "aks-rg".
Proof.
  eexists.
  match goal with
  | |- ?conf = Ok ?w0 /\ _ =>
      assert (Hconf : conf = Ok w0) by (vm_compute; reflexivity);
      split; [exact Hconf |];
      exact (group_and_region_sources (startup := sampleStartup) ∅ (Some sampleCredential)
               "vk" "Linux" "10.0.0.1" 10250 "cluster.local" w0 Hconf)
  end.
Defined.

(** The workspace built from [LOG_ANALYTICS_ID] and [LOG_ANALYTICS_KEY]
    becomes a ContainerInsights one, and a pod gets three metadata entries. *)
Lemma constructed_diagnostics_usable_witness :
  exists w0 d objects',
    configuredProvider (startup := sampleStartup) ∅ "" (Some sampleCredential) "vk" "Linux"
      "10.0.0.1" 10250 "cluster.local" = Ok w0 /\
    setup.diagnostics (fields w0) = Some d /\
    getDiagnostics "pod-uuid" (objects w0) (setup.diagnostics (fields w0))
      (podWithUID "uid-1") = Done (objects', Some d) /\
    metadataOf objects' (Some d) =
      Some (<["pod-uuid" := "uid-1"]>
              (<[LogAnalyticsMetadataKeyClusterResourceID := "/subscriptions/s/cluster"]>
                 {[ LogAnalyticsMetadataKeyNodeName := "vk" ]})).
Proof.
  eexists. exists (ContainerGroupDiagnostics.mk (Some 7%positive)).
  match goal with
  | |- exists objects', ?conf = Ok ?w0 /\ _ =>
      assert (Hconf : conf = Ok w0) by (vm_compute; reflexivity);
      edestruct (constructed_diagnostics_usable (startup := sampleStartup) ∅ ""
                   (Some sampleCredential) "vk" "Linux" "10.0.0.1" 10250 "cluster.local"
                   w0 (ContainerGroupDiagnostics.mk (Some 7%positive)) 7%positive
                   (LogAnalytics.mk "workspace" "key" LogAnalyticsLogTypeContainerInsights
                      (Some (<[LogAnalyticsMetadataKeyClusterResourceID :=
                                 "/subscriptions/s/cluster"]>
                               {[ LogAnalyticsMetadataKeyNodeName := "vk" ]})))
                   "pod-uuid" (podWithUID "uid-1") Hconf)
        as (_ & _ & objects' & Hd & Hm)
  end.
  - vm_compute. discriminate.
  - reflexivity.
  - reflexivity.
  - vm_compute. reflexivity.
  - exists objects'. split; [assumption |]. split; [reflexivity |].
    split; [exact Hd | exact Hm].
Defined.

(** The two registries of a dockerconfigjson secret, in the order of the
    document, after the credentials collected before. *)
Lemma docker_config_json_credentials_witness :
  readDockerConfigJSONSecret (lib := tableLib)
    (v1.Secret.mk v1.SecretTypeDockerConfigJson
       {[ v1.DockerConfigJsonKey := "two-registries" ]})
    [azaci.ImageRegistryCredential.mk "zero.azurecr.io" "carol" "c-secret"] =
  Ok [azaci.ImageRegistryCredential.mk "zero.azurecr.io" "carol" "c-secret";
      azaci.ImageRegistryCredential.mk "one.azurecr.io" "alice" "a-secret";
      azaci.ImageRegistryCredential.mk "two.azurecr.io" "bob" "b-secret"].
Proof.
  apply (proj2 (docker_config_json_credentials (lib := tableLib) _ _ _)).
  eexists _, _. split; [reflexivity |]. split; [reflexivity |].
  split; [discriminate |].
  split; [repeat constructor; discriminate | reflexivity].
Defined.

(** An init container with a command, args and a mount is translated; one
    with a port is refused. *)
Lemma init_containers_translated_witness :
  is_Err (getInitContainers initWithPortPod) /\
  exists ics,
    getInitContainers initPod = Ok ics /\
    Forall2 sameInitShape (v1.PodSpec.InitContainers (v1.Pod.Spec initPod)) ics /\
    azaci.InitContainerDefinition.Command <$> ics = [["sh"; "-c"; "true"]].
Proof.
  split.
  - apply (proj1 (init_containers_translated initWithPortPod)).
    exists initWithPort. split; [left | right; left; discriminate].
  - eexists. split; [vm_compute; reflexivity |]. split; [| reflexivity].
    apply (proj2 (init_containers_translated initPod)). vm_compute; reflexivity.
Defined.

(** With a container that cannot be translated and a pull secret that does
    not exist, the error is the container's. *)
Lemma create_pod_error_precedence_witness :
  exists e,
    getContainers linux doublyBadPod = Err e /\
    is_Err (getImagePullSecrets linux doublyBadPod) /\
    isInvalidInput e = true /\
    run (CreatePod linux doublyBadPod) = ([], Err e).
Proof.
  eexists. split; [vm_compute; reflexivity |].
  split; [vm_compute; exact I |]. split; [reflexivity |].
  apply (proj1 (create_pod_error_precedence linux doublyBadPod _)).
  vm_compute; reflexivity.
Defined.

(** A failed listing is the error of both functions; a nil list is a nil
    slice of pods and an empty list of identifiers. *)
Lemma listing_error_and_nil_witness :
  run (ListActivePods listingStore failingListing) =
    ([CallGetContainerGroupListResult "rg"], Err (Upstream "throttled")) /\
  run (GetPods listingStore (sampleProvider [] "" None)) =
    ([CallGetContainerGroupListResult "rg"], Ok None) /\
  run (ListActivePods listingStore (sampleProvider [] "" None)) =
    ([CallGetContainerGroupListResult "rg"], Ok []).
Proof.
  split.
  - exact (proj2 (proj1 (listing_error_and_nil listingStore failingListing) _ eq_refl)).
  - exact (proj2 (listing_error_and_nil listingStore (sampleProvider [] "" None)) eq_refl).
Defined.

(** A refused delete is the error, and the tracker is not told; an accepted
    delete is a success although the tracker answers with an error. *)
Lemma delete_reports_backend_only_witness :
  trace (deleteContainerGroup (clients := strictClients) (Some failingTracker) 100 linux
           "default" "web") =
    ([CallDeleteContainerGroup "rg" "default-web"], Err (Upstream "conflict")) /\
  trace (deleteContainerGroup (clients := lenientClients) (Some failingTracker) 100 linux
           "default" "web") =
    ([CallDeleteContainerGroup "rg" "default-web";
      CallUpdatePodStatus "default" "web" (markPodDeleted 100) false], Ok tt).
Proof.
  split.
  - exact (proj1 (delete_reports_backend_only (clients := strictClients)
                    (Some failingTracker) 100 linux "default" "web") _ eq_refl).
  - exact (proj2 (delete_reports_backend_only (clients := lenientClients)
                    (Some failingTracker) 100 linux "default" "web") eq_refl).
Defined.

(** The group that the validation rejects is not converted. *)
Lemma get_pod_validates_first_witness :
  (trace (GetPod (clients := strictClients) listingStore linux "default" "web")).1 =
    [CallGetContainerGroupInfo "rg" "default" "web" "virtual-kubelet"] /\
  (trace (GetPod (clients := strictClients) listingStore linux "default" "web")).2 =
    Err (Errorf "containers cannot be nil") /\
  (trace (GetPodStatus (clients := strictClients) linux "default" "web")).2 =
    Err (Errorf "containers cannot be nil").
Proof.
  pose proof (get_pod_validates_first (clients := strictClients) listingStore linux
                "default" "web") as H.
  cbv zeta in H. destruct H as (Hcall & _ & _ & Hvalidate & _).
  split; [exact Hcall |].
  exact (Hvalidate (Some ownGroup) _ eq_refl eq_refl).
Defined.

(** A ContainerInsights workspace without a metadata map panics; without
    diagnostics nothing changes. *)
Lemma diagnostics_returned_or_panic_witness :
  getDiagnostics "pod-uuid" bareInsightsStore (Some insightsDiagnostics) (podWithUID "uid-1")
    = Panic /\
  exists objects' diagnostics',
    getDiagnostics "pod-uuid" insightsStore None (podWithUID "uid-1")
      = Done (objects', diagnostics') /\
    diagnostics' = None /\ objects' = insightsStore.
Proof.
  split.
  - exact (proj2 (diagnostics_returned_or_panic "pod-uuid" bareInsightsStore
                    (Some insightsDiagnostics) (podWithUID "uid-1"))
             insightsDiagnostics 7%positive
             (LogAnalytics.mk "workspace" "key" "ContainerInsights" None)
             eq_refl eq_refl eq_refl eq_refl eq_refl).
  - eexists _, _. split; [reflexivity |].
    destruct (proj1 (diagnostics_returned_or_panic "pod-uuid" insightsStore None
                       (podWithUID "uid-1")) _ _ eq_refl) as (Hd & _ & _ & Hsame).
    split; [exact Hd | exact (Hsame eq_refl)].
Defined.
